(** * A shallow embedding of the YouTube helper backend ([main.py])

    The development follows the layout of the source: Python values, the
    builtins the code calls, the process state (cache, credential global,
    environment), the TTL cache, the credential gate, the five upstream
    operations and the four public endpoints. The vocabulary of the
    statements and the scenarios they are tried on come next, then the
    properties, component by component.

    Modelling conventions.
    - Python values that flow through the cache and the JSON bodies are
      terms of [PyVal]; JSON numbers are integers (no floats).
    - Text is [string]; every character is one [ascii]. The case mapping
      of [str.lower] is the interpreter's: like [int] and [str] it is a
      parameter of the model, so the results hold for every handle.
    - [time.time()] is read from an oracle; a reading is a rational
      number of seconds, and its arithmetic is exact.
    - [requests.get] is an oracle too: it answers with a response or fails
      with a transport exception.
    - An uncaught Python exception ends the call; the state changes made
      before it stay. *)

From Stdlib Require Import ZArith QArith Lqa String Ascii List Lia Permutation Sorted.
From stdpp Require Import gmap strings pretty.

Open Scope string_scope.
Open Scope list_scope.
Open Scope Z_scope.

#[local] Set Warnings "-register-all".

(** ** Python values *)

Inductive PyVal : Type :=
| PNone
| PBool (b : bool)
| PInt (z : Z)
| PStr (s : string)
| PList (l : list PyVal)
| PDict (kv : list (string * PyVal)).

(** [bool(v)]: the test behind [if v] and [if not v]. *)
Definition truthy (v : PyVal) : bool :=
  match v with
  | PNone => false
  | PBool b => b
  | PInt z => negb (z =? 0)
  | PStr s => negb (String.eqb s EmptyString)
  | PList l => match l with [] => false | _ => true end
  | PDict kv => match kv with [] => false | _ => true end
  end.

(** [if s] for an [Optional[str]]. *)
Definition truthy_opt (o : option string) : bool :=
  match o with
  | None => false
  | Some s => negb (String.eqb s EmptyString)
  end.

(** An [Optional[str]] as a Python value. *)
Definition of_opt (o : option string) : PyVal :=
  match o with
  | None => PNone
  | Some s => PStr s
  end.

(** ** Exceptions and outcomes *)

Inductive PyExc : Type :=
| HTTPException (status_code : Z) (detail : string)
| RequestValidationError
| KeyError
| IndexError
| TypeError
| AttributeError
| ValueError
| JSONDecodeError
| RequestException.

Inductive Outcome (A : Type) : Type :=
| Return (a : A)
| Raise (e : PyExc).

Arguments Return {A} a.
Arguments Raise {A} e.

(** ** Pure builtins *)

Fixpoint dict_lookup (k : string) (kv : list (string * PyVal)) : option PyVal :=
  match kv with
  | [] => None
  | (k', v) :: rest => if String.eqb k' k then Some v else dict_lookup k rest
  end.

(** [d.get(k, default)]; an object that is no dict has no [get]. *)
Definition py_get (d : PyVal) (k : string) (default : PyVal) : Outcome PyVal :=
  match d with
  | PDict kv =>
      match dict_lookup k kv with
      | Some v => Return v
      | None => Return default
      end
  | _ => Raise AttributeError
  end.

(** [d[k]] with a string key. *)
Definition py_item (d : PyVal) (k : string) : Outcome PyVal :=
  match d with
  | PDict kv =>
      match dict_lookup k kv with
      | Some v => Return v
      | None => Raise KeyError
      end
  | _ => Raise TypeError
  end.

(** [v[0]]. *)
Definition py_item0 (v : PyVal) : Outcome PyVal :=
  match v with
  | PList (x :: _) => Return x
  | PList [] => Raise IndexError
  | PStr (String c _) => Return (PStr (String c EmptyString))
  | PStr EmptyString => Raise IndexError
  | PDict _ => Raise KeyError
  | _ => Raise TypeError
  end.

Fixpoint chars (s : string) : list PyVal :=
  match s with
  | EmptyString => []
  | String c s' => PStr (String c EmptyString) :: chars s'
  end.

(** The elements a [for] loop or a comprehension walks through. *)
Definition py_iter (v : PyVal) : Outcome (list PyVal) :=
  match v with
  | PList l => Return l
  | PStr s => Return (chars s)
  | PDict kv => Return (map (fun p => PStr (fst p)) kv)
  | _ => Raise TypeError
  end.

(** [s[:n]] on a string, [n] a non-negative literal. *)
Fixpoint str_take (n : nat) (s : string) : string :=
  match n, s with
  | S n', String c s' => String c (str_take n' s')
  | _, _ => EmptyString
  end.

(** [l[:n]] on a list: a negative [n] counts from the end. *)
Definition py_slice_to {A : Type} (l : list A) (n : Z) : list A :=
  if 0 <=? n then firstn (Z.to_nat n) l
  else firstn (Z.to_nat (Z.of_nat (length l) + n)) l.

(** [range(1, n + 1)]. *)
Definition range1 (n : Z) : list Z := seqZ 1 n.

Fixpoint lstrip (c : ascii) (s : string) : string :=
  match s with
  | EmptyString => EmptyString
  | String a s' => if Ascii.eqb a c then lstrip c s' else s
  end.

Fixpoint rstrip (c : ascii) (s : string) : string :=
  match s with
  | EmptyString => EmptyString
  | String a s' =>
      match rstrip c s' with
      | EmptyString => if Ascii.eqb a c then EmptyString else String a EmptyString
      | r => String a r
      end
  end.

(** [s.strip(c)]: every [c] at either end goes. *)
Definition strip (c : ascii) (s : string) : string := rstrip c (lstrip c s).

(** [sep.join(l)]: every element has to be a [str]. *)
Fixpoint py_join (sep : string) (l : list PyVal) : Outcome string :=
  match l with
  | [] => Return EmptyString
  | PStr s :: rest =>
      match rest with
      | [] => Return s
      | _ =>
          match py_join sep rest with
          | Return t => Return (s +:+ sep +:+ t)
          | Raise e => Raise e
          end
      end
  | _ :: _ => Raise TypeError
  end.

(** ** The outside world *)

(** [requests.get(url, params=params, timeout=timeout)]. *)
Record Request : Type := {
  url : string;
  params : list (string * PyVal);
  timeout : Z
}.

(** What the code reads of a response: [r.status_code], [r.text] and
    [r.json()], which raises when the body is no JSON document. *)
Record Response : Type := {
  status_code : Z;
  text : string;
  json : option PyVal
}.

(** What a call did, in order, with what it was answered. *)
Inductive Event : Type :=
| EvTime (t : Q)
| EvGetenv (name : string) (value : option string)
| EvRequest (req : Request) (answer : option Response)
| EvCacheGet (key : string)
| EvCachePop (key : string)
| EvCacheSet (key : string).

(** The clock and the upstream API answer as a function of everything that
    happened so far, so any sequence of readings and responses is covered;
    [None] from the upstream is a transport failure (timeout, connection
    error). *)
Record World : Type := {
  clock : list Event -> Q;
  upstream : list Event -> Request -> option Response
}.

(** ** Process state *)

(** [{"ts": ..., "data": ...}] *)
Record CacheEntry : Type := {
  ts : Q;
  data : PyVal
}.

Record State : Type := {
  _cache : gmap string CacheEntry;
  YOUTUBE_API_KEY : option string;
  environ : gmap string string;
  log : list Event
}.

Definition with_cache (c : gmap string CacheEntry) (st : State) : State :=
  {| _cache := c; YOUTUBE_API_KEY := YOUTUBE_API_KEY st;
     environ := environ st; log := log st |}.

Definition with_key (k : option string) (st : State) : State :=
  {| _cache := _cache st; YOUTUBE_API_KEY := k;
     environ := environ st; log := log st |}.

Definition with_environ (e : gmap string string) (st : State) : State :=
  {| _cache := _cache st; YOUTUBE_API_KEY := YOUTUBE_API_KEY st;
     environ := e; log := log st |}.

Definition record (ev : Event) (st : State) : State :=
  {| _cache := _cache st; YOUTUBE_API_KEY := YOUTUBE_API_KEY st;
     environ := environ st; log := log st ++ [ev] |}.

(** ** The monad of the code: state and exceptions *)

Definition M (A : Type) : Type := State -> Outcome A * State.

Definition ret {A : Type} (a : A) : M A := fun st => (Return a, st).

Definition raise {A : Type} (e : PyExc) : M A := fun st => (Raise e, st).

Definition bind {A B : Type} (m : M A) (k : A -> M B) : M B :=
  fun st =>
    match m st with
    | (Return a, st') => k a st'
    | (Raise e, st') => (Raise e, st')
    end.

(** A pure computation that may raise. *)
Definition lift {A : Type} (o : Outcome A) : M A := fun st => (o, st).

Notation "'let!' x ':=' m 'in' k" := (bind m (fun x => k))
  (at level 10, x name, m at level 100, k at level 200).

Fixpoint mapM {A B : Type} (f : A -> Outcome B) (l : list A) : Outcome (list B) :=
  match l with
  | [] => Return []
  | x :: rest =>
      match f x with
      | Raise e => Raise e
      | Return y =>
          match mapM f rest with
          | Raise e => Raise e
          | Return ys => Return (y :: ys)
          end
      end
  end.

Definition obind {A B : Type} (o : Outcome A) (k : A -> Outcome B) : Outcome B :=
  match o with
  | Return a => k a
  | Raise e => Raise e
  end.

Notation "'let?' x ':=' o 'in' k" := (obind o (fun x => k))
  (at level 10, x name, o at level 100, k at level 200).

(** ** Constants *)

Definition YOUTUBE_API_BASE : string := "https://www.googleapis.com/youtube/v3".

Definition CACHE_TTL_SECONDS : Q := 20 * 60.

Section Backend.

(** [int(s)] on a [str] ([None]: [ValueError]), [str(v)] on a list or a
    dict and [s.lower()], the case mapping of Unicode, are builtins of the
    interpreter; the results below hold whatever they compute. [W] is the
    world the process runs in. *)
Variable int_of_str : string -> option Z.
Variable repr : PyVal -> string.
Variable lower : string -> string.
Variable W : World.

(** [int(v)]. *)
Definition py_int (v : PyVal) : Outcome Z :=
  match v with
  | PInt z => Return z
  | PBool b => Return (Z.b2z b)
  | PStr s =>
      match int_of_str s with
      | Some z => Return z
      | None => Raise ValueError
      end
  | _ => Raise TypeError
  end.

(** [f"{v}"]. *)
Definition format (v : PyVal) : string :=
  match v with
  | PStr s => s
  | PInt z => pretty z
  | PNone => "None"
  | PBool true => "True"
  | PBool false => "False"
  | _ => repr v
  end.

(** ** Effects *)

Definition time_time : M Q :=
  fun st => let t := clock W (log st) in (Return t, record (EvTime t) st).

Definition os_getenv (name : string) : M (option string) :=
  fun st =>
    let v := environ st !! name in
    (Return v, record (EvGetenv name v) st).

Definition requests_get (u : string) (ps : list (string * PyVal)) : M Response :=
  fun st =>
    let req := {| url := u; params := ps; timeout := 10 |} in
    let answer := upstream W (log st) req in
    let st' := record (EvRequest req answer) st in
    match answer with
    | Some r => (Return r, st')
    | None => (Raise RequestException, st')
    end.

(** [r.json()] *)
Definition r_json (r : Response) : M PyVal :=
  match json r with
  | Some v => ret v
  | None => raise JSONDecodeError
  end.

Definition read_key : M (option string) :=
  fun st => (Return (YOUTUBE_API_KEY st), st).

Definition write_key (k : option string) : M unit :=
  fun st => (Return tt, with_key k st).

(** [_cache.get(key)] *)
Definition cache_lookup (key : string) : M (option CacheEntry) :=
  fun st => (Return (_cache st !! key), record (EvCacheGet key) st).

(** [_cache.pop(key, None)] *)
Definition cache_pop (key : string) : M unit :=
  fun st => (Return tt, record (EvCachePop key) (with_cache (delete key (_cache st)) st)).

(** [_cache[key] = entry] *)
Definition cache_store (key : string) (entry : CacheEntry) : M unit :=
  fun st => (Return tt, record (EvCacheSet key) (with_cache (<[key := entry]> (_cache st)) st)).

(** ** TTL cache *)

(** An entry is a dict of two items, so [if not entry] catches the absent
    entry only. *)
Definition _cache_get (key : string) : M PyVal :=
  let! entry := cache_lookup key in
  match entry with
  | None => ret PNone
  | Some entry =>
      let! now := time_time in
      if Qlt_le_dec CACHE_TTL_SECONDS (now - ts entry) then
        let! _ := cache_pop key in
        ret PNone
      else ret (data entry)
  end.

Definition _cache_set (key : string) (v : PyVal) : M unit :=
  let! now := time_time in
  cache_store key {| ts := now; data := v |}.

(** ** Credential gate *)

Definition _ensure_api_key : M bool :=
  let! k := read_key in
  let! _ := (if negb (truthy_opt k) then
               let! v := os_getenv "YOUTUBE_API_KEY" in
               write_key v
             else ret tt) in
  let! k := read_key in
  if negb (truthy_opt k) then ret false else ret true.

(** ** Upstream client *)

Definition upstream_error (r : Response) : PyExc :=
  HTTPException 502 ("YouTube API error: " +:+ str_take 200 (text r)).

Definition fallback_map : PyVal :=
  PDict [("@UNBEQUEM-o2w", PStr "UC_demo_unbequem");
         ("@BEQUEM-g", PStr "UC_demo_bequem")].

Definition resolve_channel_id (handle channel_id : option string) : M PyVal :=
  if truthy_opt channel_id then ret (of_opt channel_id)
  else if negb (truthy_opt handle) then
    raise (HTTPException 400 "Provide either handle or channelId")
  else
    (* [handle] is a non-empty [str] from here on *)
    let h := default EmptyString handle in
    let cache_key := "resolve:" +:+ h in
    let! cached := _cache_get cache_key in
    if truthy cached then ret cached
    else
      let! has_key := _ensure_api_key in
      if negb has_key then
        let! cid := lift (py_get fallback_map h
                            (PStr ("UC_demo_" +:+ lower (strip "@" h)))) in
        let! _ := _cache_set cache_key cid in
        ret cid
      else
        let! key := read_key in
        let! r := requests_get (YOUTUBE_API_BASE +:+ "/channels")
                    [("part", PStr "id"); ("forHandle", PStr h); ("key", of_opt key)] in
        if negb (status_code r =? 200) then raise (upstream_error r)
        else
          let! data := r_json r in
          let! items := lift (py_get data "items" (PList [])) in
          if negb (truthy items) then
            raise (HTTPException 404 "Channel not found for handle")
          else
            let! cid := lift (let? it := py_item0 items in py_item it "id") in
            let! _ := _cache_set cache_key cid in
            ret cid.

Definition demo_statistics : PyVal :=
  PDict [("subscriberCount", PInt 12345); ("viewCount", PInt 987654);
         ("videoCount", PInt 2); ("title", PStr "Demo Channel")].

(** The [out] dict of [get_channel_statistics], built field by field. *)
Definition statistics_of_item (item : PyVal) : Outcome PyVal :=
  let? stats := py_get item "statistics" (PDict []) in
  let? snippet := py_get item "snippet" (PDict []) in
  let? subscriberCount := (let? v := py_get stats "subscriberCount" (PInt 0) in py_int v) in
  let? viewCount := (let? v := py_get stats "viewCount" (PInt 0) in py_int v) in
  let? videoCount := (let? v := py_get stats "videoCount" (PInt 0) in py_int v) in
  let? title := py_get snippet "title" PNone in
  let? thumbnails := py_get snippet "thumbnails" (PDict []) in
  let? customUrl := py_get snippet "customUrl" PNone in
  let? description := py_get snippet "description" PNone in
  Return (PDict [("subscriberCount", PInt subscriberCount);
                 ("viewCount", PInt viewCount);
                 ("videoCount", PInt videoCount);
                 ("title", title);
                 ("thumbnails", thumbnails);
                 ("customUrl", customUrl);
                 ("description", description)]).

Definition get_channel_statistics (channel_id : PyVal) : M PyVal :=
  let cache_key := "stats:" +:+ format channel_id in
  let! cached := _cache_get cache_key in
  if truthy cached then ret cached
  else
    let! has_key := _ensure_api_key in
    if negb has_key then
      let demo := demo_statistics in
      let! _ := _cache_set cache_key demo in
      ret demo
    else
      let! key := read_key in
      let! r := requests_get (YOUTUBE_API_BASE +:+ "/channels")
                  [("part", PStr "statistics,snippet"); ("id", channel_id);
                   ("key", of_opt key)] in
      if negb (status_code r =? 200) then raise (upstream_error r)
      else
        let! data := r_json r in
        let! items := lift (py_get data "items" (PList [])) in
        if negb (truthy items) then
          raise (HTTPException 404 "Channel not found")
        else
          let! out := lift (let? item := py_item0 items in statistics_of_item item) in
          let! _ := _cache_set cache_key out in
          ret out.

Definition get_uploads_playlist_id (channel_id : PyVal) : M PyVal :=
  let cache_key := "uploads:" +:+ format channel_id in
  let! cached := _cache_get cache_key in
  if truthy cached then ret cached
  else
    let! has_key := _ensure_api_key in
    if negb has_key then
      let demo := PStr ("PL_demo_" +:+ format channel_id) in
      let! _ := _cache_set cache_key demo in
      ret demo
    else
      let! key := read_key in
      let! r := requests_get (YOUTUBE_API_BASE +:+ "/channels")
                  [("part", PStr "contentDetails"); ("id", channel_id);
                   ("key", of_opt key)] in
      if negb (status_code r =? 200) then raise (upstream_error r)
      else
        let! data := r_json r in
        let! items := lift (py_get data "items" (PList [])) in
        if negb (truthy items) then ret PNone
        else
          let! pid := lift (let? item := py_item0 items in
                            let? details := py_get item "contentDetails" (PDict []) in
                            let? related := py_get details "relatedPlaylists" (PDict []) in
                            py_get related "uploads" PNone) in
          let! _ := _cache_set cache_key pid in
          ret pid.

Definition demo_thumbnail : string :=
  "https://i.ytimg.com/vi/dQw4w9WgXcQ/hqdefault.jpg".

Definition demo_video (i : Z) : PyVal :=
  PDict [("id", PStr ("demo_video_" +:+ pretty i));
         ("title", PStr ("Demo Video " +:+ pretty i));
         ("thumbnail", PStr demo_thumbnail);
         ("publishedAt", PStr "2024-01-01T00:00:00Z");
         ("viewCount", PInt 0)].

(** [x.get("high", x.get("medium", {})).get("url")] *)
Definition pick_thumbnail (thumbnails : PyVal) : Outcome PyVal :=
  let? medium := py_get thumbnails "medium" (PDict []) in
  let? best := py_get thumbnails "high" medium in
  py_get best "url" PNone.

(** One element of the [videos] comprehension of [get_latest_videos]. *)
Definition latest_video (it : PyVal) : Outcome PyVal :=
  let? id := (let? d := py_item it "id" in py_item d "videoId") in
  let? title := (let? sn := py_item it "snippet" in py_item sn "title") in
  let? thumbnail := (let? sn := py_item it "snippet" in
                     let? th := py_item sn "thumbnails" in
                     pick_thumbnail th) in
  let? publishedAt := (let? sn := py_item it "snippet" in py_item sn "publishedAt") in
  Return (PDict [("id", id); ("title", title); ("thumbnail", thumbnail);
                 ("publishedAt", publishedAt)]).

Definition get_latest_videos (channel_id : PyVal) (max_results : Z) : M PyVal :=
  let cache_key := "latest:" +:+ format channel_id +:+ ":" +:+ format (PInt max_results) in
  let! cached := _cache_get cache_key in
  if truthy cached then ret cached
  else
    let! has_key := _ensure_api_key in
    if negb has_key then
      let demo := PList (map demo_video (range1 max_results)) in
      let! _ := _cache_set cache_key demo in
      ret demo
    else
      let! key := read_key in
      let! r := requests_get (YOUTUBE_API_BASE +:+ "/search")
                  [("part", PStr "snippet"); ("channelId", channel_id);
                   ("order", PStr "date"); ("type", PStr "video");
                   ("maxResults", PInt max_results); ("key", of_opt key)] in
      if negb (status_code r =? 200) then raise (upstream_error r)
      else
        let! data := r_json r in
        let! items := lift (py_get data "items" (PList [])) in
        let! videos := lift (let? its := py_iter items in mapM latest_video its) in
        let! _ := _cache_set cache_key (PList videos) in
        ret (PList videos).

Definition popular_demo (max_results i : Z) : PyVal :=
  PDict [("id", PStr ("popular_demo_" +:+ pretty i));
         ("title", PStr ("Popular Demo " +:+ pretty i));
         ("thumbnail", PStr demo_thumbnail);
         ("viewCount", PInt (1000 * (max_results - i + 1)))].

(** The [ids] comprehension: the filter, then the element. *)
Fixpoint candidate_ids (its : list PyVal) : Outcome (list PyVal) :=
  match its with
  | [] => Return []
  | it :: rest =>
      let? keep := (let? d := py_get it "id" (PDict []) in py_get d "videoId" PNone) in
      if truthy keep then
        let? id := (let? d := py_item it "id" in py_item d "videoId") in
        let? ids := candidate_ids rest in
        Return (id :: ids)
      else candidate_ids rest
  end.

(** One turn of the [enriched.append] loop. *)
Definition enrich (it : PyVal) : Outcome PyVal :=
  let? stats := py_get it "statistics" (PDict []) in
  let? snippet := py_get it "snippet" (PDict []) in
  let? id := py_get it "id" PNone in
  let? title := py_get snippet "title" PNone in
  let? thumbnail := (let? th := py_get snippet "thumbnails" (PDict []) in
                     let? th' := py_get snippet "thumbnails" (PDict []) in
                     let? medium := py_get th' "medium" (PDict []) in
                     let? best := py_get th "high" medium in
                     py_get best "url" PNone) in
  let? viewCount := (let? v := py_get stats "viewCount" (PInt 0) in py_int v) in
  let? publishedAt := py_get snippet "publishedAt" PNone in
  Return (PDict [("id", id); ("title", title); ("thumbnail", thumbnail);
                 ("viewCount", PInt viewCount); ("publishedAt", publishedAt)]).

(** The sort key [lambda x: x.get("viewCount", 0)]; every element of
    [enriched] carries an [int] there. *)
Definition view_count (x : PyVal) : Z :=
  match py_get x "viewCount" (PInt 0) with
  | Return (PInt z) => z
  | Return (PBool b) => Z.b2z b
  | _ => 0
  end.

(** [l.sort(key=key, reverse=True)]: the sort of Python lists is stable,
    and stays so under [reverse]: of two elements with equal keys the one
    that came first stays first. *)
Fixpoint insert_desc {A : Type} (key : A -> Z) (x : A) (l : list A) : list A :=
  match l with
  | [] => [x]
  | y :: ys => if key x <? key y then y :: insert_desc key x ys else x :: y :: ys
  end.

Fixpoint sort_reverse {A : Type} (key : A -> Z) (l : list A) : list A :=
  match l with
  | [] => []
  | x :: rest => insert_desc key x (sort_reverse key rest)
  end.

Definition get_popular_videos (channel_id : PyVal) (max_results : Z) : M PyVal :=
  let cache_key := "popular:" +:+ format channel_id +:+ ":" +:+ format (PInt max_results) in
  let! cached := _cache_get cache_key in
  if truthy cached then ret cached
  else
    let! has_key := _ensure_api_key in
    if negb has_key then
      let demo := PList (map (popular_demo max_results) (range1 max_results)) in
      let! _ := _cache_set cache_key demo in
      ret demo
    else
      let! key := read_key in
      let! r := requests_get (YOUTUBE_API_BASE +:+ "/search")
                  [("part", PStr "id"); ("channelId", channel_id);
                   ("order", PStr "date"); ("type", PStr "video");
                   ("maxResults", PInt 25); ("key", of_opt key)] in
      if negb (status_code r =? 200) then raise (upstream_error r)
      else
        let! data := r_json r in
        let! ids := lift (let? items := py_get data "items" (PList []) in
                          let? its := py_iter items in
                          candidate_ids its) in
        match ids with
        | [] => ret (PList [])
        | _ =>
            let! joined := lift (py_join "," ids) in
            let! key := read_key in
            let! r2 := requests_get (YOUTUBE_API_BASE +:+ "/videos")
                         [("part", PStr "snippet,statistics"); ("id", PStr joined);
                          ("key", of_opt key)] in
            if negb (status_code r2 =? 200) then raise (upstream_error r2)
            else
              let! data2 := r_json r2 in
              let! enriched := lift (let? items := py_get data2 "items" (PList []) in
                                     let? its := py_iter items in
                                     mapM enrich its) in
              let popular := py_slice_to (sort_reverse view_count enriched) max_results in
              let! _ := _cache_set cache_key (PList popular) in
              ret (PList popular)
        end.

(** ** Public endpoints

    The query string arrives decoded: [handle] and [channelId] are absent
    or text, [maxResults] absent or an integer. *)

(** [Query(default=6, ge=1, le=12)] *)
Definition query_bounded (default_ lo hi : Z) (raw : option Z) : M Z :=
  let v := default default_ raw in
  if (lo <=? v) && (v <=? hi) then ret v else raise RequestValidationError.

(** [maxResults: int = 6] *)
Definition query_int (default_ : Z) (raw : option Z) : M Z :=
  ret (default default_ raw).

Definition youtube_overview (handle channelId : option string) (maxResults : option Z) : M PyVal :=
  let! maxResults := query_bounded 6 1 12 maxResults in
  let! cid := resolve_channel_id handle channelId in
  let! stats := get_channel_statistics cid in
  let! latest := get_latest_videos cid maxResults in
  let! popular := get_popular_videos cid maxResults in
  ret (PDict [("channelId", cid); ("stats", stats); ("latest", latest);
              ("popular", popular)]).

Definition youtube_subscribers (handle channelId : option string) : M PyVal :=
  let! cid := resolve_channel_id handle channelId in
  let! stats := get_channel_statistics cid in
  let! count := lift (py_get stats "subscriberCount" (PInt 0)) in
  ret (PDict [("channelId", cid); ("subscriberCount", count)]).

Definition youtube_latest (handle channelId : option string) (maxResults : option Z) : M PyVal :=
  let! maxResults := query_int 6 maxResults in
  let! cid := resolve_channel_id handle channelId in
  let! vids := get_latest_videos cid maxResults in
  ret (PDict [("channelId", cid); ("videos", vids)]).

Definition youtube_popular (handle channelId : option string) (maxResults : option Z) : M PyVal :=
  let! maxResults := query_int 6 maxResults in
  let! cid := resolve_channel_id handle channelId in
  let! vids := get_popular_videos cid maxResults in
  ret (PDict [("channelId", cid); ("videos", vids)]).

End Backend.

(** * The diagnostics endpoint ([/test])

    [test_database] probes the [database] module, which is not part of
    this file, and reads two environment variables. What the import finds
    is an input of the model; a database object is what the code uses of
    it: its [name], when it has one, and the outcome of
    [list_collection_names()], the list of names or an exception with its
    message. The marks in front of the messages are kept as the bytes of
    their UTF-8 encoding: the code only stores them. *)

Record Database : Type := {
  (** [db.name], when [hasattr(db, "name")] *)
  db_name : option PyVal;
  (** [db.list_collection_names()]: raises ([inl], with [str(e)]) or
      returns the names *)
  list_collection_names : string + list PyVal
}.

(** What [from database import db] does. *)
Inductive Import : Type :=
| ModuleNotFound
| ImportFails (message : string)
| Imported (db : option Database).

(** [d[k] = v]: a key that is present keeps its place. *)
Fixpoint dict_set (k : string) (v : PyVal) (kv : list (string * PyVal))
    : list (string * PyVal) :=
  match kv with
  | [] => [(k, v)]
  | (k', v') :: rest =>
      if String.eqb k' k then (k, v) :: rest else (k', v') :: dict_set k v rest
  end.

(** The [try] block: every exception is caught, so it is a function of
    the response built so far. *)
Definition probe_database (imp : Import) (response : list (string * PyVal))
    : list (string * PyVal) :=
  match imp with
  | Imported (Some db) =>
      let response := dict_set "database" (PStr "✅ Available") response in
      let response := dict_set "database_url" (PStr "✅ Configured") response in
      let response :=
        dict_set "database_name"
          (match db_name db with
           | Some name => name
           | None => PStr "✅ Connected"
           end) response in
      let response := dict_set "connection_status" (PStr "Connected") response in
      match list_collection_names db with
      | inr collections =>
          let response :=
            dict_set "collections" (PList (py_slice_to collections 10)) response in
          dict_set "database" (PStr "✅ Connected & Working") response
      | inl message =>
          dict_set "database"
            (PStr ("⚠️  Connected but Error: " +:+ str_take 50 message)) response
      end
  | Imported None =>
      dict_set "database" (PStr "⚠️  Available but not initialized") response
  | ModuleNotFound =>
      dict_set "database"
        (PStr "❌ Database module not found (run enable-database first)") response
  | ImportFails message =>
      dict_set "database" (PStr ("❌ Error: " +:+ str_take 50 message)) response
  end.

Definition test_database (imp : Import) : M PyVal :=
  let response :=
    [("backend", PStr "✅ Running");
     ("database", PStr "❌ Not Available");
     ("database_url", PNone);
     ("database_name", PNone);
     ("connection_status", PStr "Not Connected");
     ("collections", PList [])] in
  let response := probe_database imp response in
  let! url := os_getenv "DATABASE_URL" in
  let response :=
    dict_set "database_url"
      (PStr (if truthy_opt url then "✅ Set" else "❌ Not Set")) response in
  let! name := os_getenv "DATABASE_NAME" in
  let response :=
    dict_set "database_name"
      (PStr (if truthy_opt name then "✅ Set" else "❌ Not Set")) response in
  ret (PDict response).

(** * Vocabulary of the statements *)

(** The upstream exchanges of a log, oldest first. *)
Fixpoint exchanges (lg : list Event) : list (Request * option Response) :=
  match lg with
  | [] => []
  | EvRequest req answer :: rest => (req, answer) :: exchanges rest
  | _ :: rest => exchanges rest
  end.

(** What stays as it was across a step: the credential global, the
    environment and the upstream exchanges. *)
Definition same_surroundings (st st' : State) : Prop :=
  YOUTUBE_API_KEY st' = YOUTUBE_API_KEY st /\
  environ st' = environ st /\
  exchanges (log st') = exchanges (log st).

(** A computation that only ever adds to the log. *)
Definition grows {A : Type} (m : M A) : Prop :=
  forall st, exists more, log (snd (m st)) = log st ++ more.

(** The five operations of the upstream client, with the arguments that
    make up their cache keys. *)
Inductive Operation : Type :=
| OpResolve (handle : string)
| OpStatistics (channel_id : PyVal)
| OpUploads (channel_id : PyVal)
| OpLatest (channel_id : PyVal) (max_results : Z)
| OpPopular (channel_id : PyVal) (max_results : Z).

Definition cache_key_of (repr : PyVal -> string) (op : Operation) : string :=
  match op with
  | OpResolve h => "resolve:" +:+ h
  | OpStatistics c => "stats:" +:+ format repr c
  | OpUploads c => "uploads:" +:+ format repr c
  | OpLatest c n => "latest:" +:+ format repr c +:+ ":" +:+ format repr (PInt n)
  | OpPopular c n => "popular:" +:+ format repr c +:+ ":" +:+ format repr (PInt n)
  end.

Definition run (int_of_str : string -> option Z) (repr : PyVal -> string)
    (lower : string -> string) (W : World) (op : Operation) : M PyVal :=
  match op with
  | OpResolve h => resolve_channel_id lower W (Some h) None
  | OpStatistics c => get_channel_statistics int_of_str repr W c
  | OpUploads c => get_uploads_playlist_id repr W c
  | OpLatest c n => get_latest_videos repr W c n
  | OpPopular c n => get_popular_videos int_of_str repr W c n
  end.

(** The handle of a resolution is a non-empty string: an empty one is
    turned down before any lookup. *)
Definition valid (op : Operation) : Prop :=
  match op with
  | OpResolve h => h <> EmptyString
  | _ => True
  end.

(** What the lookup of [key] hands to the guard [if cached]. *)
Definition cached_value (W : World) (key : string) (st : State) : PyVal :=
  match fst (_cache_get W key st) with
  | Return c => c
  | Raise _ => PNone
  end.

(** The guard [if cached] passes: the call is served from the cache. *)
Definition cache_hit (W : World) (key : string) (st : State) : bool :=
  truthy (cached_value W key st).

(** The specification's shape of an operation: a call that is not served
    from the cache and returns has stored what it returns. *)
Definition stores_its_result (int_of_str : string -> option Z)
    (repr : PyVal -> string) (lower : string -> string) (W : World)
    (op : Operation) (st : State) : Prop :=
  forall v st',
    cache_hit W (cache_key_of repr op) st = false ->
    run int_of_str repr lower W op st = (Return v, st') ->
    exists t, _cache st' !! cache_key_of repr op = Some {| ts := t; data := v |}.

(** A credential is at hand: in the global, or else in the environment. *)
Definition has_credential (st : State) : bool :=
  truthy_opt (YOUTUBE_API_KEY st) || truthy_opt (environ st !! "YOUTUBE_API_KEY").

(** What the gate adds to the log: a read of the environment, unless the
    global already holds a credential. *)
Definition gate_events (st : State) : list Event :=
  if truthy_opt (YOUTUBE_API_KEY st) then []
  else [EvGetenv "YOUTUBE_API_KEY" (environ st !! "YOUTUBE_API_KEY")].

(** The states of a process: it starts with an empty cache, serves calls
    of the five operations, whatever their outcome, and has its
    environment changed from outside. *)
Inductive reachable (int_of_str : string -> option Z) (repr : PyVal -> string)
    (lower : string -> string) (W : World) : State -> Prop :=
| reach_start (key : option string) (env : gmap string string) (lg : list Event) :
    reachable int_of_str repr lower W
      {| _cache := ∅; YOUTUBE_API_KEY := key; environ := env; log := lg |}
| reach_call (op : Operation) (st : State) (o : Outcome PyVal) (st' : State) :
    reachable int_of_str repr lower W st ->
    run int_of_str repr lower W op st = (o, st') ->
    reachable int_of_str repr lower W st'
| reach_environ (env : gmap string string) (st : State) :
    reachable int_of_str repr lower W st ->
    reachable int_of_str repr lower W (with_environ env st).

(** The credential gate as the specification words it: the answer is the
    state of the environment at the moment of the call. *)
Definition gate_reflects_environment (st : State) : Prop :=
  fst (_ensure_api_key st) = Return (truthy_opt (environ st !! "YOUTUBE_API_KEY")).

(** The fallback identifier by the rule of the specification: strip the
    leading [@], lowercase, prefix. [lower] is [str.lower]. *)
Definition synthetic_id_by_the_rule (lower : string -> string) (h : string) : string :=
  "UC_demo_" +:+ lower (lstrip "@" h).

(** The last character of [s] is [c]. *)
Fixpoint ends_with (c : ascii) (s : string) : bool :=
  match s with
  | EmptyString => false
  | String a EmptyString => Ascii.eqb a c
  | String _ s' => ends_with c s'
  end.

(** The fallback identifier as amended: the two demo handles have fixed
    identifiers, and [@] is stripped at both ends. *)
Definition synthetic_id (lower : string -> string) (h : string) : string :=
  if String.eqb h "@UNBEQUEM-o2w" then "UC_demo_unbequem"
  else if String.eqb h "@BEQUEM-g" then "UC_demo_bequem"
  else "UC_demo_" +:+ lower (strip "@" h).

(** An exception of the interpreter or of a library, as opposed to the
    [HTTPException]s the code raises itself and to the rejection of a
    request by the validation layer. *)
Definition plain (e : PyExc) : Prop :=
  match e with
  | HTTPException _ _ => False
  | RequestValidationError => False
  | _ => True
  end.

(** A computation that never turns a request down as invalid. *)
Definition never_rejects {A : Type} (m : M A) : Prop :=
  forall st, fst (m st) <> Raise RequestValidationError.

(** A status of the 2xx class. *)
Definition is_success (status : Z) : bool :=
  (200 <=? status) && (status <? 300).

(** A successful answer that lists no item: its JSON object has no
    ["items"], or an empty one. *)
Definition lists_no_items (r : Response) : Prop :=
  status_code r = 200 /\
  exists kv, json r = Some (PDict kv) /\
             match dict_lookup "items" kv with
             | None => True
             | Some items => truthy items = false
             end.

(** A successful answer none of whose items names a video: the candidate
    pool of [get_popular_videos] is empty. *)
Definition lists_no_candidate (r : Response) : Prop :=
  status_code r = 200 /\
  exists body items pool,
    json r = Some body /\
    py_get body "items" (PList []) = Return items /\
    py_iter items = Return pool /\
    candidate_ids pool = Return [].

(** The two returns of the live branch that come before the store: the
    call made one request, and the answer listed no item
    ([get_uploads_playlist_id]) or no candidate ([get_popular_videos]). *)
Definition early_return (op : Operation) (st st' : State) : Prop :=
  match op with
  | OpUploads _ =>
      exists req r,
        exchanges (log st') = exchanges (log st) ++ [(req, Some r)] /\ lists_no_items r
  | OpPopular _ _ =>
      exists req r,
        exchanges (log st') = exchanges (log st) ++ [(req, Some r)] /\
        lists_no_candidate r
  | _ => False
  end.

(** What an early return hands back. *)
Definition early_value (op : Operation) : PyVal :=
  match op with
  | OpUploads _ => PNone
  | _ => PList []
  end.

(** The order of a list sorted by [key], largest first. *)
Definition descending {A : Type} (key : A -> Z) (a b : A) : Prop :=
  key b <= key a.

(** The elements of [l] whose key is [n], in the order of [l]. *)
Definition with_key_value {A : Type} (key : A -> Z) (n : Z) (l : list A) : list A :=
  List.filter (fun x => key x =? n) l.

(** A list of at most [n] entries. *)
Definition at_most (n : Z) (v : PyVal) : Prop :=
  exists l, v = PList l /\ Z.of_nat (length l) <= n.

(** Every entry of a list category ([latest:] or [popular:]) holds at most
    as many videos as the count in its key. *)
Definition bounded_entries (category : string) (st : State) : Prop :=
  forall s n e,
    0 <= n ->
    _cache st !! (category +:+ s +:+ ":" +:+ pretty n) = Some e ->
    at_most n (data e).

(** The upstream honours the limit it is sent: it never lists more items
    than the [maxResults] of the request. *)
Definition honours_limit (W : World) : Prop :=
  forall lg req r n body items pool,
    upstream W lg req = Some r ->
    dict_lookup "maxResults" (params req) = Some (PInt n) ->
    0 <= n ->
    json r = Some body ->
    py_get body "items" (PList []) = Return items ->
    py_iter items = Return pool ->
    Z.of_nat (length pool) <= n.

(** A computation that leaves every cache entry but the one of [key] as
    it was. *)
Definition only_touches {A : Type} (key : string) (m : M A) : Prop :=
  forall st k, k <> key -> _cache (snd (m st)) !! k = _cache st !! k.

(** A computation that does not lose the credential of the global. *)
Definition keeps_credential {A : Type} (m : M A) : Prop :=
  forall st, truthy_opt (YOUTUBE_API_KEY st) = true ->
             truthy_opt (YOUTUBE_API_KEY (snd (m st))) = true.

Fixpoint no_colon (s : string) : bool :=
  match s with
  | EmptyString => true
  | String c s' => negb (Ascii.eqb c ":") && no_colon s'
  end.

(** The bound of the specification on both video lists, for every call
    that returns. *)
Definition never_more_than_max_results (int_of_str : string -> option Z)
    (repr : PyVal -> string) (W : World)
    (channel_id : PyVal) (max_results : Z) (st : State) : Prop :=
  (forall v st',
     get_latest_videos repr W channel_id max_results st = (Return v, st') ->
     at_most max_results v) /\
  (forall v st',
     get_popular_videos int_of_str repr W channel_id max_results st = (Return v, st') ->
     at_most max_results v).

(** While the process has seen no credential, every resolution in the
    cache is a synthetic identifier. *)
Definition synthetic_entries (lower : string -> string) (st : State) : Prop :=
  truthy_opt (YOUTUBE_API_KEY st) = false ->
  forall h e,
    _cache st !! ("resolve:" +:+ h) = Some e -> data e = PStr (synthetic_id lower h).

(** ** Concrete scenarios *)

Definition no_int (s : string) : option Z := None.

Definition no_repr (v : PyVal) : string := "<object>".

(** The small letter of an ASCII capital; any other character itself. *)
Definition lower_ascii (c : ascii) : ascii :=
  let n := nat_of_ascii c in
  if ((65 <=? n) && (n <=? 90))%nat then ascii_of_nat (n + 32) else c.

(** [s.lower()] on text of ASCII characters, as the handles of the
    scenarios are: the letters [A] to [Z] are mapped, every other character
    stays. *)
Fixpoint ascii_lower (s : string) : string :=
  match s with
  | EmptyString => EmptyString
  | String c s' => String (lower_ascii c) (ascii_lower s')
  end.

(** A world without network whose clock advances one second per event. *)
Definition offline : World :=
  {| clock := fun lg => inject_Z (Z.of_nat (length lg));
     upstream := fun _ _ => None |}.

Definition fresh_process (key : option string) (env : gmap string string) : State :=
  {| _cache := ∅; YOUTUBE_API_KEY := key; environ := env; log := [] |}.

(** A process whose only cache entry was stored at time [0]. *)
Definition one_entry (key : string) (v : PyVal) (lg : list Event) : State :=
  {| _cache := {[ key := {| ts := 0; data := v |} ]};
     YOUTUBE_API_KEY := None; environ := ∅; log := lg |}.

(** A clock that shows [t] whatever happened. *)
Definition frozen (t : Q) : World :=
  {| clock := fun _ => t; upstream := fun _ _ => None |}.

(** A world whose upstream answers every request with [r]. *)
Definition answering (r : Response) : World :=
  {| clock := fun lg => inject_Z (Z.of_nat (length lg));
     upstream := fun _ _ => Some r |}.

Definition ok_json (body : PyVal) : Response :=
  {| status_code := 200; text := "<json>"; json := Some body |}.

(** [int(s)] for a string of decimal digits. *)
Fixpoint digits_value (acc : Z) (s : string) : option Z :=
  match s with
  | EmptyString => Some acc
  | String c s' =>
      let n := Z.of_nat (nat_of_ascii c) in
      if (48 <=? n) && (n <=? 57) then digits_value (10 * acc + (n - 48)) s'
      else None
  end.

Definition int_of_digits (s : string) : option Z :=
  match s with
  | EmptyString => None
  | _ => digits_value 0 s
  end.

(** A world whose upstream answers the search endpoint with [search] and
    every other endpoint with [other]. *)
Definition youtube (search other : Response) : World :=
  {| clock := fun lg => inject_Z (Z.of_nat (length lg));
     upstream := fun _ req =>
       if String.eqb (url req) (YOUTUBE_API_BASE +:+ "/search")
       then Some search else Some other |}.

(** An item of a search listing. *)
Definition search_item (id title : string) : PyVal :=
  PDict [("id", PDict [("kind", PStr "youtube#video"); ("videoId", PStr id)]);
         ("snippet",
          PDict [("title", PStr title);
                 ("thumbnails",
                  PDict [("medium", PDict [("url", PStr ("https://i.ytimg.com/" +:+ id))])]);
                 ("publishedAt", PStr "2024-05-01T00:00:00Z")])].

(** An item of a videos listing. *)
Definition video_item (id title views : string) : PyVal :=
  PDict [("id", PStr id);
         ("snippet", PDict [("title", PStr title)]);
         ("statistics", PDict [("viewCount", PStr views)])].

Definition listing (items : list PyVal) : Response :=
  ok_json (PDict [("kind", PStr "youtube#listResponse"); ("items", PList items)]).

Definition two_found : Response :=
  listing [search_item "a" "First"; search_item "b" "Second"].

Definition three_found : Response :=
  listing [search_item "a" "First"; search_item "b" "Second"; search_item "c" "Third"].

Definition three_with_statistics : Response :=
  listing [video_item "a" "First" "5"; video_item "b" "Second" "9";
           video_item "c" "Third" "5"].

Definition bad_gateway : Response :=
  {| status_code := 503; text := "Service Unavailable"; json := None |}.

(** A world whose upstream answers every request with the first
    [maxResults] items of a catalogue. *)
Definition well_behaved (catalogue : list PyVal) : World :=
  {| clock := fun lg => inject_Z (Z.of_nat (length lg));
     upstream := fun _ req =>
       match dict_lookup "maxResults" (params req) with
       | Some (PInt n) => Some (listing (firstn (Z.to_nat n) catalogue))
       | _ => Some (listing catalogue)
       end |}.

Definition three_videos : World :=
  well_behaved [search_item "a" "First"; search_item "b" "Second";
                search_item "c" "Third"].

(** The process after a first call for the two latest videos. *)
Definition after_first_call : State :=
  snd (get_latest_videos no_repr three_videos (PStr "UCx") 2
         (fresh_process (Some "secret") ∅)).

(** * Further vocabulary *)

(** A computation that makes at most [n] upstream requests. *)
Definition calls_at_most {A : Type} (n : nat) (m : M A) : Prop :=
  forall st, exists more,
    exchanges (log (snd (m st))) = exchanges (log st) ++ more /\
    (length more <= n)%nat.

(** The upstream requests a single operation may make. *)
Definition call_budget (op : Operation) : nat :=
  match op with
  | OpPopular _ _ => 2
  | _ => 1
  end.

(** Every entry under [key] is within the TTL at the next lookup. *)
Definition still_fresh (W : World) (key : string) (st : State) : Prop :=
  forall e, _cache st !! key = Some e ->
            (clock W (log st ++ [EvCacheGet key]) - ts e <= 1200)%Q.

(** What an operation synthesizes when no credential is at hand. *)
Definition fallback_value (repr : PyVal -> string) (lower : string -> string)
    (op : Operation) : PyVal :=
  match op with
  | OpResolve h => PStr (synthetic_id lower h)
  | OpStatistics _ => demo_statistics
  | OpUploads c => PStr ("PL_demo_" +:+ format repr c)
  | OpLatest _ n => PList (map demo_video (range1 n))
  | OpPopular _ n => PList (map (popular_demo n) (range1 n))
  end.

(** A request that goes to the YouTube API with the credential of the
    process and the timeout of ten seconds. *)
Definition authorised (st : State) (x : Request * option Response) : Prop :=
  String.prefix YOUTUBE_API_BASE (url (fst x)) = true /\
  timeout (fst x) = 10 /\
  exists k, k <> EmptyString /\
            YOUTUBE_API_KEY st = Some k /\
            dict_lookup "key" (params (fst x)) = Some (PStr k).

(** A computation that, started without a credential, returns without an
    upstream request and leaves the process without a credential. *)
Definition answers_offline {A : Type} (m : M A) : Prop :=
  forall st,
    has_credential st = false ->
    exists a st',
      m st = (Return a, st') /\
      exchanges (log st') = exchanges (log st) /\
      has_credential st' = false.

(** The statistics of a channel as the fallback and the live branch build
    them: a dict that starts with the three counts, each an [int]. *)
Definition statistics_shape (v : PyVal) : Prop :=
  exists subscribers views videos rest,
    v = PDict (("subscriberCount", PInt subscribers) :: ("viewCount", PInt views) ::
               ("videoCount", PInt videos) :: rest).

(** Every entry of the statistics category has that shape. *)
Definition statistics_entries (st : State) : Prop :=
  forall s e, _cache st !! ("stats:" +:+ s) = Some e -> statistics_shape (data e).

(** The video [v] carries the id, the title and the date of the search
    item [it]. *)
Definition renders (it v : PyVal) : Prop :=
  (let? d := py_item it "id" in py_item d "videoId") = py_item v "id" /\
  (let? sn := py_item it "snippet" in py_item sn "title") = py_item v "title" /\
  (let? sn := py_item it "snippet" in py_item sn "publishedAt") = py_item v "publishedAt".

(** Two calls that go by the same cache entry: the same operation, on
    channel ids that read the same in an f-string, with the same
    [max_results]. *)
Definition shares_entry (repr : PyVal -> string) (op1 op2 : Operation) : Prop :=
  match op1, op2 with
  | OpResolve h1, OpResolve h2 => h1 = h2
  | OpStatistics c1, OpStatistics c2 => format repr c1 = format repr c2
  | OpUploads c1, OpUploads c2 => format repr c1 = format repr c2
  | OpLatest c1 n1, OpLatest c2 n2 => format repr c1 = format repr c2 /\ n1 = n2
  | OpPopular c1 n1, OpPopular c2 n2 => format repr c1 = format repr c2 /\ n1 = n2
  | _, _ => False
  end.

(** ** Further scenarios *)

(** A first call for two latest videos, made without credential or
    network. *)
Definition first_fallback_call : Outcome PyVal * State :=
  run no_int no_repr ascii_lower offline (OpLatest (PStr "UCx") 2) (fresh_process None ∅).

(** A call for the latest videos that the upstream answers with a 503. *)
Definition failed_call : Outcome PyVal * State :=
  run no_int no_repr ascii_lower (answering bad_gateway) (OpLatest (PStr "UCx") 2)
    (fresh_process (Some "secret") ∅).

(** A call for the statistics of a channel the upstream does not list. *)
Definition unlisted_channel : Outcome PyVal * State :=
  run no_int no_repr ascii_lower (answering (ok_json (PDict []))) (OpStatistics (PStr "UCx"))
    (fresh_process (Some "secret") ∅).

Definition statistics_request : Request :=
  {| url := YOUTUBE_API_BASE +:+ "/channels";
     params := [("part", PStr "statistics,snippet"); ("id", PStr "UCx");
                ("key", PStr "secret")];
     timeout := 10 |}.

(** A call for the latest videos that the upstream answers with three
    items. *)
Definition listed_call : Outcome PyVal * State :=
  get_latest_videos no_repr (answering three_found) (PStr "UCx") 3
    (fresh_process (Some "secret") ∅).

Definition value_of (x : Outcome PyVal * State) : PyVal :=
  match fst x with
  | Return v => v
  | Raise _ => PNone
  end.

(** A call for the three most popular videos, made without credential or
    network. *)
Definition popular_fallback_call : Outcome PyVal * State :=
  get_popular_videos no_int no_repr offline (PStr "UCx") 3 (fresh_process None ∅).

(** * Properties *)

(** ** Reasoning about the monad *)

Section Effects.

Variable W : World.

Lemma bind_inv {A B : Type} (m : M A) (k : A -> M B) (st : State)
    (o : Outcome B) (st' : State) :
  bind m k st = (o, st') ->
  (exists a st1, m st = (Return a, st1) /\ k a st1 = (o, st')) \/
  (exists e, m st = (Raise e, st') /\ o = Raise e).
Proof.
  unfold bind. destruct (m st) as [[a | e] st1]; intros H.
  - left. eauto.
  - right. inversion H; subst. eauto.
Qed.

Lemma bind_inv_return {A B : Type} (m : M A) (k : A -> M B) (st : State)
    (b : B) (st' : State) :
  bind m k st = (Return b, st') ->
  exists a st1, m st = (Return a, st1) /\ k a st1 = (Return b, st').
Proof.
  intros H. apply bind_inv in H as [H | (e & _ & He)]; [exact H | discriminate].
Qed.

Lemma exchanges_app (l1 l2 : list Event) :
  exchanges (l1 ++ l2) = exchanges l1 ++ exchanges l2.
Proof.
  induction l1 as [| ev l1 IH]; simpl; [reflexivity |].
  destruct ev; simpl; rewrite IH; reflexivity.
Qed.

Lemma cache_get_inv (key : string) (st : State) (o : Outcome PyVal) (st1 : State) :
  _cache_get W key st = (o, st1) ->
  o = Return (cached_value W key st) /\
  same_surroundings st st1 /\
  (_cache st1 = _cache st \/ _cache st1 = delete key (_cache st)).
Proof.
  unfold cached_value. intros H. rewrite H. simpl.
  revert H. unfold _cache_get, bind, cache_lookup, time_time, cache_pop, ret.
  destruct (_cache st !! key) as [e |]; simpl.
  - destruct (Qlt_le_dec _ _); simpl; intros H; inversion H; subst;
      (split; [reflexivity |]); (split; [| simpl; auto]); repeat split; simpl;
      rewrite ?exchanges_app; simpl; rewrite ?app_nil_r; reflexivity.
  - intros H; inversion H; subst. split; [reflexivity |].
    split; [| simpl; auto].
    repeat split; simpl. rewrite exchanges_app. simpl. apply app_nil_r.
Qed.

Lemma cache_set_inv (key : string) (v : PyVal) (st : State)
    (o : Outcome unit) (st1 : State) :
  _cache_set W key v st = (o, st1) ->
  o = Return tt /\
  _cache st1 = <[key := {| ts := clock W (log st); data := v |}]> (_cache st) /\
  same_surroundings st st1.
Proof.
  unfold _cache_set, bind, time_time, cache_store. simpl.
  intros H; inversion H; subst. repeat split; simpl.
  rewrite !exchanges_app. simpl. rewrite !app_nil_r. reflexivity.
Qed.

Lemma ensure_api_key_inv (st : State) (o : Outcome bool) (st1 : State) :
  _ensure_api_key st = (o, st1) ->
  o = Return (truthy_opt (YOUTUBE_API_KEY st1)) /\
  _cache st1 = _cache st /\
  environ st1 = environ st /\
  exchanges (log st1) = exchanges (log st) /\
  truthy_opt (YOUTUBE_API_KEY st1) =
    truthy_opt (YOUTUBE_API_KEY st) || truthy_opt (environ st !! "YOUTUBE_API_KEY").
Proof.
  unfold _ensure_api_key, bind, read_key, os_getenv, write_key, ret.
  destruct (truthy_opt (YOUTUBE_API_KEY st)) eqn:Hk; simpl.
  - rewrite Hk. simpl. intros H; inversion H; subst. rewrite Hk. auto.
  - destruct (truthy_opt (environ st !! "YOUTUBE_API_KEY")) eqn:He; simpl;
      intros H; inversion H; subst; simpl; rewrite He;
      repeat split; rewrite ?exchanges_app; simpl; rewrite ?app_nil_r; reflexivity.
Qed.

Lemma requests_get_inv (u : string) (ps : list (string * PyVal)) (st : State)
    (o : Outcome Response) (st1 : State) :
  requests_get W u ps st = (o, st1) ->
  exists answer,
    answer = upstream W (log st) {| url := u; params := ps; timeout := 10 |} /\
    o = match answer with Some r => Return r | None => Raise RequestException end /\
    st1 = record (EvRequest {| url := u; params := ps; timeout := 10 |} answer) st.
Proof.
  unfold requests_get. cbv zeta. intros H.
  destruct (upstream W (log st) _) as [r |]; inversion H; subst; eauto.
Qed.

Lemma record_exchange (req : Request) (answer : option Response) (st : State) :
  exchanges (log (record (EvRequest req answer) st)) =
    exchanges (log st) ++ [(req, answer)].
Proof. simpl. rewrite exchanges_app. reflexivity. Qed.

Lemma ret_inv {A : Type} (a : A) (st : State) (o : Outcome A) (st' : State) :
  ret a st = (o, st') -> o = Return a /\ st' = st.
Proof. unfold ret. intros H; inversion H; auto. Qed.

Lemma ret_inv_return {A : Type} (a b : A) (st st' : State) :
  ret a st = (Return b, st') -> b = a /\ st' = st.
Proof. unfold ret. intros H; inversion H; auto. Qed.

Lemma lift_inv {A : Type} (x : Outcome A) (st : State) (o : Outcome A) (st' : State) :
  lift x st = (o, st') -> x = o /\ st' = st.
Proof. unfold lift. intros H; inversion H; auto. Qed.

Lemma raise_inv {A : Type} (e : PyExc) (st : State) (o : Outcome A) (st' : State) :
  raise e st = (o, st') -> o = Raise e /\ st' = st.
Proof. unfold raise. intros H; inversion H; auto. Qed.

Lemma read_key_inv (st : State) (o : Outcome (option string)) (st' : State) :
  read_key st = (o, st') -> o = Return (YOUTUBE_API_KEY st) /\ st' = st.
Proof. unfold read_key. intros H; inversion H; auto. Qed.

Lemma r_json_inv (r : Response) (st : State) (o : Outcome PyVal) (st' : State) :
  r_json r st = (o, st') ->
  st' = st /\
  o = match json r with Some v => Return v | None => Raise JSONDecodeError end.
Proof.
  unfold r_json. destruct (json r); intros H;
    [apply ret_inv in H | apply raise_inv in H]; destruct H; auto.
Qed.

Lemma bind_return {A B : Type} (m : M A) (k : A -> M B) (st : State)
    (a : A) (st1 : State) :
  m st = (Return a, st1) -> bind m k st = k a st1.
Proof. unfold bind. intros ->. reflexivity. Qed.

(** *** Computations only add to the log *)

Lemma grows_ret {A : Type} (a : A) : grows (ret a).
Proof. intros st. exists []. simpl. symmetry. apply app_nil_r. Qed.

Lemma grows_raise {A : Type} (e : PyExc) : grows (@raise A e).
Proof. intros st. exists []. simpl. symmetry. apply app_nil_r. Qed.

Lemma grows_lift {A : Type} (x : Outcome A) : grows (lift x).
Proof. intros st. exists []. simpl. symmetry. apply app_nil_r. Qed.

Lemma grows_read_key : grows read_key.
Proof. intros st. exists []. simpl. symmetry. apply app_nil_r. Qed.

Lemma grows_r_json (r : Response) : grows (r_json r).
Proof. unfold r_json. destruct (json r); [apply grows_ret | apply grows_raise]. Qed.

Lemma grows_bind {A B : Type} (m : M A) (k : A -> M B) :
  grows m -> (forall a, grows (k a)) -> grows (bind m k).
Proof.
  intros Hm Hk st. unfold bind.
  destruct (Hm st) as [more1 H1]. destruct (m st) as [[a | e] st1]; simpl in *.
  - destruct (Hk a st1) as [more2 H2]. exists (more1 ++ more2).
    rewrite H2, H1. symmetry. apply app_assoc.
  - exists more1. exact H1.
Qed.

Lemma grows_cache_get (key : string) : grows (_cache_get W key).
Proof.
  intros st. unfold _cache_get, bind, cache_lookup, time_time, cache_pop, ret.
  destruct (_cache st !! key) as [e |]; simpl.
  - destruct (Qlt_le_dec _ _); simpl; rewrite <- ?app_assoc; eauto.
  - eauto.
Qed.

Lemma grows_cache_set (key : string) (v : PyVal) : grows (_cache_set W key v).
Proof.
  intros st. unfold _cache_set, bind, time_time, cache_store. simpl.
  rewrite <- app_assoc. eauto.
Qed.

Lemma grows_ensure_api_key : grows _ensure_api_key.
Proof.
  intros st. unfold _ensure_api_key, bind, read_key, os_getenv, write_key, ret.
  destruct (truthy_opt (YOUTUBE_API_KEY st)) eqn:Hk; simpl.
  - rewrite Hk. simpl. exists []. symmetry. apply app_nil_r.
  - destruct (truthy_opt (environ st !! "YOUTUBE_API_KEY")); simpl; eauto.
Qed.

Lemma grows_requests_get (u : string) (ps : list (string * PyVal)) :
  grows (requests_get W u ps).
Proof.
  intros st. unfold requests_get. cbv zeta.
  destruct (upstream W (log st) _); simpl; eauto.
Qed.

Lemma cache_get_fresh (key : string) (e : CacheEntry) (st : State) :
  _cache st !! key = Some e ->
  (clock W (log st ++ [EvCacheGet key]) - ts e <= 1200)%Q ->
  _cache_get W key st =
    (Return (data e),
     record (EvTime (clock W (log st ++ [EvCacheGet key]))) (record (EvCacheGet key) st)).
Proof.
  intros Hk Hage. unfold _cache_get, bind, cache_lookup, time_time. rewrite Hk. simpl.
  destruct (Qlt_le_dec _ _) as [Hold | _]; [| reflexivity].
  unfold CACHE_TTL_SECONDS in Hold. exfalso. lra.
Qed.

Lemma ensure_api_key_run (st : State) :
  exists st1,
    _ensure_api_key st = (Return (has_credential st), st1) /\
    log st1 = log st ++ gate_events st /\
    _cache st1 = _cache st /\
    environ st1 = environ st /\
    truthy_opt (YOUTUBE_API_KEY st1) = has_credential st.
Proof.
  unfold _ensure_api_key, bind, read_key, os_getenv, write_key, ret,
    has_credential, gate_events.
  destruct (truthy_opt (YOUTUBE_API_KEY st)) eqn:Hk; simpl.
  - rewrite Hk. simpl. eexists; split; [reflexivity |].
    rewrite app_nil_r. auto.
  - destruct (truthy_opt (environ st !! "YOUTUBE_API_KEY")) eqn:He; simpl;
      (eexists; split; [reflexivity |]); simpl; auto.
Qed.

Lemma cache_set_run (key : string) (v : PyVal) (st : State) :
  exists st1,
    _cache_set W key v st = (Return tt, st1) /\
    log st1 = log st ++ [EvTime (clock W (log st)); EvCacheSet key] /\
    _cache st1 !! key = Some {| ts := clock W (log st); data := v |}.
Proof.
  unfold _cache_set, bind, time_time, cache_store. simpl.
  eexists; split; [reflexivity |]. simpl. rewrite <- app_assoc.
  split; [reflexivity | apply lookup_insert_eq].
Qed.

Lemma cache_get_cases (key : string) (st : State) :
  exists st1,
    _cache_get W key st = (Return (cached_value W key st), st1) /\
    same_surroundings st st1 /\
    (cached_value W key st = PNone \/
     exists e, _cache st !! key = Some e /\ cached_value W key st = data e /\
               _cache st1 = _cache st).
Proof.
  destruct (_cache_get W key st) as [o st1] eqn:Hget. exists st1.
  destruct (cache_get_inv key st o st1 Hget) as (-> & Hsame & _).
  split; [reflexivity |]. split; [exact Hsame |].
  unfold cached_value. rewrite Hget. simpl.
  revert Hget. unfold _cache_get, bind, cache_lookup, time_time, cache_pop, ret.
  destruct (_cache st !! key) as [e |]; simpl.
  - destruct (Qlt_le_dec _ _); simpl; intros Hget; inversion Hget; subst; simpl.
    + left; unfold cached_value; congruence.
    + right. exists e. repeat split; congruence.
  - intros Hget; inversion Hget; subst. left; congruence.
Qed.

(** A request followed by anything: the exchange is the first thing the
    log gains. *)
Lemma request_comes_first {A : Type} (u : string) (ps : list (string * PyVal))
    (k : Response -> M A) (st : State) :
  (forall r, grows (k r)) ->
  exists more,
    log (snd (bind (requests_get W u ps) k st)) =
      log st ++
      EvRequest {| url := u; params := ps; timeout := 10 |}
        (upstream W (log st) {| url := u; params := ps; timeout := 10 |}) :: more.
Proof.
  intros Hk. unfold bind, requests_get. cbv zeta.
  destruct (upstream W (log st) _) as [r |]; simpl.
  - destruct (Hk r (record (EvRequest {| url := u; params := ps; timeout := 10 |} (Some r)) st))
      as [more Hmore].
    exists more. rewrite Hmore. simpl. rewrite <- app_assoc. reflexivity.
  - exists []. reflexivity.
Qed.

End Effects.

(** Walks through a computation and shows that each piece adds to the log. *)
Ltac grows_tac :=
  repeat first
    [ apply grows_ret | apply grows_raise | apply grows_lift
    | apply grows_read_key | apply grows_r_json
    | apply grows_cache_get | apply grows_cache_set
    | apply grows_ensure_api_key | apply grows_requests_get
    | apply grows_bind; [| intros ?]
    | match goal with
      | |- grows (if ?b then _ else _) => destruct b
      | |- grows (match ?x with [] => _ | _ :: _ => _ end) => destruct x
      end ].

(** Taking a computation apart, one construct at a time; the effects of
    the code stay folded and are replaced by what they do. *)
Ltac digest_any H :=
  lazymatch type of H with
  | _cache_get _ _ _ = _ =>
      let Hc := fresh "Hc" in
      let Hs := fresh "Hsame" in
      let Hk := fresh "Hkept" in
      apply cache_get_inv in H as (Hc & Hs & Hk);
      first [discriminate Hc | injection Hc as Hc; subst]
  | _ensure_api_key _ = _ =>
      let Hc := fresh "Hc" in
      apply ensure_api_key_inv in H as (Hc & H);
      first [discriminate Hc | injection Hc as Hc; subst]
  | _cache_set _ _ _ _ = _ =>
      let Hc := fresh "Hc" in
      apply cache_set_inv in H as (Hc & H);
      first [discriminate Hc | clear Hc]
  | requests_get _ _ _ _ = _ =>
      let ans := fresh "answer" in
      let Ha := fresh "Hanswer" in
      let Ho := fresh "Ho" in
      apply requests_get_inv in H as (ans & Ha & Ho & H);
      destruct ans; first [discriminate Ho | injection Ho as Ho]; subst
  | lift _ _ = _ => apply lift_inv in H as [H ?]; subst
  | read_key _ = _ =>
      let Hk := fresh "Hk" in
      apply read_key_inv in H as [Hk ?];
      first [discriminate Hk | injection Hk as Hk]; subst
  | r_json ?r _ = _ =>
      let Hj := fresh "Hjson" in
      apply r_json_inv in H as [? Hj]; subst;
      destruct (json r) eqn:?; first [discriminate Hj | injection Hj as Hj]; subst
  | _ => idtac
  end.

Ltac step H :=
  lazymatch type of H with
  | bind _ _ _ = (Return _, _) =>
      let a := fresh "a" in
      let s := fresh "st" in
      let Hm := fresh "Hm" in
      apply bind_inv_return in H as (a & s & Hm & H); digest_any Hm
  | ret _ _ = (Return _, _) => apply ret_inv_return in H as [? ?]; subst
  | raise _ _ = (Return _, _) => discriminate H
  | (if ?b then _ else _) _ = _ => destruct b eqn:?
  | (match ?x with [] => _ | _ :: _ => _ end) _ = _ => destruct x eqn:?
  end.

Ltac unravel H := repeat (step H; try congruence).

(** The same for a computation that may have raised. *)
Ltac step_any H :=
  lazymatch type of H with
  | bind _ _ _ = _ =>
      let a := fresh "a" in
      let s := fresh "st" in
      let e := fresh "e" in
      let Hm := fresh "Hm" in
      apply bind_inv in H as [(a & s & Hm & H) | (e & Hm & H)];
      [digest_any Hm | digest_any Hm; subst]
  | ret _ _ = _ => apply ret_inv in H as [? ?]; subst
  | raise _ _ = _ => apply raise_inv in H as [? ?]; subst
  | (if ?b then _ else _) _ = _ => destruct b eqn:?
  | (match ?x with [] => _ | _ :: _ => _ end) _ = _ => destruct x eqn:?
  end.

Ltac unravel_any H := repeat (step_any H; try congruence).

(** The last effect of the branch at hand was the store of the result. *)
Ltac is_stored :=
  match goal with
  | Hset : _cache ?s = <[_ := _]> _ |- exists t, _cache ?s !! _ = _ =>
      eexists; rewrite Hset; apply lookup_insert_eq
  end.

(** ** Pure steps *)

Lemma py_get_plain (d : PyVal) (k : string) (v : PyVal) (e : PyExc) :
  py_get d k v = Raise e -> plain e.
Proof.
  destruct d; simpl; try (intros H; injection H as <-; exact I).
  destruct (dict_lookup k kv); discriminate.
Qed.

Lemma py_item_plain (d : PyVal) (k : string) (e : PyExc) :
  py_item d k = Raise e -> plain e.
Proof.
  destruct d; simpl; try (intros H; injection H as <-; exact I).
  destruct (dict_lookup k kv); [discriminate | intros H; injection H as <-; exact I].
Qed.

Lemma py_item0_plain (v : PyVal) (e : PyExc) : py_item0 v = Raise e -> plain e.
Proof.
  destruct v as [| | | s | l |]; simpl; try (intros H; injection H as <-; exact I).
  - destruct s; [intros H; injection H as <-; exact I | discriminate].
  - destruct l; [intros H; injection H as <-; exact I | discriminate].
Qed.

Lemma py_iter_plain (v : PyVal) (e : PyExc) : py_iter v = Raise e -> plain e.
Proof.
  destruct v; simpl; try discriminate; intros H; injection H as <-; exact I.
Qed.

Lemma py_int_plain (int_of_str : string -> option Z) (v : PyVal) (e : PyExc) :
  py_int int_of_str v = Raise e -> plain e.
Proof.
  destruct v; simpl; try discriminate; try (intros H; injection H as <-; exact I).
  destruct (int_of_str s); [discriminate | intros H; injection H as <-; exact I].
Qed.

Lemma obind_plain {A B : Type} (o : Outcome A) (k : A -> Outcome B) (e : PyExc) :
  (o = Raise e -> plain e) ->
  (forall a, k a = Raise e -> plain e) ->
  obind o k = Raise e -> plain e.
Proof.
  intros Ho Hk. destruct o as [a | e']; simpl; [apply Hk |].
  intros H. apply Ho. congruence.
Qed.

Lemma mapM_plain {A B : Type} (f : A -> Outcome B) (l : list A) (e : PyExc) :
  (forall x, f x = Raise e -> plain e) ->
  mapM f l = Raise e -> plain e.
Proof.
  intros Hf. induction l as [| x l IH]; simpl; [discriminate |].
  destruct (f x) as [y | e'] eqn:Hx.
  - destruct (mapM f l) as [ys | e'']; [discriminate |].
    intros H. apply IH. exact H.
  - intros H. apply (Hf x). congruence.
Qed.

Lemma py_join_plain (sep : string) (l : list PyVal) (e : PyExc) :
  py_join sep l = Raise e -> plain e.
Proof.
  induction l as [| x l IH]; simpl; [discriminate |].
  destruct x; try (intros H; injection H as <-; exact I).
  destruct l as [| y l]; [discriminate |].
  destruct (py_join sep (y :: l)) as [t | e']; [discriminate |].
  intros H. apply IH. congruence.
Qed.

Lemma candidate_ids_plain (its : list PyVal) (e : PyExc) :
  candidate_ids its = Raise e -> plain e.
Proof.
  induction its as [| it its IH]; simpl; [discriminate |].
  apply obind_plain; [| intros keep].
  - apply obind_plain; [apply py_get_plain | intros d; apply py_get_plain].
  - destruct (truthy keep); [| exact IH].
    apply obind_plain; [| intros id].
    + apply obind_plain; [apply py_item_plain | intros d; apply py_item_plain].
    + apply obind_plain; [exact IH | intros ids; discriminate].
Qed.

Ltac plain_tac :=
  unfold statistics_of_item, latest_video, pick_thumbnail, enrich;
  repeat first
    [ apply py_get_plain | apply py_item_plain | apply py_item0_plain
    | apply py_iter_plain | apply py_int_plain
    | apply py_join_plain | apply candidate_ids_plain
    | apply obind_plain; [| intros ?]
    | apply mapM_plain; intros ?
    | discriminate ].

(** No pure step of the code raises an [HTTPException]. *)
Ltac not_plain :=
  match goal with
  | H : _ = Raise (HTTPException ?c ?d) |- _ =>
      exfalso; cut (plain (HTTPException c d)); [exact (fun x => x) |];
      revert H; plain_tac
  end.

(** *** No operation rejects a request *)

Section Acceptance.

Variable W : World.

Lemma never_rejects_ret {A : Type} (a : A) : never_rejects (ret a).
Proof. intros st. discriminate. Qed.

Lemma never_rejects_raise {A : Type} (e : PyExc) :
  e <> RequestValidationError -> never_rejects (@raise A e).
Proof. intros He st H. apply He. simpl in H. congruence. Qed.

Lemma never_rejects_lift {A : Type} (x : Outcome A) :
  (forall e, x = Raise e -> plain e) -> never_rejects (lift x).
Proof. intros Hx st H. exact (Hx RequestValidationError H). Qed.

Lemma never_rejects_read_key : never_rejects read_key.
Proof. intros st. discriminate. Qed.

Lemma never_rejects_r_json (r : Response) : never_rejects (r_json r).
Proof. unfold r_json. destruct (json r); intros st; discriminate. Qed.

Lemma never_rejects_requests_get (u : string) (ps : list (string * PyVal)) :
  never_rejects (requests_get W u ps).
Proof.
  intros st. unfold requests_get. cbv zeta.
  destruct (upstream W (log st) _); discriminate.
Qed.

Lemma never_rejects_ensure_api_key : never_rejects _ensure_api_key.
Proof.
  intros st. destruct (_ensure_api_key st) as [o st1] eqn:H.
  apply ensure_api_key_inv in H as (-> & _). discriminate.
Qed.

Lemma never_rejects_cache_get (key : string) : never_rejects (_cache_get W key).
Proof.
  intros st. destruct (_cache_get W key st) as [o st1] eqn:H.
  apply cache_get_inv in H as (-> & _). discriminate.
Qed.

Lemma never_rejects_cache_set (key : string) (v : PyVal) :
  never_rejects (_cache_set W key v).
Proof.
  intros st. destruct (_cache_set W key v st) as [o st1] eqn:H.
  apply cache_set_inv in H as (-> & _). discriminate.
Qed.

Lemma never_rejects_bind {A B : Type} (m : M A) (k : A -> M B) :
  never_rejects m -> (forall a, never_rejects (k a)) -> never_rejects (bind m k).
Proof.
  intros Hm Hk st. unfold bind. specialize (Hm st).
  destruct (m st) as [[a | e] st1]; simpl in *; [apply Hk |].
  intros H. apply Hm. congruence.
Qed.

End Acceptance.

Ltac never_rejects_tac :=
  repeat first
    [ apply never_rejects_ret | apply never_rejects_read_key
    | apply never_rejects_r_json
    | apply never_rejects_cache_get | apply never_rejects_cache_set
    | apply never_rejects_ensure_api_key | apply never_rejects_requests_get
    | apply never_rejects_raise; discriminate
    | apply never_rejects_lift; intros ?; plain_tac
    | apply never_rejects_bind; [| intros ?]
    | match goal with
      | |- never_rejects (if ?b then _ else _) => destruct b
      | |- never_rejects (match ?x with [] => _ | _ :: _ => _ end) => destruct x
      end ].

Lemma str_take_length (n : nat) (s : string) : (String.length (str_take n s) <= n)%nat.
Proof.
  revert s. induction n as [| n IH]; intros [| c s]; simpl; try lia.
  specialize (IH s). lia.
Qed.

Lemma str_take_prefix (n : nat) (s : string) : String.prefix (str_take n s) s = true.
Proof.
  revert s. induction n as [| n IH]; intros [| c s]; simpl; try reflexivity.
  destruct (ascii_dec c c); [apply IH | contradiction].
Qed.

(** ** The sort of [get_popular_videos] *)

Section Sorting.

Context {A : Type} (key : A -> Z).

Lemma insert_desc_perm (x : A) (l : list A) :
  Permutation (x :: l) (insert_desc key x l).
Proof.
  induction l as [| y ys IH]; simpl; [reflexivity |].
  destruct (key x <? key y); [| reflexivity].
  rewrite perm_swap. apply perm_skip. exact IH.
Qed.

Lemma sort_reverse_perm (l : list A) : Permutation l (sort_reverse key l).
Proof.
  induction l as [| x l IH]; simpl; [reflexivity |].
  rewrite <- insert_desc_perm. apply perm_skip. exact IH.
Qed.

Lemma insert_desc_sorted (x : A) (l : list A) :
  StronglySorted (descending key) l ->
  StronglySorted (descending key) (insert_desc key x l).
Proof.
  induction l as [| y ys IH]; simpl; intros Hs.
  - constructor; constructor.
  - inversion Hs as [| ? ? Hys Hall]; subst.
    destruct (key x <? key y) eqn:Hlt.
    + apply Z.ltb_lt in Hlt. constructor; [apply IH; exact Hys |].
      apply (Permutation_Forall (insert_desc_perm x ys)).
      constructor; [unfold descending; lia | exact Hall].
    + apply Z.ltb_ge in Hlt. constructor; [exact Hs |].
      constructor; [exact Hlt |].
      eapply Forall_impl; [exact Hall |]. unfold descending. intros z Hz. lia.
Qed.

Lemma sort_reverse_sorted (l : list A) :
  StronglySorted (descending key) (sort_reverse key l).
Proof.
  induction l as [| x l IH]; simpl; [constructor | apply insert_desc_sorted, IH].
Qed.

(** An element only ever moves past elements with a strictly larger key,
    so the elements of one key keep their order. *)
Lemma insert_desc_stable (n : Z) (x : A) (l : list A) :
  with_key_value key n (insert_desc key x l) = with_key_value key n (x :: l).
Proof.
  unfold with_key_value.
  induction l as [| y ys IH]; [reflexivity |].
  simpl insert_desc. destruct (key x <? key y) eqn:Hlt; [| reflexivity].
  apply Z.ltb_lt in Hlt. simpl in *.
  destruct (key y =? n) eqn:Hy.
  - apply Z.eqb_eq in Hy. rewrite IH.
    destruct (key x =? n) eqn:Hx; [apply Z.eqb_eq in Hx; lia | reflexivity].
  - exact IH.
Qed.

Lemma sort_reverse_stable (n : Z) (l : list A) :
  with_key_value key n (sort_reverse key l) = with_key_value key n l.
Proof.
  induction l as [| x l IH]; [reflexivity |].
  simpl sort_reverse. rewrite insert_desc_stable.
  unfold with_key_value in *. simpl. rewrite IH. reflexivity.
Qed.

End Sorting.

Lemma obind_inv_return {A B : Type} (o : Outcome A) (k : A -> Outcome B) (b : B) :
  obind o k = Return b -> exists a, o = Return a /\ k a = Return b.
Proof. destruct o as [a | e]; simpl; [eauto | discriminate]. Qed.

Lemma mapM_inv_return {A B : Type} (f : A -> Outcome B) (l : list A) (ys : list B) :
  mapM f l = Return ys -> Forall2 (fun x y => f x = Return y) l ys.
Proof.
  revert ys. induction l as [| x l IH]; simpl; intros ys H.
  - injection H as <-. constructor.
  - destruct (f x) as [y | e] eqn:Hx; [| discriminate].
    destruct (mapM f l) as [ys' | e]; [| discriminate].
    injection H as <-. constructor; [exact Hx | apply IH; reflexivity].
Qed.

Lemma length_slice_to {A : Type} (l : list A) (n : Z) :
  0 <= n -> py_slice_to l n = firstn (Z.to_nat n) l.
Proof.
  intros Hn. unfold py_slice_to. apply Z.leb_le in Hn. rewrite Hn. reflexivity.
Qed.

(** ** Cache keys *)

Lemma pretty_N_go_no_colon (x : N) (s : string) :
  no_colon s = true -> no_colon (pretty_N_go x s) = true.
Proof.
  revert s. induction (N.lt_wf_0 x) as [x _ IH]; intros s Hs.
  assert (Hx : (x = 0 \/ 0 < x)%N) by lia.
  destruct Hx as [-> | Hx]; [rewrite pretty_N_go_0; exact Hs |].
  rewrite pretty_N_go_step by exact Hx. apply IH.
  - apply N.div_lt; [exact Hx | reflexivity].
  - simpl. rewrite Hs. unfold pretty_N_char.
    repeat case_match; reflexivity.
Qed.

Lemma pretty_no_colon (z : Z) : no_colon (pretty z) = true.
Proof.
  assert (HN : forall n : N, no_colon (pretty n) = true).
  { intros n. unfold pretty, pretty_N. case_decide; [reflexivity |].
    apply pretty_N_go_no_colon. reflexivity. }
  destruct z as [| p | p]; [reflexivity | apply HN |].
  change (pretty (Z.neg p)) with ("-" +:+ pretty (N.pos p)).
  simpl. apply HN.
Qed.

Lemma no_colon_app (s t : string) : no_colon (s +:+ String ":" t) = false.
Proof.
  induction s as [| c s IH]; [reflexivity |].
  change (no_colon (String c (s +:+ String ":" t)) = false).
  simpl. rewrite IH. apply andb_false_r.
Qed.

Lemma split_at_last_colon (s1 s2 t1 t2 : string) :
  no_colon t1 = true -> no_colon t2 = true ->
  s1 +:+ String ":" t1 = s2 +:+ String ":" t2 -> t1 = t2.
Proof.
  intros H1 H2. revert s2.
  induction s1 as [| c s1 IH]; intros [| d s2] Heq.
  - change (String ":" t1 = String ":" t2) in Heq. injection Heq as Heq. exact Heq.
  - change (String ":" t1 = String d (s2 +:+ String ":" t2)) in Heq.
    injection Heq as _ Ht. rewrite Ht, no_colon_app in H1. discriminate.
  - change (String c (s1 +:+ String ":" t1) = String ":" t2) in Heq.
    injection Heq as _ Ht. rewrite <- Ht, no_colon_app in H2. discriminate.
  - change (String c (s1 +:+ String ":" t1) = String d (s2 +:+ String ":" t2)) in Heq.
    injection Heq as _ Heq. exact (IH s2 Heq).
Qed.

Lemma append_inv_head (a x y : string) : a +:+ x = a +:+ y -> x = y.
Proof.
  induction a as [| c a IH]; [auto |].
  intros H. change (String c (a +:+ x) = String c (a +:+ y)) in H.
  injection H as H. auto.
Qed.

Lemma list_key_inj (category s1 s2 : string) (m1 m2 : Z) :
  category +:+ s1 +:+ ":" +:+ pretty m1 = category +:+ s2 +:+ ":" +:+ pretty m2 ->
  m1 = m2.
Proof.
  intros H. apply append_inv_head in H.
  change (":" +:+ pretty m1) with (String ":" (pretty m1)) in H.
  change (":" +:+ pretty m2) with (String ":" (pretty m2)) in H.
  apply split_at_last_colon in H; try apply pretty_no_colon.
  exact (pretty_Z_inj _ _ H).
Qed.


(** ** Bookkeeping of the upstream exchanges *)

Lemma app_same_nil {A : Type} (l more : list A) : l = l ++ more -> more = [].
Proof.
  intros H. apply (app_inv_head l). rewrite app_nil_r. symmetry. exact H.
Qed.

Lemma no_last_exchange {A : Type} (l earlier : list A) (x : A) :
  l = (l ++ earlier) ++ [x] -> False.
Proof.
  intros H. apply (f_equal (@length A)) in H.
  rewrite !length_app in H. simpl in H. lia.
Qed.

Ltac open_facts :=
  repeat match goal with
  | H : same_surroundings _ _ |- _ => destruct H as (? & ? & ?)
  | H : _ /\ _ |- _ => destruct H as [? ?]
  end.

(** Rewrites the exchanges of the final log in terms of the initial one. *)
Ltac exchanges_norm :=
  repeat first
    [ rewrite record_exchange
    | match goal with
      | Hx : exchanges (log ?a) = _ |- context [exchanges (log ?a)] => rewrite Hx
      end ].

Ltac tidy :=
  repeat match goal with
  | H : negb _ = true |- _ => apply negb_true_iff in H
  | H : negb _ = false |- _ => apply negb_false_iff in H
  | H : (_ =? _) = true |- _ => apply Z.eqb_eq in H
  | H : (_ =? _) = false |- _ => apply Z.eqb_neq in H
  end.

(** ** The footprint of a computation in the cache *)

Section Footprint.

Variable W : World.

Lemma only_touches_ret {A : Type} (key : string) (a : A) : only_touches key (ret a).
Proof. intros st k _. reflexivity. Qed.

Lemma only_touches_raise {A : Type} (key : string) (e : PyExc) :
  only_touches key (@raise A e).
Proof. intros st k _. reflexivity. Qed.

Lemma only_touches_lift {A : Type} (key : string) (x : Outcome A) :
  only_touches key (lift x).
Proof. intros st k _. reflexivity. Qed.

Lemma only_touches_read_key (key : string) : only_touches key read_key.
Proof. intros st k _. reflexivity. Qed.

Lemma only_touches_r_json (key : string) (r : Response) : only_touches key (r_json r).
Proof. unfold r_json. destruct (json r); intros st k _; reflexivity. Qed.

Lemma only_touches_requests_get (key u : string) (ps : list (string * PyVal)) :
  only_touches key (requests_get W u ps).
Proof.
  intros st k _. unfold requests_get. cbv zeta.
  destruct (upstream W (log st) _); reflexivity.
Qed.

Lemma only_touches_ensure_api_key (key : string) : only_touches key _ensure_api_key.
Proof.
  intros st k _. destruct (_ensure_api_key st) as [o st1] eqn:H.
  apply ensure_api_key_inv in H as (_ & Hc & _). simpl. rewrite Hc. reflexivity.
Qed.

Lemma only_touches_cache_get (key : string) : only_touches key (_cache_get W key).
Proof.
  intros st k Hk. destruct (_cache_get W key st) as [o st1] eqn:H.
  apply cache_get_inv in H as (_ & _ & [Hc | Hc]); simpl; rewrite Hc;
    [reflexivity | apply lookup_delete_ne; congruence].
Qed.

Lemma only_touches_cache_set (key : string) (v : PyVal) :
  only_touches key (_cache_set W key v).
Proof.
  intros st k Hk. destruct (_cache_set W key v st) as [o st1] eqn:H.
  apply cache_set_inv in H as (_ & Hc & _). simpl. rewrite Hc.
  apply lookup_insert_ne. congruence.
Qed.

Lemma only_touches_bind {A B : Type} (key : string) (m : M A) (k : A -> M B) :
  only_touches key m -> (forall a, only_touches key (k a)) ->
  only_touches key (bind m k).
Proof.
  intros Hm Hk st k' Hne. unfold bind.
  specialize (Hm st k' Hne). destruct (m st) as [[a | e] st1]; simpl in *.
  - rewrite (Hk a st1 k' Hne). exact Hm.
  - exact Hm.
Qed.

End Footprint.

Ltac only_touches_tac :=
  repeat first
    [ apply only_touches_ret | apply only_touches_raise | apply only_touches_lift
    | apply only_touches_read_key | apply only_touches_r_json
    | apply only_touches_cache_get | apply only_touches_cache_set
    | apply only_touches_ensure_api_key | apply only_touches_requests_get
    | apply only_touches_bind; [| intros ?]
    | match goal with
      | |- only_touches _ (if ?b then _ else _) => destruct b
      | |- only_touches _ (match ?x with [] => _ | _ :: _ => _ end) => destruct x
      end ].

(** Rewrites the final store in terms of the initial one. *)
Ltac cache_norm :=
  repeat match goal with
  | Hx : _cache ?a = _ |- context [_cache ?a] => rewrite Hx
  end.

(** ** The credential, once read, stays *)

Section Credential.

Variable W : World.


Lemma keeps_ret {A : Type} (a : A) : keeps_credential (ret a).
Proof. intros st H. exact H. Qed.

Lemma keeps_raise {A : Type} (e : PyExc) : keeps_credential (@raise A e).
Proof. intros st H. exact H. Qed.

Lemma keeps_lift {A : Type} (x : Outcome A) : keeps_credential (lift x).
Proof. intros st H. exact H. Qed.

Lemma keeps_read_key : keeps_credential read_key.
Proof. intros st H. exact H. Qed.

Lemma keeps_r_json (r : Response) : keeps_credential (r_json r).
Proof. unfold r_json. destruct (json r); intros st H; exact H. Qed.

Lemma keeps_requests_get (u : string) (ps : list (string * PyVal)) :
  keeps_credential (requests_get W u ps).
Proof.
  intros st H. unfold requests_get. cbv zeta.
  destruct (upstream W (log st) _); exact H.
Qed.

Lemma keeps_ensure_api_key : keeps_credential _ensure_api_key.
Proof.
  intros st H. destruct (_ensure_api_key st) as [o st1] eqn:Hrun.
  apply ensure_api_key_inv in Hrun as (_ & _ & _ & _ & Hk). simpl.
  rewrite Hk, H. reflexivity.
Qed.

Lemma keeps_cache_get (key : string) : keeps_credential (_cache_get W key).
Proof.
  intros st H. destruct (_cache_get W key st) as [o st1] eqn:Hrun.
  apply cache_get_inv in Hrun as (_ & (Hk & _) & _). simpl. rewrite Hk. exact H.
Qed.

Lemma keeps_cache_set (key : string) (v : PyVal) : keeps_credential (_cache_set W key v).
Proof.
  intros st H. destruct (_cache_set W key v st) as [o st1] eqn:Hrun.
  apply cache_set_inv in Hrun as (_ & _ & (Hk & _)). simpl. rewrite Hk. exact H.
Qed.

Lemma keeps_bind {A B : Type} (m : M A) (k : A -> M B) :
  keeps_credential m -> (forall a, keeps_credential (k a)) -> keeps_credential (bind m k).
Proof.
  intros Hm Hk st H. unfold bind. specialize (Hm st H).
  destruct (m st) as [[a | e] st1]; simpl in *; [apply Hk |]; exact Hm.
Qed.
End Credential.

Ltac keeps_tac :=
  repeat first
    [ apply keeps_ret | apply keeps_raise | apply keeps_lift
    | apply keeps_read_key | apply keeps_r_json
    | apply keeps_cache_get | apply keeps_cache_set
    | apply keeps_ensure_api_key | apply keeps_requests_get
    | apply keeps_bind; [| intros ?]
    | match goal with
      | |- keeps_credential (if ?b then _ else _) => destruct b
      | |- keeps_credential (match ?x with [] => _ | _ :: _ => _ end) => destruct x
      end ].

Section Properties.

Variable int_of_str : string -> option Z.
Variable repr : PyVal -> string.
Variable lower : string -> string.
Variable W : World.

Lemma truthy_opt_nonempty (s : string) : s <> EmptyString -> truthy_opt (Some s) = true.
Proof.
  intros Hs. simpl. destruct (String.eqb_spec s EmptyString); [contradiction | reflexivity].
Qed.

Lemma run_only_touches (op : Operation) :
  only_touches (cache_key_of repr op) (run int_of_str repr lower W op).
Proof.
  destruct op as [h | c | c | c n | c n]; unfold run, cache_key_of;
    try change (format repr (PInt n)) with (pretty n);
    [ unfold resolve_channel_id; change (truthy_opt None) with false; cbv iota;
      change (default EmptyString (Some h)) with h
    | unfold get_channel_statistics | unfold get_uploads_playlist_id
    | unfold get_latest_videos | unfold get_popular_videos ];
    cbv zeta; only_touches_tac.
Qed.

(** A call served from the cache hands back the data of the entry. *)
Lemma hit_returns_entry (key : string) (st : State) :
  cache_hit W key st = true ->
  exists e, _cache st !! key = Some e /\ cached_value W key st = data e.
Proof.
  unfold cache_hit. intros Hhit.
  destruct (cache_get_cases W key st) as (st1 & _ & _ & [Hnone | (e & He & Hd & _)]).
  - rewrite Hnone in Hhit. discriminate Hhit.
  - eauto.
Qed.

(** ** Reachable states *)

Lemma call_stays_reachable (op : Operation) (st : State) :
  reachable int_of_str repr lower W st ->
  reachable int_of_str repr lower W (snd (run int_of_str repr lower W op st)).
Proof.
  intros H. eapply reach_call; [exact H | apply surjective_pairing].
Qed.

Lemma bind_stays_reachable {A B : Type} (m : M A) (k : A -> M B) :
  (forall st, reachable int_of_str repr lower W st ->
              reachable int_of_str repr lower W (snd (m st))) ->
  (forall a st, reachable int_of_str repr lower W st ->
                reachable int_of_str repr lower W (snd (k a st))) ->
  forall st, reachable int_of_str repr lower W st ->
             reachable int_of_str repr lower W (snd (bind m k st)).
Proof.
  intros Hm Hk st H. unfold bind. specialize (Hm st H).
  destruct (m st) as [[a | e] st1]; simpl in *; [apply Hk |]; exact Hm.
Qed.

Lemma resolve_stays_reachable (handle channel_id : option string) (st : State) :
  reachable int_of_str repr lower W st ->
  reachable int_of_str repr lower W (snd (resolve_channel_id lower W handle channel_id st)).
Proof.
  intros H. unfold resolve_channel_id.
  destruct (truthy_opt channel_id) eqn:Hc; [exact H |].
  destruct handle as [h |]; [| exact H].
  destruct (truthy_opt (Some h)) eqn:Hh; [| exact H]. cbv [negb].
  pose proof (call_stays_reachable (OpResolve h) st H) as Hcall.
  unfold run, resolve_channel_id in Hcall.
  change (truthy_opt None) with false in Hcall. rewrite Hh in Hcall.
  exact Hcall.
Qed.

(** The four endpoints keep the process within the reachable states. *)
Lemma endpoints_stay_reachable
    (handle channelId : option string) (maxResults : option Z) (st : State) :
  reachable int_of_str repr lower W st ->
  reachable int_of_str repr lower W
    (snd (youtube_overview int_of_str repr lower W handle channelId maxResults st)) /\
  reachable int_of_str repr lower W
    (snd (youtube_subscribers int_of_str repr lower W handle channelId st)) /\
  reachable int_of_str repr lower W
    (snd (youtube_latest repr lower W handle channelId maxResults st)) /\
  reachable int_of_str repr lower W
    (snd (youtube_popular int_of_str repr lower W handle channelId maxResults st)).
Proof.
  intros H.
  assert (Hstats : forall c s, reachable int_of_str repr lower W s ->
            reachable int_of_str repr lower W (snd (get_channel_statistics int_of_str repr W c s)))
    by (intros c; exact (call_stays_reachable (OpStatistics c))).
  assert (Hlatest : forall c n s, reachable int_of_str repr lower W s ->
            reachable int_of_str repr lower W (snd (get_latest_videos repr W c n s)))
    by (intros c n; exact (call_stays_reachable (OpLatest c n))).
  assert (Hpopular : forall c n s, reachable int_of_str repr lower W s ->
            reachable int_of_str repr lower W (snd (get_popular_videos int_of_str repr W c n s)))
    by (intros c n; exact (call_stays_reachable (OpPopular c n))).
  assert (Hresolve := resolve_stays_reachable handle channelId).
  repeat split.
  - unfold youtube_overview, query_bounded.
    apply bind_stays_reachable; [| | exact H].
    + intros s Hs. destruct (_ && _); exact Hs.
    + intros m s Hs. revert s Hs.
      repeat (apply bind_stays_reachable; [auto | intros ?]). auto.
  - unfold youtube_subscribers. revert st H.
    repeat (apply bind_stays_reachable; [auto | intros ?]). auto.
  - unfold youtube_latest, query_int. revert st H.
    repeat (apply bind_stays_reachable; [auto | intros ?]). auto.
  - unfold youtube_popular, query_int. revert st H.
    repeat (apply bind_stays_reachable; [auto | intros ?]). auto.
Qed.
(** ** TTL cache *)

(** C6: a lookup of an entry older than the TTL of 1200 seconds answers
    [None] and removes the entry from the store; a lookup of an entry
    within the TTL answers the stored value and leaves the store alone. *)
Theorem cache_get_honours_ttl (key : string) (e : CacheEntry) (st : State) :
  _cache st !! key = Some e ->
  let age := (clock W (log st ++ [EvCacheGet key]) - ts e)%Q in
  ((1200 < age)%Q ->
     exists st', _cache_get W key st = (Return PNone, st') /\
                 _cache st' = delete key (_cache st)) /\
  ((age <= 1200)%Q ->
     exists st', _cache_get W key st = (Return (data e), st') /\
                 _cache st' = _cache st).
Proof.
  intros Hk age.
  unfold _cache_get, bind, cache_lookup, time_time. rewrite Hk. simpl.
  fold age. unfold CACHE_TTL_SECONDS.
  split; intros Hage; destruct (Qlt_le_dec _ age) as [Hold | Hyoung]; simpl;
    try (exfalso; lra); eexists; split; reflexivity.
Qed.

(** ** Credential gate *)

(** C2 (as amended): the gate consults the environment only while the
    global holds no credential; it answers true exactly when the global or,
    failing that, the environment holds a non-empty string, and it keeps
    what it read. *)
Theorem ensure_api_key_sticky (st : State) :
  exists st',
    _ensure_api_key st =
      (Return (truthy_opt (YOUTUBE_API_KEY st)
               || truthy_opt (environ st !! "YOUTUBE_API_KEY")), st') /\
    (truthy_opt (YOUTUBE_API_KEY st) = true -> st' = st) /\
    (truthy_opt (YOUTUBE_API_KEY st) = false ->
       YOUTUBE_API_KEY st' = environ st !! "YOUTUBE_API_KEY" /\
       _cache st' = _cache st /\ environ st' = environ st).
Proof.
  unfold _ensure_api_key, bind, read_key, os_getenv, write_key, ret.
  destruct (truthy_opt (YOUTUBE_API_KEY st)) eqn:Hk; simpl.
  - rewrite Hk. simpl. eexists; split; [reflexivity |]. split; [reflexivity | discriminate].
  - destruct (truthy_opt (environ st !! "YOUTUBE_API_KEY")) eqn:He; simpl;
      (eexists; split; [reflexivity |]); (split; [discriminate | intros _; auto]).
Qed.

(** ** Channel resolution *)

(** C9: an explicit non-empty channel id comes back unchanged, and the call
    leaves the whole state as it was: nothing is looked up, stored, read or
    requested, with or without a handle. *)
Theorem explicit_channel_id_is_returned_untouched
    (handle : option string) (cid : string) (st : State) :
  cid <> EmptyString ->
  resolve_channel_id lower W handle (Some cid) st = (Return (PStr cid), st).
Proof.
  intros Hc. unfold resolve_channel_id.
  rewrite (truthy_opt_nonempty cid Hc). reflexivity.
Qed.

(** ** The shape of the five operations *)

Lemma lists_no_items_iff (r : Response) :
  lists_no_items r <->
  status_code r = 200 /\
  exists body items, json r = Some body /\
                     py_get body "items" (PList []) = Return items /\
                     truthy items = false.
Proof.
  unfold lists_no_items. split.
  - intros (Hs & kv & Hj & Hitems). split; [exact Hs |].
    exists (PDict kv). simpl. destruct (dict_lookup "items" kv) as [items |]; eauto.
  - intros (Hs & body & items & Hj & Hget & Hf). split; [exact Hs |].
    destruct body; simpl in Hget; try discriminate.
    exists kv. split; [exact Hj |].
    destruct (dict_lookup "items" kv); [congruence | exact I].
Qed.

Lemma no_credential_after_gate (st st0 st1 : State) :
  has_credential st = false ->
  YOUTUBE_API_KEY st0 = YOUTUBE_API_KEY st ->
  environ st0 = environ st ->
  truthy_opt (YOUTUBE_API_KEY st1) =
    truthy_opt (YOUTUBE_API_KEY st0) || truthy_opt (environ st0 !! "YOUTUBE_API_KEY") ->
  truthy_opt (YOUTUBE_API_KEY st1) = true -> False.
Proof.
  unfold has_credential. intros Hc Hk He Hor Hf.
  rewrite Hk, He, Hc in Hor. congruence.
Qed.

(** C3 (as amended): a call that is not served from the cache and returns
    has stored what it returns under its key, on every path of the fallback
    branch and of the live branch, but for the two early returns of the
    live branch. [get_uploads_playlist_id] hands back [None] when the
    upstream lists no item, and [get_popular_videos] the empty list when
    the answer names no candidate; an early return stores nothing: the
    cache is as the lookup left it. Every other return, an empty list or a
    [None] included, is stored; so is every return without a credential. *)
Theorem result_is_stored_unless_early_return
    (op : Operation) (st : State) (v : PyVal) (st' : State) :
  cache_hit W (cache_key_of repr op) st = false ->
  run int_of_str repr lower W op st = (Return v, st') ->
  ((early_return op st st' /\
    v = early_value op /\
    (_cache st' = _cache st \/ _cache st' = delete (cache_key_of repr op) (_cache st)))
   \/
   (~ early_return op st st' /\
    exists t, _cache st' !! cache_key_of repr op = Some {| ts := t; data := v |})) /\
  (has_credential st = false ->
   exists t, _cache st' !! cache_key_of repr op = Some {| ts := t; data := v |}).
Proof.
  intros Hmiss H. unfold cache_hit in Hmiss.
  destruct op as [h | c | c | c n | c n]; unfold run in H; unfold cache_key_of in *;
    try change (format repr (PInt n)) with (pretty n) in *;
    [ unfold resolve_channel_id in H; cbv zeta in H;
      change (truthy_opt None) with false in H; cbv iota in H;
      change (default EmptyString (Some h)) with h in H
    | unfold get_channel_statistics in H | unfold get_uploads_playlist_id in H
    | unfold get_latest_videos in H | unfold get_popular_videos in H ];
    cbv zeta in H; unravel H; open_facts; tidy;
    try change (format repr (PInt n)) with (pretty n) in *.
  (* resolution, statistics and latest videos have no early return *)
  all: try (split; [right; split; [exact (fun x => x) |] | intros _]; is_stored).
  all: split.
  (* without a credential the fallback was stored *)
  all: try (intros Hcred;
            first [is_stored | exfalso; eapply no_credential_after_gate; eassumption]).
  all: first
    [ (* the store came last: the call did not return early *)
      right; split; [| is_stored];
      unfold early_return; intros (? & ? & Hex & Hempty);
      revert Hex; exchanges_norm; rewrite <- ?app_assoc; intros Hex;
      first
        [ apply app_same_nil in Hex; discriminate Hex
        | apply app_inv_head in Hex; simpl in Hex;
          first [discriminate Hex | injection Hex as ? ?; subst];
          apply lists_no_items_iff in Hempty;
          destruct Hempty as (? & body & items & ? & ? & ?); congruence ]
    | (* an early return *)
      left; split; [| split; [reflexivity |]];
      [ unfold early_return; eexists; eexists; split; [exchanges_norm; reflexivity |];
        first
          [ apply lists_no_items_iff; split; [assumption | eauto 6]
          | split; [assumption |];
            match goal with
            | Hm : obind _ _ = Return [] |- _ =>
                apply obind_inv_return in Hm as (items & Hitems & Hm);
                apply obind_inv_return in Hm as (pool & Hpool & Hm);
                eauto 8
            end ]
      | match goal with Hk : _ \/ _ |- _ => destruct Hk; [left | right] end;
        simpl; cache_norm; reflexivity ] ].
Qed.

Lemma fallback_map_get (h : string) :
  py_get fallback_map h (PStr ("UC_demo_" +:+ lower (strip "@" h))) =
    Return (PStr (synthetic_id lower h)).
Proof.
  unfold py_get, fallback_map, dict_lookup, synthetic_id.
  rewrite (String.eqb_sym "@UNBEQUEM-o2w" h), (String.eqb_sym "@BEQUEM-g" h).
  destruct (String.eqb h "@UNBEQUEM-o2w"); [reflexivity |].
  destruct (String.eqb h "@BEQUEM-g"); reflexivity.
Qed.

Lemma rstrip_without_end (c : ascii) (s : string) :
  ends_with c s = false -> rstrip c s = s.
Proof.
  induction s as [| a s IH]; [reflexivity |].
  destruct s as [| b s'].
  - simpl. intros ->. reflexivity.
  - intros Hend. change (ends_with c (String b s') = false) in Hend.
    change (rstrip c (String a (String b s')))
      with (match rstrip c (String b s') with
            | EmptyString => if Ascii.eqb a c then EmptyString else String a EmptyString
            | r => String a r
            end).
    rewrite (IH Hend). reflexivity.
Qed.

Lemma lstrip_keeps_end (c : ascii) (s : string) :
  ends_with c s = false -> ends_with c (lstrip c s) = false.
Proof.
  induction s as [| a s IH]; [reflexivity |].
  intros Hend. simpl lstrip. destruct (Ascii.eqb a c) eqn:Hac; [| exact Hend].
  apply IH. destruct s as [| b s']; [| exact Hend].
  simpl in Hend. congruence.
Qed.

(** Away from the two demo handles and from handles that end in [@], the
    synthetic identifier is the one of the specification's rule. *)
Lemma synthetic_id_is_the_rule (h : string) :
  String.eqb h "@UNBEQUEM-o2w" = false ->
  String.eqb h "@BEQUEM-g" = false ->
  ends_with "@" h = false ->
  synthetic_id lower h = synthetic_id_by_the_rule lower h.
Proof.
  intros H1 H2 Hend. unfold synthetic_id, synthetic_id_by_the_rule, strip.
  rewrite H1, H2.
  rewrite (rstrip_without_end "@" (lstrip "@" h) (lstrip_keeps_end "@" h Hend)).
  reflexivity.
Qed.

Lemma synthetic_id_truthy (h : string) : truthy (PStr (synthetic_id lower h)) = true.
Proof.
  unfold synthetic_id.
  destruct (String.eqb h "@UNBEQUEM-o2w"); [reflexivity |].
  destruct (String.eqb h "@BEQUEM-g"); reflexivity.
Qed.

(** One resolution without a credential, from a state whose entry for the
    handle, if it passes the guard at all, holds the synthetic id. *)
Lemma resolve_in_fallback_mode (h : string) (st : State) :
  h <> EmptyString ->
  has_credential st = false ->
  truthy (cached_value W ("resolve:" +:+ h) st) = false \/
    cached_value W ("resolve:" +:+ h) st = PStr (synthetic_id lower h) ->
  exists st',
    resolve_channel_id lower W (Some h) None st = (Return (PStr (synthetic_id lower h)), st') /\
    exchanges (log st') = exchanges (log st) /\
    has_credential st' = false /\
    exists e, _cache st' !! ("resolve:" +:+ h) = Some e /\ data e = PStr (synthetic_id lower h).
Proof.
  intros Hh Hcred Hcached.
  unfold resolve_channel_id. cbv zeta.
  change (truthy_opt None) with false. cbv iota.
  rewrite (truthy_opt_nonempty h Hh). cbv [negb].
  change (default EmptyString (Some h)) with h.
  destruct (cache_get_cases W ("resolve:" +:+ h) st)
    as (st1 & Hget & (Hkey1 & Henv1 & Hex1) & Hcases).
  rewrite (bind_return _ _ _ _ _ Hget).
  assert (Hcred1 : has_credential st1 = false).
  { unfold has_credential in *. rewrite Hkey1, Henv1. exact Hcred. }
  destruct (truthy (cached_value W ("resolve:" +:+ h) st)) eqn:Htruthy.
  - destruct Hcached as [Hcached | Hcached]; [discriminate |].
    rewrite Hcached. exists st1. split; [reflexivity |].
    split; [exact Hex1 |]. split; [exact Hcred1 |].
    destruct Hcases as [Hnone | (e & He & Hdata & Hcache)].
    + rewrite Hnone in Htruthy. discriminate.
    + exists e. rewrite Hcache. split; [exact He | congruence].
  - destruct (ensure_api_key_run st1) as (st2 & Hgate & Hlog2 & _ & Henv2 & Hkey2).
    rewrite (bind_return _ _ _ _ _ Hgate), Hcred1. cbv [negb].
    rewrite fallback_map_get. erewrite bind_return by reflexivity.
    destruct (cache_set_inv W ("resolve:" +:+ h) (PStr (synthetic_id lower h)) st2
                (fst (_cache_set W ("resolve:" +:+ h) (PStr (synthetic_id lower h)) st2))
                (snd (_cache_set W ("resolve:" +:+ h) (PStr (synthetic_id lower h)) st2)))
      as (Ho & Hset & Hkey3 & Henv3 & Hex3); [apply surjective_pairing |].
    destruct (_cache_set W _ _ st2) as [o st3] eqn:Hrun. simpl in *. subst o.
    rewrite (bind_return _ _ _ _ _ Hrun).
    exists st3. split; [reflexivity |]. split; [| split].
    + rewrite Hex3, Hlog2, exchanges_app, Hex1.
      unfold gate_events. destruct (truthy_opt (YOUTUBE_API_KEY st1)); simpl;
        apply app_nil_r.
    + unfold has_credential in *. rewrite Hkey3, Henv3, Henv2.
      rewrite Hkey2.
      apply orb_false_iff in Hcred1 as [-> ->]. reflexivity.
    + eexists. rewrite Hset. split; [apply lookup_insert_eq | reflexivity].
Qed.

Lemma run_keeps_credential (op : Operation) :
  keeps_credential (run int_of_str repr lower W op).
Proof.
  destruct op as [h | c | c | c n | c n]; unfold run;
    [ unfold resolve_channel_id; change (truthy_opt None) with false; cbv iota
    | unfold get_channel_statistics | unfold get_uploads_playlist_id
    | unfold get_latest_videos | unfold get_popular_videos ];
    cbv zeta; keeps_tac.
Qed.

Lemma resolve_entry_after (h : string) (st : State) (o : Outcome PyVal)
    (st' : State) (e : CacheEntry) :
  resolve_channel_id lower W (Some h) None st = (o, st') ->
  truthy_opt (YOUTUBE_API_KEY st') = false ->
  _cache st' !! ("resolve:" +:+ h) = Some e ->
  _cache st !! ("resolve:" +:+ h) = Some e \/ data e = PStr (synthetic_id lower h).
Proof.
  intros H Hk He. unfold resolve_channel_id in H. cbv zeta in H.
  change (truthy_opt None) with false in H. cbv iota in H.
  change (default EmptyString (Some h)) with h in H.
  unravel_any H; open_facts;
    try match goal with Hd : _ \/ _ |- _ => destruct Hd end;
    simpl in He; revert He; cache_norm; intros He;
    first
      [ left; exact He
      | rewrite lookup_delete_eq in He; discriminate He
      | rewrite lookup_insert_eq in He; injection He as He; subst e; right; simpl;
        tidy;
        first
          [ match goal with
            | Hm : py_get fallback_map _ _ = Return _ |- _ =>
                rewrite fallback_map_get in Hm; injection Hm as Hm; congruence
            end
          | simpl in *; congruence ] ].
Qed.

Lemma synthetic_entries_kept (op : Operation) (st : State)
    (o : Outcome PyVal) (st' : State) :
  run int_of_str repr lower W op st = (o, st') ->
  synthetic_entries lower st -> synthetic_entries lower st'.
Proof.
  intros Hrun Hinv Hk h e He.
  assert (Hk0 : truthy_opt (YOUTUBE_API_KEY st) = false).
  { destruct (truthy_opt (YOUTUBE_API_KEY st)) eqn:Hold; [| reflexivity].
    pose proof (run_keeps_credential op st Hold) as Hnew.
    rewrite Hrun in Hnew. simpl in Hnew. congruence. }
  destruct (decide ("resolve:" +:+ h = cache_key_of repr op)) as [Hkey | Hkey].
  - destruct op as [h' | c | c | c m | c m]; unfold cache_key_of in Hkey;
      try discriminate Hkey.
    apply append_inv_head in Hkey. subst h'. unfold run in Hrun.
    destruct (resolve_entry_after h st o st' e Hrun Hk He) as [Hold | Hnew].
    + exact (Hinv Hk0 h e Hold).
    + exact Hnew.
  - pose proof (run_only_touches op st _ Hkey) as Hsame.
    rewrite Hrun in Hsame. simpl in Hsame. rewrite Hsame in He.
    exact (Hinv Hk0 h e He).
Qed.

Lemma reachable_synthetic (st : State) :
  reachable int_of_str repr lower W st -> synthetic_entries lower st.
Proof.
  induction 1 as [key env lg | op st o st' _ IH Hrun | env st _ IH].
  - intros _ h e He. simpl in He. rewrite lookup_empty in He. discriminate He.
  - exact (synthetic_entries_kept op st o st' Hrun IH).
  - exact IH.
Qed.

(** C5 (as amended): in every state the process reaches from an empty
    cache, a resolution without a credential answers with the synthetic
    identifier of the handle: the fixed one for the two demo handles, and
    otherwise the prefix [UC_demo_] before the handle without the [@] at its
    ends, lowercased by [str.lower], whatever the case mapping of the
    interpreter; this is the identifier of the specification's rule unless
    the handle ends in [@]. The same call again gives the same identifier,
    and neither makes an upstream request. *)
Theorem fallback_resolution_is_deterministic (h : string) (st : State) :
  reachable int_of_str repr lower W st ->
  h <> EmptyString ->
  has_credential st = false ->
  exists st' st'',
    resolve_channel_id lower W (Some h) None st =
      (Return (PStr (synthetic_id lower h)), st') /\
    resolve_channel_id lower W (Some h) None st' =
      (Return (PStr (synthetic_id lower h)), st'') /\
    exchanges (log st') = exchanges (log st) /\
    exchanges (log st'') = exchanges (log st) /\
    (String.eqb h "@UNBEQUEM-o2w" = false ->
     String.eqb h "@BEQUEM-g" = false ->
     ends_with "@" h = false ->
     synthetic_id lower h = synthetic_id_by_the_rule lower h).
Proof.
  intros Hreach Hh Hcred.
  assert (Hcached : truthy (cached_value W ("resolve:" +:+ h) st) = false \/
                    cached_value W ("resolve:" +:+ h) st = PStr (synthetic_id lower h)).
  { destruct (cache_hit W ("resolve:" +:+ h) st) eqn:Hhit; [| left; exact Hhit].
    right. destruct (hit_returns_entry _ _ Hhit) as (e & He & ->).
    apply (reachable_synthetic st Hreach); [| exact He].
    unfold has_credential in Hcred. apply orb_false_iff in Hcred as [Hk _]. exact Hk. }
  destruct (resolve_in_fallback_mode h st Hh Hcred Hcached)
    as (st' & Hrun & Hex & Hcred' & e & He & Hdata).
  assert (Hnext : truthy (cached_value W ("resolve:" +:+ h) st') = false \/
                  cached_value W ("resolve:" +:+ h) st' = PStr (synthetic_id lower h)).
  { destruct (cache_get_cases W ("resolve:" +:+ h) st')
      as (st1 & _ & _ & [Hnone | (e' & He' & Hd & _)]).
    - left. rewrite Hnone. reflexivity.
    - right. rewrite Hd. congruence. }
  destruct (resolve_in_fallback_mode h st' Hh Hcred' Hnext)
    as (st'' & Hrun' & Hex' & _).
  exists st', st''. repeat split; try congruence.
  apply synthetic_id_is_the_rule.
Qed.

(** ** Error kinds *)

Lemma invalid_argument_iff (handle channel_id : option string) (st : State) :
  (exists d st',
     resolve_channel_id lower W handle channel_id st = (Raise (HTTPException 400 d), st')) <->
  truthy_opt handle = false /\ truthy_opt channel_id = false.
Proof.
  split.
  - intros (d & st' & H). unfold resolve_channel_id in H. cbv zeta in H.
    unravel_any H; tidy; unfold upstream_error in *;
      repeat match goal with
             | Hr : Raise _ = Raise _ |- _ => injection Hr as Hr; subst
             end;
      try congruence; try not_plain; auto.
  - intros [Hh Hc]. unfold resolve_channel_id. rewrite Hc, Hh. simpl. eauto.
Qed.

Lemma not_found_iff (handle channel_id : option string) (st : State)
    (o : Outcome PyVal) (st' : State) (req : Request) (r : Response) :
  resolve_channel_id lower W handle channel_id st = (o, st') ->
  exchanges (log st') = exchanges (log st) ++ [(req, Some r)] ->
  (exists d, o = Raise (HTTPException 404 d)) <-> lists_no_items r.
Proof.
  intros H Hex. rewrite lists_no_items_iff.
  unfold resolve_channel_id in H. cbv zeta in H.
  unravel_any H; open_facts; revert Hex; exchanges_norm; intros Hex;
    try (apply app_same_nil in Hex; discriminate Hex);
    apply app_inv_head in Hex; injection Hex as ? ?; subst; try discriminate;
    tidy; unfold upstream_error;
    (split; [intros (d & Hd); try discriminate Hd; try (injection Hd as Hd; subst)
            | intros (Hs & body & items & Hj & Hget & Hf)]);
    try congruence; try not_plain; eauto 10.
Qed.

Lemma statistics_not_found_iff (channel_id : PyVal) (st : State)
    (o : Outcome PyVal) (st' : State) (req : Request) (r : Response) :
  get_channel_statistics int_of_str repr W channel_id st = (o, st') ->
  exchanges (log st') = exchanges (log st) ++ [(req, Some r)] ->
  (exists d, o = Raise (HTTPException 404 d)) <-> lists_no_items r.
Proof.
  intros H Hex. rewrite lists_no_items_iff.
  unfold get_channel_statistics in H. cbv zeta in H.
  unravel_any H; open_facts; revert Hex; exchanges_norm; intros Hex;
    try (apply app_same_nil in Hex; discriminate Hex);
    apply app_inv_head in Hex; injection Hex as ? ?; subst; try discriminate;
    tidy; unfold upstream_error;
    (split; [intros (d & Hd); try discriminate Hd; try (injection Hd as Hd; subst)
            | intros (Hs & body & items & Hj & Hget & Hf)]);
    try congruence; try not_plain; eauto 10.
Qed.

Lemma upstream_error_excerpt (r : Response) :
  exists excerpt,
    @Raise PyVal (upstream_error r) =
      Raise (HTTPException 502 ("YouTube API error: " +:+ excerpt)) /\
    (String.length excerpt <= 200)%nat /\
    String.prefix excerpt (text r) = true.
Proof.
  exists (str_take 200 (text r)). split; [reflexivity |].
  split; [apply str_take_length | apply str_take_prefix].
Qed.

Lemma bad_status_is_upstream_error (op : Operation) (st : State)
    (o : Outcome PyVal) (st' : State)
    (earlier : list (Request * option Response)) (req : Request) (r : Response) :
  run int_of_str repr lower W op st = (o, st') ->
  exchanges (log st') = exchanges (log st) ++ earlier ++ [(req, Some r)] ->
  status_code r <> 200 ->
  exists excerpt,
    o = Raise (HTTPException 502 ("YouTube API error: " +:+ excerpt)) /\
    (String.length excerpt <= 200)%nat /\
    String.prefix excerpt (text r) = true.
Proof.
  intros H Hex Hbad. rewrite app_assoc in Hex.
  destruct op as [h | c | c | c n | c n]; unfold run in H;
    [ unfold resolve_channel_id in H | unfold get_channel_statistics in H
    | unfold get_uploads_playlist_id in H | unfold get_latest_videos in H
    | unfold get_popular_videos in H ];
    cbv zeta in H;
    unravel_any H; open_facts; revert Hex; exchanges_norm; intros Hex;
    try (exfalso; apply (no_last_exchange _ _ _ Hex));
    apply app_inj_tail in Hex as [_ Hlast]; injection Hlast as ? ?; subst;
    try discriminate; tidy; try contradiction;
    apply upstream_error_excerpt.
Qed.

(** C8: [resolve_channel_id] raises the 400 error exactly when neither a
    handle nor a channel id is supplied (absent or empty); a live lookup, a
    resolution or a statistics lookup that asked the upstream, raises the
    404 error exactly when the answer lists no item; and in every operation
    an upstream answer with a non-success status raises the 502 error,
    whose message carries at most the first 200 characters of the body. *)
Theorem resolution_error_kinds :
  (forall handle channel_id st,
     (exists d st',
        resolve_channel_id lower W handle channel_id st =
          (Raise (HTTPException 400 d), st')) <->
     truthy_opt handle = false /\ truthy_opt channel_id = false) /\
  (forall handle channel_id st o st' req r,
     resolve_channel_id lower W handle channel_id st = (o, st') ->
     exchanges (log st') = exchanges (log st) ++ [(req, Some r)] ->
     (exists d, o = Raise (HTTPException 404 d)) <-> lists_no_items r) /\
  (forall channel_id st o st' req r,
     get_channel_statistics int_of_str repr W channel_id st = (o, st') ->
     exchanges (log st') = exchanges (log st) ++ [(req, Some r)] ->
     (exists d, o = Raise (HTTPException 404 d)) <-> lists_no_items r) /\
  (forall op st o st' earlier req r,
     run int_of_str repr lower W op st = (o, st') ->
     exchanges (log st') = exchanges (log st) ++ earlier ++ [(req, Some r)] ->
     is_success (status_code r) = false ->
     exists excerpt,
       o = Raise (HTTPException 502 ("YouTube API error: " +:+ excerpt)) /\
       (String.length excerpt <= 200)%nat /\
       String.prefix excerpt (text r) = true).
Proof.
  split; [| split; [| split]].
  - apply invalid_argument_iff.
  - apply not_found_iff.
  - apply statistics_not_found_iff.
  - intros op st o st' earlier req r H Hex Hbad.
    apply (bad_status_is_upstream_error op st o st' earlier req r H Hex).
    intros Hs. rewrite Hs in Hbad. discriminate Hbad.
Qed.

(** ** Ranking by popularity *)

Lemma enrich_view_count (it x : PyVal) :
  enrich int_of_str it = Return x ->
  py_get x "viewCount" (PInt 0) = Return (PInt (view_count x)).
Proof.
  unfold enrich. intros H.
  repeat (apply obind_inv_return in H as (? & ? & H)).
  injection H as <-. reflexivity.
Qed.

Lemma enriched_view_counts (pool enriched : list PyVal) :
  mapM (enrich int_of_str) pool = Return enriched ->
  Forall (fun x => py_get x "viewCount" (PInt 0) = Return (PInt (view_count x)))
    enriched.
Proof.
  intros H. apply mapM_inv_return in H.
  induction H as [| it x pool' enriched' Hx _ IH]; constructor.
  - exact (enrich_view_count it x Hx).
  - exact IH.
Qed.

(** C7: when [get_popular_videos] has fetched a pool and its statistics,
    it returns the enriched pool sorted by [viewCount], largest first, with
    the entries of equal [viewCount] in the order of the pool, cut to its
    first [max_results] entries. *)
Theorem popular_videos_are_ranked
    (channel_id : PyVal) (max_results : Z) (st : State) (v : PyVal) (st' : State)
    (req1 req2 : Request) (r1 r2 : Response) :
  0 <= max_results ->
  get_popular_videos int_of_str repr W channel_id max_results st = (Return v, st') ->
  exchanges (log st') = exchanges (log st) ++ [(req1, Some r1); (req2, Some r2)] ->
  exists body items pool enriched sorted,
    json r2 = Some body /\
    py_get body "items" (PList []) = Return items /\
    py_iter items = Return pool /\
    mapM (enrich int_of_str) pool = Return enriched /\
    Forall (fun x => py_get x "viewCount" (PInt 0) = Return (PInt (view_count x)))
      enriched /\
    Permutation enriched sorted /\
    StronglySorted (descending view_count) sorted /\
    (forall n, with_key_value view_count n sorted = with_key_value view_count n enriched) /\
    v = PList (firstn (Z.to_nat max_results) sorted).
Proof.
  intros Hmax H Hex.
  unfold get_popular_videos in H. cbv zeta in H.
  unravel H; open_facts; revert Hex; exchanges_norm; intros Hex;
    try (apply app_same_nil in Hex; discriminate Hex);
    rewrite <- ?app_assoc in Hex; apply app_inv_head in Hex;
    try discriminate Hex.
  injection Hex as ? ? ? ?; subst.
  match goal with
  | Hm : obind _ _ = Return ?enriched, Hj : json ?r = Some ?body
    |- context [json ?r] =>
      apply obind_inv_return in Hm as (items & Hitems & Hm);
      apply obind_inv_return in Hm as (pool & Hpool & Hm);
      pose proof (enriched_view_counts _ _ Hm) as Hall;
      exists body, items, pool, enriched, (sort_reverse view_count enriched)
  end.
  repeat split; try assumption.
  - apply sort_reverse_perm.
  - apply sort_reverse_sorted.
  - intros n. apply sort_reverse_stable.
  - rewrite length_slice_to by exact Hmax. reflexivity.
Qed.

(** ** The size of the video lists *)

Lemma length_range1 (n : Z) : 0 <= n -> Z.of_nat (length (range1 n)) = n.
Proof. intros Hn. unfold range1. rewrite length_seqZ. lia. Qed.

Lemma mapM_length {A B : Type} (f : A -> Outcome B) (l : list A) (ys : list B) :
  mapM f l = Return ys -> length ys = length l.
Proof.
  intros H. apply mapM_inv_return in H.
  induction H; simpl; congruence.
Qed.

Lemma popular_is_bounded (channel_id : PyVal) (max_results : Z)
    (st : State) (v : PyVal) (st' : State) :
  0 <= max_results ->
  cache_hit W (cache_key_of repr (OpPopular channel_id max_results)) st = false ->
  get_popular_videos int_of_str repr W channel_id max_results st = (Return v, st') ->
  at_most max_results v.
Proof.
  intros Hmax Hmiss H. unfold cache_hit, cache_key_of in Hmiss.
  change (format repr (PInt max_results)) with (pretty max_results) in *.
  unfold get_popular_videos in H. cbv zeta in H.
  unravel H; eexists; (split; [reflexivity |]).
  - rewrite length_map. rewrite length_range1; lia.
  - simpl. exact Hmax.
  - rewrite length_slice_to by exact Hmax. rewrite length_firstn. lia.
Qed.

Lemma latest_is_as_long_as_the_answer (channel_id : PyVal) (max_results : Z)
    (st : State) (v : PyVal) (st' : State) :
  0 <= max_results ->
  cache_hit W (cache_key_of repr (OpLatest channel_id max_results)) st = false ->
  get_latest_videos repr W channel_id max_results st = (Return v, st') ->
  exists l,
    v = PList l /\
    ((has_credential st = false /\ Z.of_nat (length l) = max_results) \/
     (exists req r body items pool,
        exchanges (log st') = exchanges (log st) ++ [(req, Some r)] /\
        json r = Some body /\
        py_get body "items" (PList []) = Return items /\
        py_iter items = Return pool /\
        length l = length pool)).
Proof.
  intros Hmax Hmiss H. unfold cache_hit, cache_key_of in Hmiss.
  change (format repr (PInt max_results)) with (pretty max_results) in *.
  unfold get_latest_videos in H. cbv zeta in H.
  unravel H; open_facts; eexists; (split; [reflexivity |]).
  - left. split; [| rewrite length_map; apply length_range1; exact Hmax].
    tidy. unfold has_credential.
    match goal with
    | Hk : truthy_opt (YOUTUBE_API_KEY ?s1) = false,
      Hor : truthy_opt (YOUTUBE_API_KEY ?s1) = _ || _ |- _ =>
        rewrite Hk in Hor; symmetry in Hor; apply orb_false_iff in Hor as [Hg He]
    end.
    match goal with
    | Hk0 : YOUTUBE_API_KEY ?s0 = YOUTUBE_API_KEY st,
      He0 : environ ?s0 = environ st |- _ =>
        rewrite <- Hk0, <- He0, Hg, He; reflexivity
    end.
  - right.
    match goal with
    | Hm : obind _ _ = Return ?videos |- _ =>
        apply obind_inv_return in Hm as (pool & Hpool & Hm);
        apply mapM_length in Hm
    end.
    match goal with
    | Hj : json ?r = Some ?body,
      Hi : py_get ?body "items" _ = Return ?items,
      Hp : py_iter ?items = Return ?its,
      Hl : length _ = length ?its |- _ =>
        eexists; exists r, body, items, its;
        split; [exchanges_norm; reflexivity | auto]
    end.
Qed.

(** *** The bound as an invariant of the cache *)

Lemma at_most_fallback (f : Z -> PyVal) (n : Z) :
  0 <= n -> at_most n (PList (map f (range1 n))).
Proof.
  intros Hn. eexists; split; [reflexivity |].
  rewrite length_map, length_range1; lia.
Qed.

Lemma at_most_slice (l : list PyVal) (n : Z) :
  0 <= n -> at_most n (PList (py_slice_to l n)).
Proof.
  intros Hn. eexists; split; [reflexivity |].
  rewrite length_slice_to by exact Hn. rewrite length_firstn. lia.
Qed.

Lemma popular_entry_after (channel_id : PyVal) (max_results : Z)
    (st : State) (o : Outcome PyVal) (st' : State) (e : CacheEntry) :
  0 <= max_results ->
  get_popular_videos int_of_str repr W channel_id max_results st = (o, st') ->
  _cache st' !! cache_key_of repr (OpPopular channel_id max_results) = Some e ->
  _cache st !! cache_key_of repr (OpPopular channel_id max_results) = Some e \/
  at_most max_results (data e).
Proof.
  intros Hmax H He. unfold cache_key_of in *.
  change (format repr (PInt max_results)) with (pretty max_results) in *.
  unfold get_popular_videos in H. cbv zeta in H.
  unravel_any H; open_facts;
    match goal with Hk : _ \/ _ |- _ => destruct Hk end;
    simpl in He; revert He; cache_norm;
    change (format repr (PInt max_results)) with (pretty max_results);
    intros He;
    first
      [ left; exact He
      | rewrite lookup_delete_eq in He; discriminate He
      | rewrite lookup_insert_eq in He; injection He as He; subst e; right; simpl;
        first [apply at_most_fallback | apply at_most_slice]; exact Hmax ].
Qed.

Lemma latest_entry_after (channel_id : PyVal) (max_results : Z)
    (st : State) (o : Outcome PyVal) (st' : State) (e : CacheEntry) :
  honours_limit W ->
  0 <= max_results ->
  get_latest_videos repr W channel_id max_results st = (o, st') ->
  _cache st' !! cache_key_of repr (OpLatest channel_id max_results) = Some e ->
  _cache st !! cache_key_of repr (OpLatest channel_id max_results) = Some e \/
  at_most max_results (data e).
Proof.
  intros Hhonours Hmax H He. unfold cache_key_of in *.
  change (format repr (PInt max_results)) with (pretty max_results) in *.
  unfold get_latest_videos in H. cbv zeta in H.
  unravel_any H; open_facts;
    match goal with Hk : _ \/ _ |- _ => destruct Hk end;
    simpl in He; revert He; cache_norm;
    change (format repr (PInt max_results)) with (pretty max_results);
    intros He;
    try first
      [ left; exact He
      | rewrite lookup_delete_eq in He; discriminate He
      | rewrite lookup_insert_eq in He; injection He as He; subst e; right; simpl;
        first [apply at_most_fallback; exact Hmax | idtac] ].
  all: match goal with
       | Hm : obind _ _ = Return ?videos |- at_most _ (PList ?videos) =>
           apply obind_inv_return in Hm as (pool & Hpool & Hm);
           apply mapM_length in Hm;
           eexists; split; [reflexivity |]; rewrite Hm;
           eapply Hhonours;
           [symmetry; eassumption | reflexivity | exact Hmax
           | eassumption | eassumption | eassumption]
       end.
Qed.

(** Every call keeps the entries of the list categories bounded. *)
Lemma popular_bound_is_kept (op : Operation) (st : State)
    (o : Outcome PyVal) (st' : State) :
  run int_of_str repr lower W op st = (o, st') ->
  bounded_entries "popular:" st -> bounded_entries "popular:" st'.
Proof.
  intros Hrun Hinv s n e Hn He.
  destruct (decide ("popular:" +:+ s +:+ ":" +:+ pretty n = cache_key_of repr op))
    as [Hkey | Hkey].
  - destruct op as [h | c | c | c m | c m]; unfold cache_key_of in Hkey;
      try discriminate Hkey.
    change (format repr (PInt m)) with (pretty m) in Hkey.
    assert (Hm : n = m) by exact (list_key_inj _ _ _ _ _ Hkey). subst m.
    rewrite Hkey in He. unfold run in Hrun.
    destruct (popular_entry_after c n st o st' e Hn Hrun He) as [Hold | Hnew].
    + change (cache_key_of repr (OpPopular c n))
        with ("popular:" +:+ format repr c +:+ ":" +:+ pretty n) in Hold.
      rewrite <- Hkey in Hold. exact (Hinv s n e Hn Hold).
    + exact Hnew.
  - pose proof (run_only_touches op st _ Hkey) as Hsame.
    rewrite Hrun in Hsame. simpl in Hsame. rewrite Hsame in He.
    exact (Hinv s n e Hn He).
Qed.

Lemma latest_bound_is_kept (op : Operation) (st : State)
    (o : Outcome PyVal) (st' : State) :
  honours_limit W ->
  run int_of_str repr lower W op st = (o, st') ->
  bounded_entries "latest:" st -> bounded_entries "latest:" st'.
Proof.
  intros Hhonours Hrun Hinv s n e Hn He.
  destruct (decide ("latest:" +:+ s +:+ ":" +:+ pretty n = cache_key_of repr op))
    as [Hkey | Hkey].
  - destruct op as [h | c | c | c m | c m]; unfold cache_key_of in Hkey;
      try discriminate Hkey.
    change (format repr (PInt m)) with (pretty m) in Hkey.
    assert (Hm : n = m) by exact (list_key_inj _ _ _ _ _ Hkey). subst m.
    rewrite Hkey in He. unfold run in Hrun.
    destruct (latest_entry_after c n st o st' e Hhonours Hn Hrun He) as [Hold | Hnew].
    + change (cache_key_of repr (OpLatest c n))
        with ("latest:" +:+ format repr c +:+ ":" +:+ pretty n) in Hold.
      rewrite <- Hkey in Hold. exact (Hinv s n e Hn Hold).
    + exact Hnew.
  - pose proof (run_only_touches op st _ Hkey) as Hsame.
    rewrite Hrun in Hsame. simpl in Hsame. rewrite Hsame in He.
    exact (Hinv s n e Hn He).
Qed.

Lemma reachable_bounded (st : State) :
  reachable int_of_str repr lower W st ->
  bounded_entries "popular:" st /\
  (honours_limit W -> bounded_entries "latest:" st).
Proof.
  induction 1 as [key env lg | op st o st' _ [IHp IHl] Hrun | env st _ [IHp IHl]].
  - split; [| intros _]; intros s n e _ He; simpl in He;
      rewrite lookup_empty in He; discriminate He.
  - split.
    + exact (popular_bound_is_kept op st o st' Hrun IHp).
    + intros Hh. exact (latest_bound_is_kept op st o st' Hh Hrun (IHl Hh)).
  - split; [exact IHp | exact IHl].
Qed.

Lemma served_popular (channel_id : PyVal) (max_results : Z)
    (st : State) (v : PyVal) (st' : State) :
  cache_hit W (cache_key_of repr (OpPopular channel_id max_results)) st = true ->
  get_popular_videos int_of_str repr W channel_id max_results st = (Return v, st') ->
  v = cached_value W (cache_key_of repr (OpPopular channel_id max_results)) st.
Proof.
  unfold cache_hit, cache_key_of.
  change (format repr (PInt max_results)) with (pretty max_results).
  intros Hhit H. unfold get_popular_videos in H. cbv zeta in H.
  step H. rewrite Hhit in H. step H. reflexivity.
Qed.

Lemma served_latest (channel_id : PyVal) (max_results : Z)
    (st : State) (v : PyVal) (st' : State) :
  cache_hit W (cache_key_of repr (OpLatest channel_id max_results)) st = true ->
  get_latest_videos repr W channel_id max_results st = (Return v, st') ->
  v = cached_value W (cache_key_of repr (OpLatest channel_id max_results)) st.
Proof.
  unfold cache_hit, cache_key_of.
  change (format repr (PInt max_results)) with (pretty max_results).
  intros Hhit H. unfold get_latest_videos in H. cbv zeta in H.
  step H. rewrite Hhit in H. step H. reflexivity.
Qed.

Lemma latest_is_bounded (channel_id : PyVal) (max_results : Z)
    (st : State) (v : PyVal) (st' : State) :
  honours_limit W ->
  0 <= max_results ->
  cache_hit W (cache_key_of repr (OpLatest channel_id max_results)) st = false ->
  get_latest_videos repr W channel_id max_results st = (Return v, st') ->
  at_most max_results v.
Proof.
  intros Hhonours Hmax Hmiss H. unfold cache_hit, cache_key_of in Hmiss.
  change (format repr (PInt max_results)) with (pretty max_results) in *.
  unfold get_latest_videos in H. cbv zeta in H.
  unravel H.
  - apply at_most_fallback. exact Hmax.
  - match goal with
    | Hm : obind _ _ = Return ?videos |- at_most _ (PList ?videos) =>
        apply obind_inv_return in Hm as (pool & Hpool & Hm);
        apply mapM_length in Hm;
        eexists; split; [reflexivity |]; rewrite Hm;
        eapply Hhonours;
        [symmetry; eassumption | reflexivity | exact Hmax
        | eassumption | eassumption | eassumption]
    end.
Qed.

(** C4 (as amended): for a non-negative [max_results], in every state the
    process reaches from an empty cache, [get_popular_videos] returns at most
    [max_results] entries whatever the upstream answers, and
    [get_latest_videos] does so provided the upstream never lists more
    items than the [maxResults] it is sent. [get_latest_videos] does not cut
    the answer itself: a call that is not served from the cache returns
    exactly [max_results] entries in fallback mode and otherwise one entry
    per item of the upstream's answer. *)
Theorem video_lists_and_max_results (channel_id : PyVal) (max_results : Z) (st : State) :
  reachable int_of_str repr lower W st ->
  0 <= max_results ->
  (forall v st',
     get_popular_videos int_of_str repr W channel_id max_results st = (Return v, st') ->
     at_most max_results v) /\
  (honours_limit W ->
   forall v st',
     get_latest_videos repr W channel_id max_results st = (Return v, st') ->
     at_most max_results v) /\
  (forall v st',
     cache_hit W (cache_key_of repr (OpLatest channel_id max_results)) st = false ->
     get_latest_videos repr W channel_id max_results st = (Return v, st') ->
     exists l,
       v = PList l /\
       ((has_credential st = false /\ Z.of_nat (length l) = max_results) \/
        (exists req r body items pool,
           exchanges (log st') = exchanges (log st) ++ [(req, Some r)] /\
           json r = Some body /\
           py_get body "items" (PList []) = Return items /\
           py_iter items = Return pool /\
           length l = length pool))).
Proof.
  intros Hreach Hmax.
  destruct (reachable_bounded st Hreach) as [Hpopular Hlatest].
  split; [| split].
  - intros v st' H.
    destruct (cache_hit W (cache_key_of repr (OpPopular channel_id max_results)) st)
      eqn:Hhit.
    + rewrite (served_popular channel_id max_results st v st' Hhit H).
      destruct (hit_returns_entry _ _ Hhit) as (e & He & ->).
      exact (Hpopular (format repr channel_id) max_results e Hmax He).
    + exact (popular_is_bounded channel_id max_results st v st' Hmax Hhit H).
  - intros Hhonours v st' H.
    destruct (cache_hit W (cache_key_of repr (OpLatest channel_id max_results)) st)
      eqn:Hhit.
    + rewrite (served_latest channel_id max_results st v st' Hhit H).
      destruct (hit_returns_entry _ _ Hhit) as (e & He & ->).
      exact (Hlatest Hhonours (format repr channel_id) max_results e Hmax He).
    + exact (latest_is_bounded channel_id max_results st v st' Hhonours Hmax Hhit H).
  - intros v st' Hmiss H.
    exact (latest_is_as_long_as_the_answer channel_id max_results st v st' Hmax Hmiss H).
Qed.

(** ** Validation at the boundary *)

Lemma resolve_never_rejects (handle channel_id : option string) :
  never_rejects (resolve_channel_id lower W handle channel_id).
Proof. unfold resolve_channel_id. cbv zeta. never_rejects_tac. Qed.

(** [youtube_latest] and [youtube_popular] turn no request down, whatever
    its [maxResults]. *)
Lemma latest_and_popular_never_reject
    (handle channelId : option string) (maxResults : option Z) :
  never_rejects (youtube_latest repr lower W handle channelId maxResults) /\
  never_rejects (youtube_popular int_of_str repr lower W handle channelId maxResults).
Proof.
  split.
  - unfold youtube_latest, query_int.
    apply never_rejects_bind; [apply never_rejects_ret | intros m].
    apply never_rejects_bind; [apply resolve_never_rejects | intros cid].
    unfold get_latest_videos. cbv zeta. never_rejects_tac.
  - unfold youtube_popular, query_int.
    apply never_rejects_bind; [apply never_rejects_ret | intros m].
    apply never_rejects_bind; [apply resolve_never_rejects | intros cid].
    unfold get_popular_videos. cbv zeta. never_rejects_tac.
Qed.

(** An absent [maxResults] is 6 on the three endpoints that take one. *)
Lemma max_results_defaults_to_6 (handle channelId : option string) (st : State) :
  youtube_overview int_of_str repr lower W handle channelId None st =
    youtube_overview int_of_str repr lower W handle channelId (Some 6) st /\
  youtube_latest repr lower W handle channelId None st =
    youtube_latest repr lower W handle channelId (Some 6) st /\
  youtube_popular int_of_str repr lower W handle channelId None st =
    youtube_popular int_of_str repr lower W handle channelId (Some 6) st.
Proof. repeat split; reflexivity. Qed.

(** The bounds declared on [youtube_overview]: a value outside [1, 12] is
    turned down before anything else happens, and an absent one is 6. *)
Lemma overview_rejects_out_of_range
    (handle channelId : option string) (maxResults : Z) (st : State) :
  maxResults < 1 \/ 12 < maxResults ->
  youtube_overview int_of_str repr lower W handle channelId (Some maxResults) st =
    (Raise RequestValidationError, st).
Proof.
  intros Hout. unfold youtube_overview, bind, query_bounded. simpl.
  replace ((1 <=? maxResults) && (maxResults <=? 12)) with false; [reflexivity |].
  symmetry. apply andb_false_iff.
  destruct Hout; [left; apply Z.leb_gt | right; apply Z.leb_gt]; assumption.
Qed.

(** C10: an entry whose value is falsy ([None], an empty list, ...) does
    not pass the guard [if cached], however fresh it is. The call goes on
    as after a miss: with a credential at hand it sends a request to the
    upstream, without one it synthesizes the fallback and stores it anew;
    and so on every call that finds such an entry. *)
Theorem falsy_cached_value_is_fetched_again
    (op : Operation) (st : State) (e : CacheEntry) :
  valid op ->
  _cache st !! cache_key_of repr op = Some e ->
  truthy (data e) = false ->
  (clock W (log st ++ [EvCacheGet (cache_key_of repr op)]) - ts e <= 1200)%Q ->
  let key := cache_key_of repr op in
  let looked := log st ++ [EvCacheGet key; EvTime (clock W (log st ++ [EvCacheGet key]))] in
  cache_hit W key st = false /\
  (has_credential st = true ->
     exists req more,
       log (snd (run int_of_str repr lower W op st)) =
         (looked ++ gate_events st) ++
         EvRequest req (upstream W (looked ++ gate_events st) req) :: more) /\
  (has_credential st = false ->
     exists v st' t,
       run int_of_str repr lower W op st = (Return v, st') /\
       log st' = (looked ++ gate_events st) ++ [EvTime t; EvCacheSet key] /\
       _cache st' !! key = Some {| ts := t; data := v |}).
Proof.
  intros Hv Hk Hf Hage key looked.
  pose proof (cache_get_fresh _ _ _ _ Hk Hage) as Hget. fold key in Hget.
  set (st1 := record (EvTime _) _) in Hget.
  assert (Hlog : log st1 = looked) by (simpl; rewrite <- app_assoc; reflexivity).
  destruct (ensure_api_key_run st1) as (st2 & Hgate & Hlog2 & _ & _ & Hkey2).
  change (has_credential st1) with (has_credential st) in *.
  change (gate_events st1) with (gate_events st) in *.
  rewrite Hlog in Hlog2. rewrite <- Hlog2.
  split; [| split].
  - unfold cache_hit, cached_value. rewrite Hget. exact Hf.
  - intros Hcred. rewrite Hcred in *.
    subst key; destruct op as [h | c | c | c n | c n]; unfold run; unfold cache_key_of in *;
      try change (format repr (PInt n)) with (pretty n) in *;
      [ unfold resolve_channel_id; cbv zeta;
        change (truthy_opt None) with false; cbv iota;
        rewrite (truthy_opt_nonempty h Hv); cbv [negb];
        change (default EmptyString (Some h)) with h
      | unfold get_channel_statistics | unfold get_uploads_playlist_id
      | unfold get_latest_videos | unfold get_popular_videos ];
      cbv zeta;
      rewrite (bind_return _ _ _ _ _ Hget), Hf;
      rewrite (bind_return _ _ _ _ _ Hgate); cbv [negb];
      (erewrite bind_return by reflexivity);
      eexists; apply request_comes_first; intros r; grows_tac.
  - intros Hcred. rewrite Hcred in *.
    subst key; destruct op as [h | c | c | c n | c n]; unfold run; unfold cache_key_of in *;
      try change (format repr (PInt n)) with (pretty n) in *;
      [ unfold resolve_channel_id; cbv zeta;
        change (truthy_opt None) with false; cbv iota;
        rewrite (truthy_opt_nonempty h Hv); cbv [negb];
        change (default EmptyString (Some h)) with h
      | unfold get_channel_statistics | unfold get_uploads_playlist_id
      | unfold get_latest_videos | unfold get_popular_videos ];
      cbv zeta;
      rewrite (bind_return _ _ _ _ _ Hget), Hf;
      rewrite (bind_return _ _ _ _ _ Hgate); cbv [negb];
      match goal with
      | |- context [_cache_set W ?k ?x] =>
          destruct (cache_set_run W k x st2) as (st3 & Hset & Hlog3 & Hstored)
      | _ => idtac
      end.
    + unfold py_get, fallback_map.
      destruct (dict_lookup h _) as [cid |];
        (erewrite bind_return by reflexivity);
        match goal with
        | |- context [_cache_set W ?k ?x] =>
            destruct (cache_set_run W k x st2) as (st3 & Hset & Hlog3 & Hstored)
        end;
        rewrite (bind_return _ _ _ _ _ Hset); eauto 6.
    + rewrite (bind_return _ _ _ _ _ Hset); eauto 6.
    + rewrite (bind_return _ _ _ _ _ Hset); eauto 6.
    + rewrite (bind_return _ _ _ _ _ Hset); eauto 6.
    + rewrite (bind_return _ _ _ _ _ Hset); eauto 6.
Qed.

End Properties.

(** C6, on a concrete store: an entry stored at time 0 and looked up at
    time 1201. *)
Lemma cache_get_honours_ttl_witness :
  _cache (one_entry "k" (PInt 7) []) !! "k" = Some {| ts := 0; data := PInt 7 |} /\
  exists st', _cache_get (frozen 1201) "k" (one_entry "k" (PInt 7) []) = (Return PNone, st') /\
              _cache st' = delete "k" (_cache (one_entry "k" (PInt 7) [])).
Proof.
  split; [reflexivity |].
  apply (cache_get_honours_ttl (frozen 1201) "k" {| ts := 0; data := PInt 7 |}
           (one_entry "k" (PInt 7) []) eq_refl).
  reflexivity.
Defined.

(** C2, as the specification states it, fails: a credential read at startup and then
    removed from the environment still opens the gate. *)
Lemma gate_ignores_removed_credential :
  ~ gate_reflects_environment (fresh_process (Some "secret") ∅).
Proof.
  unfold gate_reflects_environment. vm_compute. discriminate.
Qed.

(** C9, for a request that names both a handle and a channel id. *)
Lemma explicit_channel_id_witness :
  "UC123" <> EmptyString /\
  resolve_channel_id ascii_lower offline (Some "@h") (Some "UC123") (fresh_process None ∅) =
    (Return (PStr "UC123"), fresh_process None ∅).
Proof.
  split; [discriminate |].
  apply (explicit_channel_id_is_returned_untouched ascii_lower offline (Some "@h") "UC123").
  discriminate.
Defined.

(** C3, as the specification states it, fails: with a credential and an upstream that
    lists no item, [get_uploads_playlist_id] returns [None] and stores
    nothing. *)
Lemma uploads_early_return_stores_nothing :
  ~ stores_its_result no_int no_repr ascii_lower (answering (ok_json (PDict [])))
      (OpUploads (PStr "UCx")) (fresh_process (Some "secret") ∅).
Proof.
  unfold stores_its_result. intros Hclaim.
  destruct (run no_int no_repr ascii_lower (answering (ok_json (PDict [])))
              (OpUploads (PStr "UCx")) (fresh_process (Some "secret") ∅))
    as [o st'] eqn:Hrun.
  vm_compute in Hrun. injection Hrun as <- <-.
  destruct (Hclaim _ _ eq_refl eq_refl) as [t Ht].
  vm_compute in Ht. discriminate Ht.
Qed.

(** C3, where the result is an empty list that is stored: the fallback
    list of zero popular videos. *)
Lemma result_is_stored_witness :
  cache_hit offline (cache_key_of no_repr (OpPopular (PStr "UCx") 0))
    (fresh_process None ∅) = false /\
  has_credential (fresh_process None ∅) = false /\
  exists st' t,
    run no_int no_repr ascii_lower offline (OpPopular (PStr "UCx") 0)
      (fresh_process None ∅) = (Return (PList []), st') /\
    _cache st' !! cache_key_of no_repr (OpPopular (PStr "UCx") 0) =
      Some {| ts := t; data := PList [] |}.
Proof.
  split; [reflexivity |]. split; [reflexivity |].
  destruct (run no_int no_repr ascii_lower offline (OpPopular (PStr "UCx") 0)
              (fresh_process None ∅)) as [o st'] eqn:Hrun.
  assert (Ho : o = Return (PList [])).
  { vm_compute in Hrun. injection Hrun as <- _. reflexivity. }
  subst o.
  destruct (proj2 (result_is_stored_unless_early_return no_int no_repr ascii_lower
                     offline (OpPopular (PStr "UCx") 0) (fresh_process None ∅)
                     (PList []) st' eq_refl Hrun) eq_refl) as [t Ht].
  exists st', t. split; [reflexivity | exact Ht].
Defined.

(** C1, where the code departs from the specification: [youtube_latest] and
    [youtube_popular] declare no bounds, so a request with [maxResults=13]
    is not turned down; it goes through resolution, cache and fallback and
    is answered with thirteen videos. *)
Theorem latest_and_popular_accept_out_of_range_max_results :
  (exists videos st',
     youtube_latest no_repr ascii_lower offline None (Some "UCx") (Some 13)
       (fresh_process None ∅) =
       (Return (PDict [("channelId", PStr "UCx"); ("videos", PList videos)]), st') /\
     length videos = 13%nat /\
     _cache st' !! "latest:UCx:13" <> None) /\
  (exists videos st',
     youtube_popular no_int no_repr ascii_lower offline None (Some "UCx") (Some 13)
       (fresh_process None ∅) =
       (Return (PDict [("channelId", PStr "UCx"); ("videos", PList videos)]), st') /\
     length videos = 13%nat /\
     _cache st' !! "popular:UCx:13" <> None).
Proof.
  split.
  - destruct (youtube_latest no_repr ascii_lower offline None (Some "UCx") (Some 13)
                (fresh_process None ∅)) as [o st'] eqn:Hrun.
    vm_compute in Hrun. injection Hrun as <- <-.
    eexists; eexists; split; [reflexivity |]. split; [reflexivity |].
    vm_compute. discriminate.
  - destruct (youtube_popular no_int no_repr ascii_lower offline None (Some "UCx") (Some 13)
                (fresh_process None ∅)) as [o st'] eqn:Hrun.
    vm_compute in Hrun. injection Hrun as <- <-.
    eexists; eexists; split; [reflexivity |]. split; [reflexivity |].
    vm_compute. discriminate.
Qed.

(** C4, as the specification states it, fails: asked for one video, the upstream
    lists two, and [get_latest_videos] returns both. *)
Lemma latest_returns_what_the_upstream_lists :
  ~ never_more_than_max_results int_of_digits no_repr (youtube two_found bad_gateway)
      (PStr "UCx") 1 (fresh_process (Some "secret") ∅).
Proof.
  intros [Hlatest _].
  destruct (get_latest_videos no_repr (youtube two_found bad_gateway) (PStr "UCx") 1
              (fresh_process (Some "secret") ∅)) as [o st'] eqn:Hrun.
  vm_compute in Hrun. injection Hrun as <- <-.
  destruct (Hlatest _ _ eq_refl) as (l & Hl & Hlen).
  injection Hl as <-. simpl in Hlen. lia.
Qed.

Lemma well_behaved_honours_limit (catalogue : list PyVal) :
  honours_limit (well_behaved catalogue).
Proof.
  intros lg req r n body items pool Hup Hparam Hn Hjson Hitems Hpool.
  simpl in Hup. rewrite Hparam in Hup. injection Hup as <-.
  simpl in Hjson. injection Hjson as <-.
  simpl in Hitems. injection Hitems as <-.
  simpl in Hpool. injection Hpool as <-.
  rewrite length_firstn. lia.
Qed.

(** C4, for a second call that finds the list of the first in the cache:
    the upstream has three videos and is asked for two. *)
Lemma video_lists_and_max_results_witness :
  reachable no_int no_repr ascii_lower three_videos after_first_call /\
  0 <= 2 /\
  honours_limit three_videos /\
  cache_hit three_videos (cache_key_of no_repr (OpLatest (PStr "UCx") 2))
    after_first_call = true /\
  exists v st',
    get_latest_videos no_repr three_videos (PStr "UCx") 2 after_first_call =
      (Return v, st') /\
    at_most 2 v.
Proof.
  assert (Hreach : reachable no_int no_repr ascii_lower three_videos after_first_call).
  { apply (reach_call no_int no_repr ascii_lower three_videos (OpLatest (PStr "UCx") 2)
             (fresh_process (Some "secret") ∅)
             (fst (get_latest_videos no_repr three_videos (PStr "UCx") 2
                     (fresh_process (Some "secret") ∅))) after_first_call).
    - apply reach_start.
    - apply surjective_pairing. }
  split; [exact Hreach |]. split; [lia |].
  split; [apply well_behaved_honours_limit |].
  split; [vm_compute; reflexivity |].
  destruct (get_latest_videos no_repr three_videos (PStr "UCx") 2 after_first_call)
    as [o st'] eqn:Hrun.
  assert (Ho : exists v, o = Return v).
  { vm_compute in Hrun. injection Hrun as <- _. eexists; reflexivity. }
  destruct Ho as [v ->]. exists v, st'. split; [reflexivity |].
  refine (proj1 (proj2 (video_lists_and_max_results no_int no_repr ascii_lower three_videos
                          (PStr "UCx") 2 after_first_call Hreach _))
            (well_behaved_honours_limit _) v st' Hrun).
  lia.
Defined.

(** C5, as the specification states it, fails: a demo handle gets its fixed
    identifier, and an [@] at the end of a handle is stripped too. *)
Lemma fallback_id_departs_from_the_rule :
  fst (resolve_channel_id ascii_lower offline (Some "@UNBEQUEM-o2w") None
         (fresh_process None ∅)) <>
    Return (PStr (synthetic_id_by_the_rule ascii_lower "@UNBEQUEM-o2w")) /\
  fst (resolve_channel_id ascii_lower offline (Some "@a@") None (fresh_process None ∅)) <>
    Return (PStr (synthetic_id_by_the_rule ascii_lower "@a@")).
Proof. split; vm_compute; discriminate. Qed.

(** C5, for the handle of the specification's scenario. *)
Lemma fallback_resolution_witness :
  reachable no_int no_repr ascii_lower offline (fresh_process None ∅) /\
  "@Example" <> EmptyString /\
  has_credential (fresh_process None ∅) = false /\
  synthetic_id ascii_lower "@Example" = "UC_demo_example" /\
  exists st' st'',
    resolve_channel_id ascii_lower offline (Some "@Example") None (fresh_process None ∅) =
      (Return (PStr (synthetic_id ascii_lower "@Example")), st') /\
    resolve_channel_id ascii_lower offline (Some "@Example") None st' =
      (Return (PStr (synthetic_id ascii_lower "@Example")), st'') /\
    exchanges (log st') = exchanges (log (fresh_process None ∅)) /\
    exchanges (log st'') = exchanges (log (fresh_process None ∅)) /\
    (String.eqb "@Example" "@UNBEQUEM-o2w" = false ->
     String.eqb "@Example" "@BEQUEM-g" = false ->
     ends_with "@" "@Example" = false ->
     synthetic_id ascii_lower "@Example" = synthetic_id_by_the_rule ascii_lower "@Example").
Proof.
  split; [apply reach_start |]. split; [discriminate |]. split; [reflexivity |].
  split; [reflexivity |].
  apply (fallback_resolution_is_deterministic no_int no_repr ascii_lower offline "@Example"
           (fresh_process None ∅)).
  - apply reach_start.
  - discriminate.
  - reflexivity.
Defined.

(** C7, for a pool with a tie: view counts 5, 9, 5 and two results asked. *)
Lemma popular_videos_are_ranked_witness :
  0 <= 2 /\
  exists v st' req1 req2,
    get_popular_videos int_of_digits no_repr (youtube three_found three_with_statistics)
      (PStr "UCx") 2 (fresh_process (Some "secret") ∅) = (Return v, st') /\
    exchanges (log st') =
      exchanges (log (fresh_process (Some "secret") ∅)) ++
      [(req1, Some three_found); (req2, Some three_with_statistics)] /\
    exists sorted,
      Permutation
        (match mapM (enrich int_of_digits)
                 [video_item "a" "First" "5"; video_item "b" "Second" "9";
                  video_item "c" "Third" "5"] with
         | Return enriched => enriched
         | Raise _ => []
         end) sorted /\
      StronglySorted (descending view_count) sorted /\
      v = PList (firstn (Z.to_nat 2) sorted).
Proof.
  split; [lia |].
  destruct (get_popular_videos int_of_digits no_repr
              (youtube three_found three_with_statistics)
              (PStr "UCx") 2 (fresh_process (Some "secret") ∅)) as [o st'] eqn:Hrun.
  assert (Hshape : exists v req1 req2,
             o = Return v /\
             exchanges (log st') =
               exchanges (log (fresh_process (Some "secret") ∅)) ++
               [(req1, Some three_found); (req2, Some three_with_statistics)]).
  { vm_compute in Hrun. injection Hrun as <- <-.
    eexists; eexists; eexists; split; reflexivity. }
  destruct Hshape as (v & req1 & req2 & -> & Hex).
  exists v, st', req1, req2. split; [reflexivity |]. split; [exact Hex |].
  destruct (popular_videos_are_ranked int_of_digits no_repr
              (youtube three_found three_with_statistics) (PStr "UCx") 2
              (fresh_process (Some "secret") ∅) v st' req1 req2
              three_found three_with_statistics ltac:(lia) Hrun Hex)
    as (body & items & pool & enriched & sorted
        & Hbody & Hitems & Hpool & Henriched & _ & Hperm & Hsorted & _ & Hv).
  exists sorted.
  injection Hbody as <-. injection Hitems as <-. injection Hpool as <-.
  rewrite Henriched. auto.
Defined.

(** C8, for a resolution whose upstream answers 503. *)
Lemma resolution_error_kinds_witness :
  is_success (status_code bad_gateway) = false /\
  exists o st' req,
    run no_int no_repr ascii_lower (answering bad_gateway) (OpResolve "@h")
      (fresh_process (Some "secret") ∅) = (o, st') /\
    exchanges (log st') =
      exchanges (log (fresh_process (Some "secret") ∅)) ++ [] ++ [(req, Some bad_gateway)] /\
    exists excerpt,
      o = Raise (HTTPException 502 ("YouTube API error: " +:+ excerpt)) /\
      (String.length excerpt <= 200)%nat /\
      String.prefix excerpt (text bad_gateway) = true.
Proof.
  split; [reflexivity |].
  destruct (run no_int no_repr ascii_lower (answering bad_gateway) (OpResolve "@h")
              (fresh_process (Some "secret") ∅)) as [o st'] eqn:Hrun.
  assert (Hex : exists req,
             exchanges (log st') =
               exchanges (log (fresh_process (Some "secret") ∅)) ++ [] ++
               [(req, Some bad_gateway)]).
  { vm_compute in Hrun. injection Hrun as _ <-. eexists; reflexivity. }
  destruct Hex as [req Hex].
  exists o, st', req. split; [reflexivity |]. split; [exact Hex |].
  exact (proj2 (proj2 (proj2 (resolution_error_kinds no_int no_repr ascii_lower
                                (answering bad_gateway))))
           (OpResolve "@h") (fresh_process (Some "secret") ∅) o st' [] req bad_gateway
           Hrun Hex eq_refl).
Defined.

(** C10, for the [None] that [get_uploads_playlist_id] stores for a channel
    without an uploads playlist: the next call, one second later, does not
    serve it. *)
Lemma falsy_cached_value_witness :
  valid (OpUploads (PStr "UCx")) /\
  _cache (one_entry "uploads:UCx" PNone []) !! cache_key_of no_repr (OpUploads (PStr "UCx"))
    = Some {| ts := 0; data := PNone |} /\
  truthy (data {| ts := 0; data := PNone |}) = false /\
  (clock offline (log (one_entry "uploads:UCx" PNone []) ++
                  [EvCacheGet (cache_key_of no_repr (OpUploads (PStr "UCx")))]) - 0
     <= 1200)%Q /\
  cache_hit offline (cache_key_of no_repr (OpUploads (PStr "UCx")))
    (one_entry "uploads:UCx" PNone []) = false.
Proof.
  split; [exact I |]. split; [reflexivity |]. split; [reflexivity |].
  split; [discriminate |].
  refine (proj1 (falsy_cached_value_is_fetched_again no_int no_repr ascii_lower offline
                   (OpUploads (PStr "UCx")) (one_entry "uploads:UCx" PNone [])
                   {| ts := 0; data := PNone |} I eq_refl eq_refl _)).
  discriminate.
Defined.

(** * Further properties of the code *)

(** ** The cache on its own *)

Section CacheAlone.

Variable W : World.

(** X1: [_cache_set] then [_cache_get]. Whatever was stored under the key
    before, the value just stored comes back as long as the lookup happens
    within 1200 seconds of the store, and [None] comes back after that; the
    store leaves every other key alone. *)
Theorem cache_set_get_round_trip (key : string) (v : PyVal) (st : State) :
  let st1 := snd (_cache_set W key v st) in
  let age := (clock W (log st1 ++ [EvCacheGet key]) - clock W (log st))%Q in
  (forall k, k <> key -> _cache st1 !! k = _cache st !! k) /\
  ((age <= 1200)%Q ->
     exists st2, _cache_get W key st1 = (Return v, st2) /\ _cache st2 = _cache st1) /\
  ((1200 < age)%Q ->
     exists st2, _cache_get W key st1 = (Return PNone, st2) /\
                 _cache st2 !! key = None).
Proof.
  intros st1 age. subst age st1.
  destruct (cache_set_run W key v st) as (st1 & Hrun & _ & Hstored).
  rewrite Hrun. cbn [snd].
  split; [| split].
  - intros k Hk. pose proof (only_touches_cache_set W key v st k Hk) as Hsame.
    rewrite Hrun in Hsame. exact Hsame.
  - intros Hage.
    rewrite (cache_get_fresh W key _ st1 Hstored Hage).
    eexists; split; reflexivity.
  - intros Hage.
    unfold _cache_get, bind, cache_lookup, time_time. rewrite Hstored. simpl.
    destruct (Qlt_le_dec _ _) as [_ | Hyoung].
    + simpl. eexists; split; [reflexivity |]. simpl. apply lookup_delete_eq.
    + exfalso. unfold CACHE_TTL_SECONDS in Hyoung. simpl in Hage. lra.
Qed.

(** X2: a lookup evicts lazily and only its own key: the store is left as
    it was unless the entry of [key] is older than the TTL, in which case
    that entry alone is removed; expired entries under other keys stay. *)
Theorem lookup_evicts_only_its_own_key (key : string) (st : State) :
  let st' := snd (_cache_get W key st) in
  (forall k, k <> key -> _cache st' !! k = _cache st !! k) /\
  (_cache st' = _cache st \/
   exists e, _cache st !! key = Some e /\
             (1200 < clock W (log st ++ [EvCacheGet key]) - ts e)%Q /\
             _cache st' = delete key (_cache st)).
Proof.
  intros st'. split.
  - intros k Hk. exact (only_touches_cache_get W key st k Hk).
  - unfold st', _cache_get, bind, cache_lookup, time_time, cache_pop, ret.
    destruct (_cache st !! key) as [e |] eqn:He; simpl; [| left; reflexivity].
    destruct (Qlt_le_dec _ _) as [Hold | _]; simpl; [| left; reflexivity].
    right. exists e. repeat split. exact Hold.
Qed.

End CacheAlone.

(** ** Calls that follow one another *)

Section MoreEffects.

Variable W : World.

Lemma cache_get_logs_first (key : string) (st : State) :
  exists more, log (snd (_cache_get W key st)) = log st ++ EvCacheGet key :: more.
Proof.
  unfold _cache_get, bind, cache_lookup, time_time, cache_pop, ret.
  destruct (_cache st !! key) as [e |]; simpl.
  - destruct (Qlt_le_dec _ _); simpl; rewrite <- ?app_assoc; simpl; eauto.
  - eauto.
Qed.

Lemma lookup_comes_first {A : Type} (key : string) (k : PyVal -> M A) (st : State) :
  (forall c, grows (k c)) ->
  exists more, log (snd (bind (_cache_get W key) k st)) = log st ++ EvCacheGet key :: more.
Proof.
  intros Hk. unfold bind.
  destruct (cache_get_logs_first key st) as [more0 H0].
  destruct (_cache_get W key st) as [[c | e] st1]; simpl in *.
  - destruct (Hk c st1) as [more1 H1]. exists (more0 ++ more1).
    rewrite H1, H0, <- app_assoc. reflexivity.
  - eauto.
Qed.

Lemma calls_ret {A : Type} (a : A) : calls_at_most 0 (ret a).
Proof. intros st. exists []. simpl. rewrite app_nil_r. auto. Qed.

Lemma calls_bind {A B : Type} (n1 n2 : nat) (m : M A) (k : A -> M B) :
  calls_at_most n1 m -> (forall a, calls_at_most n2 (k a)) ->
  calls_at_most (n1 + n2) (bind m k).
Proof.
  intros Hm Hk st. unfold bind.
  destruct (Hm st) as (more1 & H1 & Hn1).
  destruct (m st) as [[a | e] st1]; simpl in *.
  - destruct (Hk a st1) as (more2 & H2 & Hn2). exists (more1 ++ more2).
    rewrite H2, H1, <- app_assoc, length_app. split; [reflexivity | lia].
  - exists more1. split; [exact H1 | lia].
Qed.

Lemma calls_weaken {A : Type} (n n' : nat) (m : M A) :
  (n <= n')%nat -> calls_at_most n m -> calls_at_most n' m.
Proof.
  intros Hn Hm st. destruct (Hm st) as (more & H & Hl).
  exists more. split; [exact H | lia].
Qed.

End MoreEffects.

(** The exchanges a branch has added, counted. *)
Ltac count_exchanges :=
  open_facts; simpl snd; exchanges_norm;
  first
    [ exists []; split; [symmetry; apply app_nil_r | simpl; lia]
    | eexists [_]; split; [reflexivity | simpl; lia]
    | eexists [_; _]; split; [rewrite <- app_assoc; reflexivity | simpl; lia] ].

Section MoreOperations.

Variable int_of_str : string -> option Z.
Variable repr : PyVal -> string.
Variable lower : string -> string.
Variable W : World.

Lemma resolve_calls (handle channel_id : option string) :
  calls_at_most 1 (resolve_channel_id lower W handle channel_id).
Proof.
  intros st. destruct (resolve_channel_id lower W handle channel_id st) as [o st'] eqn:H.
  unfold resolve_channel_id in H. cbv zeta in H.
  unravel_any H; count_exchanges.
Qed.

Lemma run_calls (op : Operation) :
  calls_at_most (call_budget op) (run int_of_str repr lower W op).
Proof.
  intros st. destruct (run int_of_str repr lower W op st) as [o st'] eqn:H.
  destruct op as [h | c | c | c n | c n]; unfold run in H; unfold call_budget;
    [ unfold resolve_channel_id in H | unfold get_channel_statistics in H
    | unfold get_uploads_playlist_id in H | unfold get_latest_videos in H
    | unfold get_popular_videos in H ];
    cbv zeta in H; unravel_any H; count_exchanges.
Qed.

End MoreOperations.

Section Serving.

Variable int_of_str : string -> option Z.
Variable repr : PyVal -> string.
Variable lower : string -> string.
Variable W : World.

(** A call that finds a truthy value under its key hands it back at once:
    the store, the credential and the upstream are left alone. *)
Lemma served_from_cache (op : Operation) (st : State) :
  valid op ->
  cache_hit W (cache_key_of repr op) st = true ->
  exists st',
    run int_of_str repr lower W op st = (Return (cached_value W (cache_key_of repr op) st), st') /\
    same_surroundings st st' /\
    _cache st' = _cache st.
Proof.
  intros Hv Hhit.
  destruct (cache_get_cases W (cache_key_of repr op) st)
    as (st1 & Hget & Hsame & [Hnone | (e & _ & _ & Hcache)]).
  { unfold cache_hit in Hhit. rewrite Hnone in Hhit. discriminate Hhit. }
  exists st1. split; [| split; assumption].
  unfold cache_hit in Hhit.
  destruct op as [h | c | c | c n | c n]; unfold run; unfold cache_key_of in *;
    try change (format repr (PInt n)) with (pretty n) in *;
    [ unfold resolve_channel_id; cbv zeta;
      change (truthy_opt None) with false; cbv iota;
      rewrite (truthy_opt_nonempty h Hv); cbv [negb];
      change (default EmptyString (Some h)) with h
    | unfold get_channel_statistics | unfold get_uploads_playlist_id
    | unfold get_latest_videos | unfold get_popular_videos ];
    cbv zeta; rewrite (bind_return _ _ _ _ _ Hget), Hhit; reflexivity.
Qed.

(** A call that returns a truthy value leaves it under its key. *)
Lemma truthy_result_is_cached (op : Operation) (st : State) (v : PyVal) (st' : State) :
  valid op ->
  run int_of_str repr lower W op st = (Return v, st') ->
  truthy v = true ->
  exists e, _cache st' !! cache_key_of repr op = Some e /\ data e = v.
Proof.
  intros Hv H Ht.
  destruct (cache_hit W (cache_key_of repr op) st) eqn:Hhit.
  - destruct (served_from_cache op st Hv Hhit) as (st1 & Hrun & _ & Hcache).
    rewrite Hrun in H. injection H as <- <-.
    destruct (hit_returns_entry W _ _ Hhit) as (e & He & Hd).
    exists e. rewrite Hcache. auto.
  - unfold cache_hit in Hhit.
    destruct op as [h | c | c | c n | c n]; unfold run in H; unfold cache_key_of in *;
      try change (format repr (PInt n)) with (pretty n) in *;
      [ unfold resolve_channel_id in H; cbv zeta in H;
        change (truthy_opt None) with false in H; cbv iota in H;
        change (default EmptyString (Some h)) with h in H
      | unfold get_channel_statistics in H | unfold get_uploads_playlist_id in H
      | unfold get_latest_videos in H | unfold get_popular_videos in H ];
      cbv zeta in H; unravel H; try discriminate Ht;
      match goal with
      | Hset : _cache ?s = <[_ := _]> _ /\ _ |- exists e, _cache ?s !! _ = _ /\ _ =>
          destruct Hset as [Hset _]; eexists; rewrite Hset;
          split; [apply lookup_insert_eq | reflexivity]
      end.
Qed.

End Serving.

Section Further.

Variable int_of_str : string -> option Z.
Variable repr : PyVal -> string.
Variable lower : string -> string.
Variable W : World.

Lemma returns_valid (op : Operation) (st : State) (v : PyVal) (st' : State) :
  run int_of_str repr lower W op st = (Return v, st') -> valid op.
Proof.
  destruct op as [h | c | c | c n | c n]; simpl; auto.
  destruct h; [| discriminate]. intros H _. discriminate H.
Qed.

(** X3: a call that has returned a truthy value is answered from the cache
    when it is made again before its entry is older than the TTL: the same
    value comes back, no upstream request is made and the store is left as
    it is. *)
Theorem repeated_call_is_served_from_cache
    (op : Operation) (st : State) (v : PyVal) (st' : State) :
  run int_of_str repr lower W op st = (Return v, st') ->
  truthy v = true ->
  still_fresh W (cache_key_of repr op) st' ->
  exists st'',
    run int_of_str repr lower W op st' = (Return v, st'') /\
    exchanges (log st'') = exchanges (log st') /\
    _cache st'' = _cache st'.
Proof.
  intros H Ht Hfresh.
  pose proof (returns_valid op st v st' H) as Hv.
  destruct (truthy_result_is_cached int_of_str repr lower W op st v st' Hv H Ht) as (e & He & Hd).
  pose proof (cache_get_fresh W _ _ _ He (Hfresh e He)) as Hget.
  assert (Hval : cached_value W (cache_key_of repr op) st' = v).
  { unfold cached_value. rewrite Hget. exact Hd. }
  assert (Hhit : cache_hit W (cache_key_of repr op) st' = true).
  { unfold cache_hit. rewrite Hval. exact Ht. }
  destruct (served_from_cache int_of_str repr lower W op st' Hv Hhit)
    as (st'' & Hrun & (_ & _ & Hex) & Hcache).
  exists st''. rewrite Hval in Hrun. auto.
Qed.

(** X4: one call of an operation makes at most one upstream request, and
    [get_popular_videos] at most two, whatever the state and whatever the
    upstream answers. *)
Theorem operations_stay_within_their_call_budget (op : Operation) (st : State) :
  exists more,
    exchanges (log (snd (run int_of_str repr lower W op st))) = exchanges (log st) ++ more /\
    (length more <= match op with OpPopular _ _ => 2 | _ => 1 end)%nat.
Proof.
  destruct (run int_of_str repr lower W op st) as [o st'] eqn:H.
  destruct op as [h | c | c | c n | c n]; unfold run in H;
    [ unfold resolve_channel_id in H | unfold get_channel_statistics in H
    | unfold get_uploads_playlist_id in H | unfold get_latest_videos in H
    | unfold get_popular_videos in H ];
    cbv zeta in H; unravel_any H; count_exchanges.
Qed.

Lemma calls_raise {A : Type} (e : PyExc) : calls_at_most 0 (@raise A e).
Proof. intros st. exists []. simpl. rewrite app_nil_r. auto. Qed.

Lemma calls_lift {A : Type} (x : Outcome A) : calls_at_most 0 (lift x).
Proof. intros st. exists []. simpl. rewrite app_nil_r. auto. Qed.

(** X5: serving one request, the overview endpoint makes at most five
    upstream requests, the subscribers and the latest endpoint at most two
    and the popular endpoint at most three. *)
Theorem endpoints_stay_within_their_call_budget
    (handle channelId : option string) (maxResults : option Z) :
  calls_at_most 5 (youtube_overview int_of_str repr lower W handle channelId maxResults) /\
  calls_at_most 2 (youtube_subscribers int_of_str repr lower W handle channelId) /\
  calls_at_most 2 (youtube_latest repr lower W handle channelId maxResults) /\
  calls_at_most 3 (youtube_popular int_of_str repr lower W handle channelId maxResults).
Proof.
  pose proof (resolve_calls lower W handle channelId) as Hresolve.
  pose proof (fun c => run_calls int_of_str repr lower W (OpStatistics c)) as Hstats.
  pose proof (fun c n => run_calls int_of_str repr lower W (OpLatest c n)) as Hlatest.
  pose proof (fun c n => run_calls int_of_str repr lower W (OpPopular c n)) as Hpopular.
  simpl in Hstats, Hlatest, Hpopular.
  repeat split.
  - unfold youtube_overview, query_bounded.
    apply (calls_bind 0 5); [destruct (_ && _); [apply calls_ret | apply calls_raise] |].
    intros n. apply (calls_bind 1 4); [exact Hresolve | intros cid].
    apply (calls_bind 1 3); [apply Hstats | intros stats].
    apply (calls_bind 1 2); [apply Hlatest | intros latest].
    apply (calls_bind 2 0); [apply Hpopular | intros popular]. apply calls_ret.
  - unfold youtube_subscribers.
    apply (calls_bind 1 1); [exact Hresolve | intros cid].
    apply (calls_bind 1 0); [apply Hstats | intros stats].
    apply (calls_bind 0 0); [apply calls_lift | intros count]. apply calls_ret.
  - unfold youtube_latest, query_int.
    apply (calls_bind 0 2); [apply calls_ret | intros n].
    apply (calls_bind 1 1); [exact Hresolve | intros cid].
    apply (calls_bind 1 0); [apply Hlatest | intros vids]. apply calls_ret.
  - unfold youtube_popular, query_int.
    apply (calls_bind 0 3); [apply calls_ret | intros n].
    apply (calls_bind 1 2); [exact Hresolve | intros cid].
    apply (calls_bind 2 0); [apply Hpopular | intros vids]. apply calls_ret.
Qed.

(** X6: a valid call consults the cache under its own key before it does
    anything else: the lookup is the first event it adds to the log, ahead
    of any read of the clock or the environment and of any request. *)
Theorem cache_is_consulted_first (op : Operation) (st : State) :
  valid op ->
  exists more,
    log (snd (run int_of_str repr lower W op st)) =
      log st ++ EvCacheGet (cache_key_of repr op) :: more.
Proof.
  intros Hv.
  destruct op as [h | c | c | c n | c n]; unfold run, cache_key_of;
    try change (format repr (PInt n)) with (pretty n);
    [ unfold resolve_channel_id; cbv zeta;
      change (truthy_opt None) with false; cbv iota;
      rewrite (truthy_opt_nonempty h Hv); cbv [negb];
      change (default EmptyString (Some h)) with h
    | unfold get_channel_statistics | unfold get_uploads_playlist_id
    | unfold get_latest_videos | unfold get_popular_videos ];
    cbv zeta; apply lookup_comes_first; intros cached; grows_tac.
Qed.

End Further.

(** Unfolds the operation of [H : run ... = ...]. *)
Ltac open_run H :=
  unfold run in H;
  try unfold resolve_channel_id in H; try unfold get_channel_statistics in H;
  try unfold get_uploads_playlist_id in H; try unfold get_latest_videos in H;
  try unfold get_popular_videos in H;
  cbv zeta in H.

Section Failures.

Variable int_of_str : string -> option Z.
Variable repr : PyVal -> string.
Variable lower : string -> string.
Variable W : World.

(** X7: a call that raises has stored nothing: the cache is as it was
    before the call, but for an expired entry under the key of the call,
    which the lookup has removed. *)
Theorem failed_call_stores_nothing
    (op : Operation) (st : State) (e : PyExc) (st' : State) :
  run int_of_str repr lower W op st = (Raise e, st') ->
  _cache st' = _cache st \/
  _cache st' = delete (cache_key_of repr op) (_cache st).
Proof.
  intros H.
  destruct op as [h | c | c | c n | c n]; unfold cache_key_of;
    try change (format repr (PInt n)) with (pretty n) in *;
    open_run H;
    try change (format repr (PInt n)) with (pretty n) in *;
    [ change (truthy_opt None) with false in H; cbv iota in H;
      change (default EmptyString (Some h)) with h in H | | | | ];
    unravel_any H; open_facts;
    try match goal with Hk : _ \/ _ |- _ => destruct Hk; [left | right] end;
    simpl; cache_norm; auto.
Qed.

End Failures.
Section Requests.

Variable int_of_str : string -> option Z.
Variable repr : PyVal -> string.
Variable lower : string -> string.
Variable W : World.

Lemma credential_param (k : option string) :
  truthy_opt k = true ->
  exists s, s <> EmptyString /\ k = Some s /\ of_opt k = PStr s.
Proof.
  destruct k as [s |]; [| discriminate]. intros H. exists s.
  split; [| auto]. intros ->. discriminate H.
Qed.

(** X8: every upstream request of an operation goes to an address under
    the base address of the YouTube API with a timeout of ten seconds, and
    carries as its [key] parameter the non-empty credential that the
    process holds in its global: no request is sent without a credential. *)
Theorem requests_carry_the_credential (op : Operation) (st : State) :
  exists more,
    exchanges (log (snd (run int_of_str repr lower W op st))) = exchanges (log st) ++ more /\
    Forall (authorised (snd (run int_of_str repr lower W op st))) more.
Proof.
  destruct (run int_of_str repr lower W op st) as [o st'] eqn:H.
  destruct op as [h | c | c | c n | c n]; open_run H;
    unravel_any H; open_facts; tidy; simpl snd; exchanges_norm.
  all: try (exists []; split; [symmetry; apply app_nil_r | constructor]).
  all: cbn [YOUTUBE_API_KEY record] in *.
  all: match goal with
       | Ht : truthy_opt (YOUTUBE_API_KEY ?s) = true |- _ =>
           destruct (credential_param _ Ht) as (k & Hne & Hsome & Hof)
       end.
  all: rewrite ?Hof.
  all: first [ eexists [_]; split; [reflexivity |]
             | eexists [_; _]; split; [rewrite <- app_assoc; reflexivity |] ].
  all: repeat constructor; simpl fst; try reflexivity.
  all: exists k; split; [exact Hne |]; split; [| reflexivity].
  all: repeat match goal with
       | Hx : YOUTUBE_API_KEY ?a = _ |- context [YOUTUBE_API_KEY ?a] => rewrite Hx
       end; cbn [YOUTUBE_API_KEY record]; try reflexivity; try exact Hsome.
Qed.

(** X9: the errors of the five operations. Besides the exceptions of the
    interpreter and of the libraries, an operation raises only the 502
    error for an upstream answer, the 404 error of a resolution or of the
    statistics that found no channel, and the 400 error of a resolution
    without a handle; looking up the uploads playlist or one of the two
    video lists raises no 4xx error at all, and no operation turns a
    request down as invalid. *)
Theorem operations_error_kinds
    (op : Operation) (st : State) (e : PyExc) (st' : State) :
  run int_of_str repr lower W op st = (Raise e, st') ->
  plain e \/
  (exists excerpt, e = HTTPException 502 ("YouTube API error: " +:+ excerpt) /\
                   (String.length excerpt <= 200)%nat) \/
  (e = HTTPException 404 "Channel not found for handle" /\ exists h, op = OpResolve h) \/
  (e = HTTPException 404 "Channel not found" /\ exists c, op = OpStatistics c) \/
  (e = HTTPException 400 "Provide either handle or channelId" /\ op = OpResolve EmptyString).
Proof.
  intros H.
  destruct op as [h | c | c | c n | c n]; open_run H;
    unravel_any H;
    repeat match goal with
           | Hr : Raise _ = Raise _ |- _ => injection Hr as Hr; subst
           end.
  all: first
    [ left; exact I
    | left; match goal with
            | Hm : _ = Raise ?e |- plain ?e => revert Hm; solve [plain_tac]
            end
    | right; left; eexists; split; [reflexivity | apply str_take_length]
    | right; right; left; split; [reflexivity | eauto]
    | right; right; right; left; split; [reflexivity | eauto]
    | right; right; right; right; split; [reflexivity |];
      destruct h; [reflexivity | discriminate] ].
Qed.

End Requests.
Section EmptyAnswers.

Variable int_of_str : string -> option Z.
Variable repr : PyVal -> string.
Variable lower : string -> string.
Variable W : World.

Lemma falsy_iter (items : PyVal) :
  truthy items = false ->
  py_iter items = Return [] \/ py_iter items = Raise TypeError.
Proof.
  destruct items as [| b | z | s | l | kv]; simpl; auto.
  - destruct s; [auto | discriminate].
  - destruct l; [auto | discriminate].
  - destruct kv; [auto | discriminate].
Qed.

(** X10: what each operation makes of a successful upstream answer that
    lists no item. A resolution and the statistics raise their 404 error,
    the lookup of the uploads playlist returns [None], and the two video
    lists return the empty list, unless the answer carries under [items]
    something that cannot be iterated, such as [null]: that is a
    [TypeError], where the first three operations still answer as said. *)
Theorem answer_without_items
    (op : Operation) (st : State) (o : Outcome PyVal) (st' : State)
    (req : Request) (r : Response) :
  run int_of_str repr lower W op st = (o, st') ->
  exchanges (log st') = exchanges (log st) ++ [(req, Some r)] ->
  lists_no_items r ->
  match op with
  | OpResolve _ => o = Raise (HTTPException 404 "Channel not found for handle")
  | OpStatistics _ => o = Raise (HTTPException 404 "Channel not found")
  | OpUploads _ => o = Return PNone
  | OpLatest _ _ | OpPopular _ _ => o = Return (PList []) \/ o = Raise TypeError
  end.
Proof.
  intros H Hex Hempty. apply lists_no_items_iff in Hempty.
  destruct Hempty as (Hs & body & items & Hj & Hget & Hf).
  destruct (falsy_iter items Hf) as [Hiter | Hiter].
  all: destruct op as [h | c | c | c n | c n]; open_run H;
    unravel_any H; open_facts; revert Hex; exchanges_norm; intros Hex;
    try (apply app_same_nil in Hex; discriminate Hex);
    try (rewrite <- app_assoc in Hex);
    apply app_inv_head in Hex; try discriminate Hex;
    injection Hex as ? ?; subst; try discriminate; tidy; try congruence.
  all: try match goal with
       | Hx : json ?r0 = Some ?p, Hy : json ?r0 = Some _ |- _ =>
           rewrite Hy in Hx; injection Hx as Hx; subst p
       end.
  all: repeat match goal with
       | Hx : context [py_get ?b "items" (PList [])],
         Hy : py_get ?b "items" (PList []) = Return _ |- _ => rewrite Hy in Hx
       end.
  all: cbn [obind] in *.
  all: repeat match goal with
       | Hx : Return _ = Return _ |- _ => injection Hx as Hx; subst
       end.
  all: repeat match goal with
       | Hx : context [py_iter ?i], Hy : py_iter ?i = _ |- _ => rewrite Hy in Hx
       end.
  all: cbn [obind mapM candidate_ids] in *.
  all: repeat match goal with
       | Hx : Return _ = Return _ |- _ => injection Hx as Hx; subst
       | Hx : Raise _ = Raise _ |- _ => injection Hx as Hx; subst
       end.
  all: try discriminate; try congruence; auto.
Qed.

End EmptyAnswers.
Section Fallback.

Variable int_of_str : string -> option Z.
Variable repr : PyVal -> string.
Variable lower : string -> string.
Variable W : World.

Lemma same_surroundings_credential (st st' : State) :
  same_surroundings st st' -> has_credential st' = has_credential st.
Proof. intros (Hk & He & _). unfold has_credential. rewrite Hk, He. reflexivity. Qed.

Lemma store_and_return (key : string) (demo : PyVal) (s : State) :
  exists s', (let! _ := _cache_set W key demo in ret demo) s = (Return demo, s') /\
             same_surroundings s s'.
Proof.
  destruct (_cache_set W key demo s) as [o s'] eqn:Hset.
  destruct (cache_set_inv W key demo s o s' Hset) as (-> & _ & Hsame).
  exists s'. rewrite (bind_return _ _ _ _ _ Hset). auto.
Qed.

(** The common shape of the five operations, on a miss and without a
    credential: the fallback branch [fb] is taken. *)
Lemma miss_without_credential (key : string) (fb live : M PyVal) (demo : PyVal)
    (st : State) :
  cache_hit W key st = false ->
  has_credential st = false ->
  (forall s, exists s', fb s = (Return demo, s') /\ same_surroundings s s') ->
  exists st',
    (let! cached := _cache_get W key in
     if truthy cached then ret cached
     else
       let! has_key := _ensure_api_key in
       if negb has_key then fb else live) st = (Return demo, st') /\
    exchanges (log st') = exchanges (log st) /\
    has_credential st' = false.
Proof.
  intros Hmiss Hcred Hfb.
  destruct (cache_get_cases W key st) as (st1 & Hget & Hsame1 & _).
  rewrite (bind_return _ _ _ _ _ Hget). unfold cache_hit in Hmiss. rewrite Hmiss.
  pose proof (same_surroundings_credential _ _ Hsame1) as Hcred1. rewrite Hcred in Hcred1.
  destruct (ensure_api_key_run st1) as (st2 & Hgate & Hlog2 & _ & Henv2 & Hkey2).
  rewrite (bind_return _ _ _ _ _ Hgate), Hcred1. cbv [negb].
  destruct (Hfb st2) as (st3 & Hrun & Hsame3).
  exists st3. split; [exact Hrun |].
  pose proof (same_surroundings_credential _ _ Hsame3) as Hcred3.
  destruct Hsame1 as (_ & _ & Hex1). destruct Hsame3 as (_ & _ & Hex3).
  split.
  - rewrite Hex3, Hlog2, exchanges_app, Hex1.
    unfold gate_events. destruct (truthy_opt (YOUTUBE_API_KEY st1)); simpl;
      apply app_nil_r.
  - rewrite Hcred3. unfold has_credential in *. rewrite Hkey2, Henv2.
    apply orb_false_iff in Hcred1 as [-> ->]. reflexivity.
Qed.

Lemma run_in_fallback_mode (op : Operation) (st : State) :
  valid op ->
  has_credential st = false ->
  exists st',
    run int_of_str repr lower W op st =
      (Return (if cache_hit W (cache_key_of repr op) st
               then cached_value W (cache_key_of repr op) st
               else fallback_value repr lower op), st') /\
    exchanges (log st') = exchanges (log st) /\
    has_credential st' = false.
Proof.
  intros Hv Hcred.
  destruct (cache_hit W (cache_key_of repr op) st) eqn:Hhit.
  - destruct (served_from_cache int_of_str repr lower W op st Hv Hhit)
      as (st' & Hrun & Hsame & _).
    exists st'. split; [exact Hrun |].
    rewrite (same_surroundings_credential _ _ Hsame).
    destruct Hsame as (_ & _ & Hex). auto.
  - destruct op as [h | c | c | c n | c n]; unfold run, fallback_value;
      unfold cache_key_of in Hhit;
      try change (format repr (PInt n)) with (pretty n) in *;
      [ unfold resolve_channel_id; cbv zeta;
        change (truthy_opt None) with false; cbv iota;
        rewrite (truthy_opt_nonempty h Hv); cbv [negb];
        change (default EmptyString (Some h)) with h
      | unfold get_channel_statistics | unfold get_uploads_playlist_id
      | unfold get_latest_videos | unfold get_popular_videos ];
      cbv zeta;
      (apply miss_without_credential; [exact Hhit | exact Hcred | intros s]);
      try apply store_and_return.
    rewrite fallback_map_get. erewrite bind_return by reflexivity.
    apply store_and_return.
Qed.

(** X11: without a credential, neither in the global nor in the
    environment, no valid call fails and none reaches the upstream: it
    returns the truthy value it finds in the cache, or else the synthetic
    value of the operation, which does not depend on what the channel is
    beyond its identifier. *)
Theorem fallback_mode_never_fails (op : Operation) (st : State) :
  valid op ->
  has_credential st = false ->
  exists st',
    run int_of_str repr lower W op st =
      (Return (if cache_hit W (cache_key_of repr op) st
               then cached_value W (cache_key_of repr op) st
               else fallback_value repr lower op), st') /\
    exchanges (log st') = exchanges (log st) /\
    has_credential st' = false.
Proof.
  intros Hv Hcred.
  destruct (cache_hit W (cache_key_of repr op) st) eqn:Hhit.
  - destruct (served_from_cache int_of_str repr lower W op st Hv Hhit)
      as (st' & Hrun & Hsame & _).
    exists st'. split; [exact Hrun |].
    rewrite (same_surroundings_credential _ _ Hsame).
    destruct Hsame as (_ & _ & Hex). auto.
  - destruct op as [h | c | c | c n | c n]; unfold run, fallback_value;
      unfold cache_key_of in Hhit;
      try change (format repr (PInt n)) with (pretty n) in *;
      [ unfold resolve_channel_id; cbv zeta;
        change (truthy_opt None) with false; cbv iota;
        rewrite (truthy_opt_nonempty h Hv); cbv [negb];
        change (default EmptyString (Some h)) with h
      | unfold get_channel_statistics | unfold get_uploads_playlist_id
      | unfold get_latest_videos | unfold get_popular_videos ];
      cbv zeta;
      (apply miss_without_credential; [exact Hhit | exact Hcred | intros s]);
      try apply store_and_return.
    rewrite fallback_map_get. erewrite bind_return by reflexivity.
    apply store_and_return.
Qed.

Lemma answers_offline_ret {A : Type} (a : A) : answers_offline (ret a).
Proof. intros st Hc. exists a, st. auto. Qed.

Lemma answers_offline_bind {A B : Type} (m : M A) (k : A -> M B) :
  answers_offline m -> (forall a, answers_offline (k a)) -> answers_offline (bind m k).
Proof.
  intros Hm Hk st Hc. destruct (Hm st Hc) as (a & st1 & Hrun & Hex1 & Hc1).
  destruct (Hk a st1 Hc1) as (b & st2 & Hrun2 & Hex2 & Hc2).
  exists b, st2. rewrite (bind_return _ _ _ _ _ Hrun). split; [exact Hrun2 |].
  split; [congruence | exact Hc2].
Qed.

Lemma run_answers_offline (op : Operation) :
  valid op -> answers_offline (run int_of_str repr lower W op).
Proof.
  intros Hv st Hc. destruct (run_in_fallback_mode op st Hv Hc) as (st' & Hrun & H).
  eexists; exists st'. split; [exact Hrun | exact H].
Qed.

Lemma resolve_answers_offline (handle channel_id : option string) :
  truthy_opt handle = true \/ truthy_opt channel_id = true ->
  answers_offline (resolve_channel_id lower W handle channel_id).
Proof.
  intros Hgiven st Hc.
  destruct (truthy_opt channel_id) eqn:Hid.
  - exists (of_opt channel_id), st. unfold resolve_channel_id. rewrite Hid. auto.
  - destruct Hgiven as [Hh | Hh]; [| discriminate Hh].
    destruct handle as [h |]; [| discriminate Hh].
    assert (Hv : valid (OpResolve h)).
    { simpl. intros ->. discriminate Hh. }
    destruct (run_answers_offline (OpResolve h) Hv st Hc) as (cid & st' & Hrun & H).
    exists cid, st'. split; [| exact H].
    rewrite <- Hrun. unfold run, resolve_channel_id. rewrite Hid. reflexivity.
Qed.

(** X12: the endpoints degrade gracefully. Without a credential, a request
    that names a handle or a channel id is answered by the latest and the
    popular endpoint whatever its [maxResults], and by the overview
    endpoint when its [maxResults] is within 1 and 12: none of them fails
    and none makes an upstream request. *)
Theorem endpoints_degrade_gracefully
    (handle channelId : option string) (maxResults : option Z) :
  truthy_opt handle = true \/ truthy_opt channelId = true ->
  answers_offline (youtube_latest repr lower W handle channelId maxResults) /\
  answers_offline (youtube_popular int_of_str repr lower W handle channelId maxResults) /\
  (1 <= default 6 maxResults <= 12 ->
   answers_offline (youtube_overview int_of_str repr lower W handle channelId maxResults)).
Proof.
  intros Hgiven.
  pose proof (resolve_answers_offline handle channelId Hgiven) as Hresolve.
  pose proof (fun c => run_answers_offline (OpStatistics c) I) as Hstats.
  pose proof (fun c n => run_answers_offline (OpLatest c n) I) as Hlatest.
  pose proof (fun c n => run_answers_offline (OpPopular c n) I) as Hpopular.
  simpl in Hstats, Hlatest, Hpopular.
  split; [| split].
  - unfold youtube_latest, query_int.
    repeat (apply answers_offline_bind; [auto using answers_offline_ret | intros ?]).
    apply answers_offline_ret.
  - unfold youtube_popular, query_int.
    repeat (apply answers_offline_bind; [auto using answers_offline_ret | intros ?]).
    apply answers_offline_ret.
  - intros [Hlo Hhi]. unfold youtube_overview, query_bounded.
    apply Z.leb_le in Hlo, Hhi. rewrite Hlo, Hhi. cbv [andb].
    repeat (apply answers_offline_bind; [auto using answers_offline_ret | intros ?]).
    apply answers_offline_ret.
Qed.

End Fallback.
Section Validation.

Variable int_of_str : string -> option Z.
Variable repr : PyVal -> string.
Variable lower : string -> string.
Variable W : World.

(** X13: the overview endpoint turns a request down as invalid exactly
    when its [maxResults], 6 when absent, lies outside 1 to 12; a request
    it turns down leaves the whole state of the process as it was, and a
    request it lets through is never turned down later on. *)
Theorem overview_validates_max_results
    (handle channelId : option string) (maxResults : option Z) (st : State) :
  (~ 1 <= default 6 maxResults <= 12 ->
   youtube_overview int_of_str repr lower W handle channelId maxResults st =
     (Raise RequestValidationError, st)) /\
  (1 <= default 6 maxResults <= 12 ->
   fst (youtube_overview int_of_str repr lower W handle channelId maxResults st) <>
     Raise RequestValidationError).
Proof.
  split.
  - intros Hout. unfold youtube_overview, bind, query_bounded.
    replace ((1 <=? default 6 maxResults) && (default 6 maxResults <=? 12)) with false;
      [reflexivity |].
    symmetry. apply andb_false_iff.
    destruct (Z.leb_spec 1 (default 6 maxResults)); [| auto].
    destruct (Z.leb_spec (default 6 maxResults) 12); [| auto]. lia.
  - intros [Hlo Hhi]. revert st.
    change (never_rejects (youtube_overview int_of_str repr lower W handle channelId maxResults)).
    unfold youtube_overview, query_bounded.
    apply Z.leb_le in Hlo, Hhi. rewrite Hlo, Hhi. cbv [andb].
    unfold resolve_channel_id, get_channel_statistics, get_latest_videos,
      get_popular_videos.
    cbv zeta. never_rejects_tac.
Qed.

End Validation.
Section Statistics.

Variable int_of_str : string -> option Z.
Variable repr : PyVal -> string.
Variable lower : string -> string.
Variable W : World.

Lemma statistics_of_item_shape (item out : PyVal) :
  statistics_of_item int_of_str item = Return out -> statistics_shape out.
Proof.
  unfold statistics_of_item. intros H.
  repeat (apply obind_inv_return in H as (? & ? & H)).
  injection H as <-. unfold statistics_shape. eauto 6.
Qed.

Lemma demo_statistics_shape : statistics_shape demo_statistics.
Proof. unfold statistics_shape, demo_statistics. eauto 6. Qed.

Lemma statistics_entry_after (c : PyVal) (st : State) (o : Outcome PyVal)
    (st' : State) (e : CacheEntry) :
  get_channel_statistics int_of_str repr W c st = (o, st') ->
  _cache st' !! ("stats:" +:+ format repr c) = Some e ->
  _cache st !! ("stats:" +:+ format repr c) = Some e \/ statistics_shape (data e).
Proof.
  intros H He. unfold get_channel_statistics in H. cbv zeta in H.
  unravel_any H; open_facts;
    match goal with Hk : _ \/ _ |- _ => destruct Hk end;
    simpl in He; revert He; cache_norm; intros He;
    first
      [ left; exact He
      | rewrite lookup_delete_eq in He; discriminate He
      | rewrite lookup_insert_eq in He; injection He as He; subst e; right; simpl;
        first
          [ apply demo_statistics_shape
          | match goal with
            | Hm : obind _ _ = Return ?out |- statistics_shape ?out =>
                apply obind_inv_return in Hm as (? & _ & Hm);
                exact (statistics_of_item_shape _ _ Hm)
            end ] ].
Qed.

Lemma statistics_entries_kept (op : Operation) (st : State)
    (o : Outcome PyVal) (st' : State) :
  run int_of_str repr lower W op st = (o, st') ->
  statistics_entries st -> statistics_entries st'.
Proof.
  intros Hrun Hinv s e He.
  destruct (decide ("stats:" +:+ s = cache_key_of repr op)) as [Hkey | Hkey].
  - destruct op as [h | c | c | c m | c m]; unfold cache_key_of in Hkey;
      try discriminate Hkey.
    rewrite Hkey in He. unfold run in Hrun.
    destruct (statistics_entry_after c st o st' e Hrun He) as [Hold | Hnew].
    + rewrite <- Hkey in Hold. exact (Hinv s e Hold).
    + exact Hnew.
  - pose proof (run_only_touches int_of_str repr lower W op st _ Hkey) as Hsame.
    rewrite Hrun in Hsame. simpl in Hsame. rewrite Hsame in He.
    exact (Hinv s e He).
Qed.

Lemma reachable_statistics (st : State) :
  reachable int_of_str repr lower W st -> statistics_entries st.
Proof.
  induction 1 as [key env lg | op st o st' _ IH Hrun | env st _ IH].
  - intros s e He. simpl in He. rewrite lookup_empty in He. discriminate He.
  - exact (statistics_entries_kept op st o st' Hrun IH).
  - exact IH.
Qed.

Lemma statistics_have_their_shape (c : PyVal) (st : State) (v : PyVal) (st' : State) :
  reachable int_of_str repr lower W st ->
  get_channel_statistics int_of_str repr W c st = (Return v, st') ->
  statistics_shape v.
Proof.
  intros Hreach H.
  destruct (cache_hit W ("stats:" +:+ format repr c) st) eqn:Hhit.
  - destruct (served_from_cache int_of_str repr lower W (OpStatistics c) st I Hhit)
      as (st1 & Hrun & _).
    simpl in Hrun. rewrite Hrun in H. injection H as <- _.
    destruct (hit_returns_entry W _ _ Hhit) as (e & He & ->).
    exact (reachable_statistics st Hreach _ e He).
  - unfold cache_hit in Hhit. unfold get_channel_statistics in H. cbv zeta in H.
    unravel H.
    + apply demo_statistics_shape.
    + match goal with
      | Hm : obind _ _ = Return ?out |- statistics_shape ?out =>
          apply obind_inv_return in Hm as (? & _ & Hm);
          exact (statistics_of_item_shape _ _ Hm)
      end.
Qed.

(** X14: in every state the process reaches from an empty cache, the
    statistics of a channel come back as a dict whose first three items are
    the subscriber, view and video counts, each an [int], from the cache,
    from the fallback and from the upstream alike; so the subscribers
    endpoint, when it answers, answers with the channel id and an integer
    count. *)
Theorem subscriber_count_is_an_integer (st : State) :
  reachable int_of_str repr lower W st ->
  (forall c v st',
     get_channel_statistics int_of_str repr W c st = (Return v, st') ->
     statistics_shape v) /\
  (forall handle channelId v st',
     youtube_subscribers int_of_str repr lower W handle channelId st = (Return v, st') ->
     exists cid n, v = PDict [("channelId", cid); ("subscriberCount", PInt n)]).
Proof.
  intros Hreach. split.
  - intros c v st'. apply statistics_have_their_shape. exact Hreach.
  - intros handle channelId v st' H. unfold youtube_subscribers in H.
    apply bind_inv_return in H as (cid & st1 & Hresolve & H).
    apply bind_inv_return in H as (stats & st2 & Hstats & H).
    pose proof (resolve_stays_reachable int_of_str repr lower W handle channelId st Hreach)
      as Hreach1.
    rewrite Hresolve in Hreach1. simpl in Hreach1.
    destruct (statistics_have_their_shape cid st1 stats st2 Hreach1 Hstats)
      as (n & views & videos & rest & ->).
    apply bind_inv_return in H as (count & st3 & Hcount & H).
    apply lift_inv in Hcount as [Hcount _]. injection Hcount as <-.
    apply ret_inv_return in H as [-> _]. eauto.
Qed.

End Statistics.
Section Latest.

Variable repr : PyVal -> string.
Variable lower : string -> string.
Variable W : World.

Lemma latest_video_renders (it v : PyVal) : latest_video it = Return v -> renders it v.
Proof.
  unfold latest_video. intros H.
  apply obind_inv_return in H as (id & Hid & H).
  apply obind_inv_return in H as (title & Htitle & H).
  apply obind_inv_return in H as (thumbnail & _ & H).
  apply obind_inv_return in H as (publishedAt & Hdate & H).
  injection H as <-. unfold renders. rewrite Hid, Htitle, Hdate. repeat split.
Qed.

Lemma all_rendered (pool videos : list PyVal) :
  Forall2 (fun it v => latest_video it = Return v) pool videos ->
  Forall2 renders pool videos.
Proof.
  induction 1; constructor; [apply latest_video_renders |]; assumption.
Qed.

(** X15: with a credential, a call of [get_latest_videos] that is not
    served from the cache and returns has made one request, and returns
    one video per item of the answer, in the order of the answer: the k-th
    video carries the id, the title and the date of the k-th item. The code
    neither reorders nor drops nor cuts what the upstream lists. *)
Theorem latest_keeps_the_upstream_order
    (channel_id : PyVal) (max_results : Z) (st : State) (v : PyVal) (st' : State) :
  has_credential st = true ->
  cache_hit W (cache_key_of repr (OpLatest channel_id max_results)) st = false ->
  get_latest_videos repr W channel_id max_results st = (Return v, st') ->
  exists req r body items pool videos,
    exchanges (log st') = exchanges (log st) ++ [(req, Some r)] /\
    json r = Some body /\
    py_get body "items" (PList []) = Return items /\
    py_iter items = Return pool /\
    v = PList videos /\
    Forall2 renders pool videos.
Proof.
  intros Hcred Hmiss H. unfold cache_hit, cache_key_of in Hmiss.
  change (format repr (PInt max_results)) with (pretty max_results) in *.
  unfold get_latest_videos in H. cbv zeta in H.
  unravel H; open_facts; tidy.
  - exfalso. unfold has_credential in Hcred.
    match goal with
    | Hk : truthy_opt (YOUTUBE_API_KEY ?s1) = false,
      Hor : truthy_opt (YOUTUBE_API_KEY ?s1) = _ || _ |- _ =>
        rewrite Hk in Hor; symmetry in Hor; apply orb_false_iff in Hor as [Hg He]
    end.
    match goal with
    | Hk0 : YOUTUBE_API_KEY ?s0 = YOUTUBE_API_KEY st,
      He0 : environ ?s0 = environ st |- _ =>
        rewrite <- Hk0, <- He0, Hg, He in Hcred; discriminate Hcred
    end.
  - match goal with
    | Hm : obind _ _ = Return ?videos |- _ =>
        apply obind_inv_return in Hm as (pool & Hpool & Hm);
        apply mapM_inv_return in Hm
    end.
    match goal with
    | Hj : json ?r = Some ?body,
      Hi : py_get ?body "items" _ = Return ?items,
      Hp : py_iter ?items = Return ?its,
      Hl : Forall2 _ ?its ?videos |- _ =>
        eexists; exists r, body, items, its, videos;
        split; [exchanges_norm; reflexivity |];
        repeat (split; [first [assumption | reflexivity] |]);
        exact (all_rendered _ _ Hl)
    end.
Qed.

End Latest.
Section PopularFallback.

Variable int_of_str : string -> option Z.
Variable repr : PyVal -> string.
Variable W : World.

Lemma map_range1 {A : Type} (f : Z -> A) (n : Z) :
  map f (range1 n) = map (fun i : nat => f (Z.of_nat i + 1)) (seq 0 (Z.to_nat n)).
Proof.
  unfold range1, seqZ. generalize (seq 0 (Z.to_nat n)) as l.
  induction l as [| i l IH]; simpl; [reflexivity | f_equal; exact IH].
Qed.

Lemma sorted_map_seq {A : Type} (R : A -> A -> Prop) (g : nat -> A) (len start : nat) :
  (forall a b : nat, (a < b)%nat -> R (g a) (g b)) ->
  StronglySorted R (map g (seq start len)).
Proof.
  intros Hg. revert start. induction len as [| len IH]; intros start; simpl.
  - constructor.
  - constructor; [apply IH |].
    apply List.Forall_forall. intros x Hx. apply in_map_iff in Hx as (b & <- & Hb).
    apply in_seq in Hb. apply Hg. lia.
Qed.

Lemma view_count_popular_demo (n i : Z) :
  view_count (popular_demo n i) = 1000 * (n - i + 1).
Proof. reflexivity. Qed.

(** X16: the fallback list of popular videos is ranked like a live one.
    Without a credential, a call that is not served from the cache returns
    [max_results] synthetic videos (none when [max_results] is negative)
    whose view counts strictly decrease along the list, from
    [1000 * max_results] for the first down to 1000 for the last. *)
Theorem popular_fallback_is_ranked
    (channel_id : PyVal) (max_results : Z) (st : State) (v : PyVal) (st' : State) :
  has_credential st = false ->
  cache_hit W (cache_key_of repr (OpPopular channel_id max_results)) st = false ->
  get_popular_videos int_of_str repr W channel_id max_results st = (Return v, st') ->
  exists l,
    v = PList l /\
    length l = Z.to_nat max_results /\
    StronglySorted (fun a b => view_count b < view_count a) l /\
    Forall (fun x => 1000 <= view_count x <= 1000 * max_results) l.
Proof.
  intros Hcred Hmiss H.
  (* the case mapping plays no part in this operation *)
  destruct (run_in_fallback_mode int_of_str repr (fun s => s) W
              (OpPopular channel_id max_results) st I Hcred) as (st1 & Hrun & _).
  rewrite Hmiss in Hrun. simpl in Hrun. rewrite Hrun in H. injection H as <- _.
  eexists. split; [reflexivity |]. rewrite map_range1.
  split; [rewrite length_map, length_seq; reflexivity |]. split.
  - apply sorted_map_seq. intros a b Hab. rewrite !view_count_popular_demo. lia.
  - apply List.Forall_forall. intros x Hx. apply in_map_iff in Hx as (i & <- & Hi).
    apply in_seq in Hi. rewrite view_count_popular_demo. lia.
Qed.

End PopularFallback.
Section Diagnostics.

Lemma getenv_twice (n1 n2 : string) (v1 v2 : option string) (st : State) :
  exchanges (log (record (EvGetenv n2 v2) (record (EvGetenv n1 v1) st))) =
    exchanges (log st).
Proof. simpl. rewrite !exchanges_app. simpl. rewrite !app_nil_r. reflexivity. Qed.

Lemma dict_lookup_set_eq (k : string) (v : PyVal) (kv : list (string * PyVal)) :
  dict_lookup k (dict_set k v kv) = Some v.
Proof.
  induction kv as [| [k' v'] kv IH]; simpl.
  - rewrite String.eqb_refl. reflexivity.
  - destruct (String.eqb_spec k' k) as [-> | Hne]; simpl.
    + rewrite String.eqb_refl. reflexivity.
    + destruct (String.eqb_spec k' k); [contradiction | exact IH].
Qed.

Lemma dict_lookup_set_ne (k k' : string) (v : PyVal) (kv : list (string * PyVal)) :
  k <> k' -> dict_lookup k (dict_set k' v kv) = dict_lookup k kv.
Proof.
  intros Hne. induction kv as [| [k0 v0] kv IH]; simpl.
  - destruct (String.eqb_spec k' k); [congruence | reflexivity].
  - destruct (String.eqb_spec k0 k') as [-> | Hne0]; simpl.
    + destruct (String.eqb_spec k' k); [congruence | reflexivity].
    + destruct (String.eqb_spec k0 k); [reflexivity | exact IH].
Qed.

(** X17: the diagnostics endpoint never fails, whatever the import of the
    database module does: it returns the six fields of its report, in
    their order, with the backend shown as running; and whatever the
    database is, the fields [database_url] and [database_name] say only
    whether the environment variables DATABASE_URL and DATABASE_NAME hold a
    non-empty value: what the probe wrote there is overwritten. The cache,
    the credential and the upstream are left alone. *)
Theorem test_database_reports_the_environment (imp : Import) (st : State) :
  exists kv st',
    test_database imp st = (Return (PDict kv), st') /\
    map fst kv = ["backend"; "database"; "database_url"; "database_name";
                  "connection_status"; "collections"] /\
    dict_lookup "backend" kv = Some (PStr "✅ Running") /\
    dict_lookup "database_url" kv =
      Some (PStr (if truthy_opt (environ st !! "DATABASE_URL")
                  then "✅ Set" else "❌ Not Set")) /\
    dict_lookup "database_name" kv =
      Some (PStr (if truthy_opt (environ st !! "DATABASE_NAME")
                  then "✅ Set" else "❌ Not Set")) /\
    _cache st' = _cache st /\
    same_surroundings st st'.
Proof.
  unfold test_database, bind, os_getenv, ret. cbv zeta.
  destruct imp as [| message | [[name [message | collections]] |]];
    eexists; eexists; (split; [reflexivity |]);
    cbn [probe_database db_name list_collection_names];
    (repeat split; try reflexivity; apply getenv_twice).
Qed.

Ltac differs :=
  let H := fresh in
  intros H; apply (f_equal (String.get 1%nat)) in H; vm_compute in H; discriminate H.

(** X18: what the diagnostics endpoint reports of the database. The
    connection is shown as connected exactly when the import gave a
    database object; the database is shown as connected and working
    exactly when that object also listed its collections; and the report
    carries at most the first ten of them, and none when the listing
    failed or no database was there. *)
Theorem test_database_reports_the_database (imp : Import) (st : State) :
  exists kv collections,
    fst (test_database imp st) = Return (PDict kv) /\
    (dict_lookup "connection_status" kv = Some (PStr "Connected") <->
     exists db, imp = Imported (Some db)) /\
    (dict_lookup "database" kv = Some (PStr "✅ Connected & Working") <->
     exists db names, imp = Imported (Some db) /\ list_collection_names db = inr names) /\
    dict_lookup "collections" kv = Some (PList collections) /\
    (length collections <= 10)%nat /\
    (collections <> [] ->
     exists db names, imp = Imported (Some db) /\
                      list_collection_names db = inr names /\
                      collections = firstn 10 names).
Proof.
  unfold test_database, bind, os_getenv, ret. cbv zeta.
  destruct imp as [| message | [[name [message | names]] |]];
    eexists;
    [ exists [] | exists [] | exists [] | exists (firstn 10 names) | exists [] ];
    (split; [reflexivity |]);
    cbn [probe_database db_name list_collection_names];
    repeat first [ rewrite dict_lookup_set_eq
                 | rewrite dict_lookup_set_ne by discriminate ];
    cbn [dict_lookup String.eqb Ascii.eqb Bool.eqb];
    (split; [split; [try discriminate; eauto | intros (db & H); try discriminate H; reflexivity] |]);
    (split; [split;
             [ try discriminate; try (intros H; injection H as H; revert H; differs); eauto
             | intros (db & l & H & Hl); try discriminate H;
               try (injection H as <-; discriminate Hl); reflexivity ] |]);
    (split; [reflexivity |]);
    (split; [first [apply firstn_le_length | simpl; lia] |]);
    try congruence; eauto.
Qed.

End Diagnostics.
Section Keys.

Variable int_of_str : string -> option Z.
Variable repr : PyVal -> string.
Variable lower : string -> string.
Variable W : World.

Lemma length_append (a x : string) :
  String.length (a +:+ x) = (String.length a + String.length x)%nat.
Proof.
  induction a as [| c a IH]; [reflexivity |].
  change (String c a +:+ x) with (String c (a +:+ x)). simpl. rewrite IH. reflexivity.
Qed.

Lemma append_inv_tail (a b x : string) : a +:+ x = b +:+ x -> a = b.
Proof.
  revert b. induction a as [| c a IH]; intros [| d b] H.
  - reflexivity.
  - exfalso. apply (f_equal String.length) in H.
    change (String d b +:+ x) with (String d (b +:+ x)) in H.
    change (EmptyString +:+ x) with x in H.
    simpl in H. rewrite length_append in H. lia.
  - exfalso. apply (f_equal String.length) in H.
    change (String c a +:+ x) with (String c (a +:+ x)) in H.
    change (EmptyString +:+ x) with x in H.
    simpl in H. rewrite length_append in H. lia.
  - change (String c (a +:+ x) = String d (b +:+ x)) in H.
    injection H as -> H. rewrite (IH b H). reflexivity.
Qed.

Lemma list_key_inv (category s1 s2 : string) (m1 m2 : Z) :
  category +:+ s1 +:+ ":" +:+ pretty m1 = category +:+ s2 +:+ ":" +:+ pretty m2 ->
  s1 = s2 /\ m1 = m2.
Proof.
  intros H. pose proof (list_key_inj _ _ _ _ _ H) as ->. split; [| reflexivity].
  apply append_inv_head in H. exact (append_inv_tail _ _ _ H).
Qed.

Lemma key_shared (op1 op2 : Operation) :
  cache_key_of repr op1 = cache_key_of repr op2 <-> shares_entry repr op1 op2.
Proof.
  split.
  - destruct op1 as [h1 | c1 | c1 | c1 n1 | c1 n1], op2 as [h2 | c2 | c2 | c2 n2 | c2 n2];
      unfold cache_key_of, shares_entry; try discriminate;
      try change (format repr (PInt n1)) with (pretty n1);
      try change (format repr (PInt n2)) with (pretty n2);
      intros H;
      first [ exact (append_inv_head _ _ _ H) | exact (list_key_inv _ _ _ _ _ H) ].
  - destruct op1 as [h1 | c1 | c1 | c1 n1 | c1 n1], op2 as [h2 | c2 | c2 | c2 n2 | c2 n2];
      unfold cache_key_of, shares_entry; try contradiction;
      [intros -> | intros -> | intros -> | intros [-> ->] | intros [-> ->]]; reflexivity.
Qed.

(** X19: calls are cached apart. Two calls go by the same cache key
    exactly when they are the same operation on channel ids that read the
    same, with the same [max_results]; and a call, whatever its outcome,
    leaves the entry of every call it does not share a key with as it
    was. *)
Theorem calls_are_cached_apart (op1 op2 : Operation) (st : State) :
  (cache_key_of repr op1 = cache_key_of repr op2 <-> shares_entry repr op1 op2) /\
  (~ shares_entry repr op1 op2 ->
   _cache (snd (run int_of_str repr lower W op1 st)) !! cache_key_of repr op2 =
     _cache st !! cache_key_of repr op2).
Proof.
  split; [apply key_shared |].
  intros Hapart. apply run_only_touches.
  intros Hkey. apply Hapart. apply key_shared. symmetry. exact Hkey.
Qed.

End Keys.
Section Expiry.

Variable int_of_str : string -> option Z.
Variable repr : PyVal -> string.
Variable lower : string -> string.
Variable W : World.

Lemma stale_is_miss (key : string) (e : CacheEntry) (st : State) :
  _cache st !! key = Some e ->
  (1200 < clock W (log st ++ [EvCacheGet key]) - ts e)%Q ->
  cached_value W key st = PNone.
Proof.
  intros He Hage. unfold cached_value, _cache_get, bind, cache_lookup, time_time.
  rewrite He. simpl.
  destruct (Qlt_le_dec _ _) as [_ | Hyoung]; [reflexivity |].
  unfold CACHE_TTL_SECONDS in Hyoung. exfalso. lra.
Qed.

Lemma credential_after_gate (st st0 st1 : State) :
  has_credential st = true ->
  YOUTUBE_API_KEY st0 = YOUTUBE_API_KEY st ->
  environ st0 = environ st ->
  truthy_opt (YOUTUBE_API_KEY st1) =
    truthy_opt (YOUTUBE_API_KEY st0) || truthy_opt (environ st0 !! "YOUTUBE_API_KEY") ->
  truthy_opt (YOUTUBE_API_KEY st1) = false -> False.
Proof.
  unfold has_credential. intros Hc Hk He Hor Hf.
  rewrite Hk, He, Hc in Hor. congruence.
Qed.

Lemma miss_with_credential_asks_upstream (op : Operation) (st : State) :
  valid op ->
  cache_hit W (cache_key_of repr op) st = false ->
  has_credential st = true ->
  exists req answer more,
    exchanges (log (snd (run int_of_str repr lower W op st))) =
      exchanges (log st) ++ (req, answer) :: more.
Proof.
  intros Hv Hmiss Hcred. unfold cache_hit in Hmiss.
  destruct (run int_of_str repr lower W op st) as [o st'] eqn:H.
  destruct op as [h | c | c | c n | c n]; unfold cache_key_of in Hmiss;
    try change (format repr (PInt n)) with (pretty n) in *;
    open_run H;
    try change (format repr (PInt n)) with (pretty n) in *;
    [ change (truthy_opt None) with false in H; cbv iota in H;
      rewrite (truthy_opt_nonempty h Hv) in H; change (negb true) with false in H;
      cbv iota in H;
      change (default EmptyString (Some h)) with h in H | | | | ];
    unravel_any H; open_facts; tidy;
    try (exfalso; eapply credential_after_gate; eassumption);
    simpl snd; exchanges_norm; rewrite <- ?app_assoc; simpl; eauto.
Qed.

(** X20: results are refreshed after the TTL. A valid call that finds
    under its key an entry older than 1200 seconds is not served from it,
    however truthy its value: without a credential it returns the
    synthetic value of the operation, and with one it asks the upstream. *)
Theorem expired_entry_is_fetched_again (op : Operation) (st : State) (e : CacheEntry) :
  valid op ->
  _cache st !! cache_key_of repr op = Some e ->
  (1200 < clock W (log st ++ [EvCacheGet (cache_key_of repr op)]) - ts e)%Q ->
  cache_hit W (cache_key_of repr op) st = false /\
  (has_credential st = false ->
   exists st', run int_of_str repr lower W op st = (Return (fallback_value repr lower op), st')) /\
  (has_credential st = true ->
   exists req answer more,
     exchanges (log (snd (run int_of_str repr lower W op st))) =
       exchanges (log st) ++ (req, answer) :: more).
Proof.
  intros Hv He Hage.
  assert (Hmiss : cache_hit W (cache_key_of repr op) st = false).
  { unfold cache_hit. rewrite (stale_is_miss _ e st He Hage). reflexivity. }
  split; [exact Hmiss |]. split.
  - intros Hcred.
    destruct (run_in_fallback_mode int_of_str repr lower W op st Hv Hcred) as (st' & Hrun & _).
    rewrite Hmiss in Hrun. eauto.
  - apply miss_with_credential_asks_upstream; assumption.
Qed.

End Expiry.

(** * The further properties on concrete scenarios *)

(** X3, on the fallback list of two latest videos: the second call finds
    the entry of the first, four events old. *)
Lemma repeated_call_witness :
  exists st'',
    run no_int no_repr ascii_lower offline (OpLatest (PStr "UCx") 2) (snd first_fallback_call) =
      (Return (value_of first_fallback_call), st'') /\
    exchanges (log st'') = exchanges (log (snd first_fallback_call)) /\
    _cache st'' = _cache (snd first_fallback_call).
Proof.
  apply (repeated_call_is_served_from_cache no_int no_repr ascii_lower offline
           (OpLatest (PStr "UCx") 2) (fresh_process None ∅)).
  - vm_compute. reflexivity.
  - reflexivity.
  - intros e He. vm_compute in He. injection He as <-. vm_compute. discriminate.
Defined.

(** X6, for the resolution of a handle. *)
Lemma cache_is_consulted_first_witness :
  exists more,
    log (snd (run no_int no_repr ascii_lower offline (OpResolve "@h") (fresh_process None ∅))) =
      log (fresh_process None ∅) ++ EvCacheGet "resolve:@h" :: more.
Proof.
  apply (cache_is_consulted_first no_int no_repr ascii_lower offline (OpResolve "@h")).
  discriminate.
Defined.

(** X7, for a call that the upstream answers with a 503. *)
Lemma failed_call_stores_nothing_witness :
  _cache (snd failed_call) = _cache (fresh_process (Some "secret") ∅) \/
  _cache (snd failed_call) =
    delete (cache_key_of no_repr (OpLatest (PStr "UCx") 2))
      (_cache (fresh_process (Some "secret") ∅)).
Proof.
  apply (failed_call_stores_nothing no_int no_repr ascii_lower (answering bad_gateway)
           (OpLatest (PStr "UCx") 2) (fresh_process (Some "secret") ∅)
           (upstream_error bad_gateway)).
  vm_compute. reflexivity.
Defined.

(** X9, for the same call: its error is the 502 error. *)
Lemma operations_error_kinds_witness :
  plain (upstream_error bad_gateway) \/
  (exists excerpt,
     upstream_error bad_gateway = HTTPException 502 ("YouTube API error: " +:+ excerpt) /\
     (String.length excerpt <= 200)%nat) \/
  (upstream_error bad_gateway = HTTPException 404 "Channel not found for handle" /\
   exists h, OpLatest (PStr "UCx") 2 = OpResolve h) \/
  (upstream_error bad_gateway = HTTPException 404 "Channel not found" /\
   exists c, OpLatest (PStr "UCx") 2 = OpStatistics c) \/
  (upstream_error bad_gateway = HTTPException 400 "Provide either handle or channelId" /\
   OpLatest (PStr "UCx") 2 = OpResolve EmptyString).
Proof.
  apply (operations_error_kinds no_int no_repr ascii_lower (answering bad_gateway)
           (OpLatest (PStr "UCx") 2) (fresh_process (Some "secret") ∅)
           (upstream_error bad_gateway) (snd failed_call)).
  vm_compute. reflexivity.
Defined.

(** X10, for the statistics of a channel the upstream does not list. *)
Lemma answer_without_items_witness :
  lists_no_items (ok_json (PDict [])) /\
  fst unlisted_channel = Raise (HTTPException 404 "Channel not found").
Proof.
  assert (Hempty : lists_no_items (ok_json (PDict []))).
  { split; [reflexivity |]. exists []. split; [reflexivity | exact I]. }
  split; [exact Hempty |].
  apply (answer_without_items no_int no_repr ascii_lower (answering (ok_json (PDict [])))
           (OpStatistics (PStr "UCx")) (fresh_process (Some "secret") ∅)
           (fst unlisted_channel) (snd unlisted_channel)
           statistics_request (ok_json (PDict []))).
  - vm_compute. reflexivity.
  - vm_compute. reflexivity.
  - exact Hempty.
Defined.

(** X11, for the resolution of a handle in a fresh process. *)
Lemma fallback_mode_never_fails_witness :
  exists st',
    run no_int no_repr ascii_lower offline (OpResolve "@Some") (fresh_process None ∅) =
      (Return (if cache_hit offline (cache_key_of no_repr (OpResolve "@Some"))
                    (fresh_process None ∅)
               then cached_value offline (cache_key_of no_repr (OpResolve "@Some"))
                      (fresh_process None ∅)
               else fallback_value no_repr ascii_lower (OpResolve "@Some")), st') /\
    exchanges (log st') = exchanges (log (fresh_process None ∅)) /\
    has_credential st' = false.
Proof.
  apply (fallback_mode_never_fails no_int no_repr ascii_lower offline (OpResolve "@Some")
           (fresh_process None ∅)).
  - discriminate.
  - reflexivity.
Defined.

(** X12, for a request that names a handle and no [maxResults]. *)
Lemma endpoints_degrade_gracefully_witness :
  answers_offline (youtube_latest no_repr ascii_lower offline (Some "@h") None None) /\
  answers_offline (youtube_popular no_int no_repr ascii_lower offline (Some "@h") None None) /\
  (1 <= default 6 None <= 12 ->
   answers_offline (youtube_overview no_int no_repr ascii_lower offline (Some "@h") None None)).
Proof.
  apply (endpoints_degrade_gracefully no_int no_repr ascii_lower offline (Some "@h") None None).
  left. reflexivity.
Defined.

(** X14, in a fresh process. *)
Lemma subscriber_count_is_an_integer_witness :
  (forall c v st',
     get_channel_statistics no_int no_repr offline c (fresh_process None ∅) =
       (Return v, st') ->
     statistics_shape v) /\
  (forall handle channelId v st',
     youtube_subscribers no_int no_repr ascii_lower offline handle channelId
       (fresh_process None ∅) =
       (Return v, st') ->
     exists cid n, v = PDict [("channelId", cid); ("subscriberCount", PInt n)]).
Proof.
  apply (subscriber_count_is_an_integer no_int no_repr ascii_lower offline
           (fresh_process None ∅)).
  exact (reach_start no_int no_repr ascii_lower offline None ∅ []).
Defined.

(** X15, for an upstream that lists three videos. *)
Lemma latest_keeps_the_upstream_order_witness :
  exists req r body items pool videos,
    exchanges (log (snd listed_call)) =
      exchanges (log (fresh_process (Some "secret") ∅)) ++ [(req, Some r)] /\
    json r = Some body /\
    py_get body "items" (PList []) = Return items /\
    py_iter items = Return pool /\
    value_of listed_call = PList videos /\
    Forall2 renders pool videos.
Proof.
  apply (latest_keeps_the_upstream_order no_repr (answering three_found) (PStr "UCx") 3
           (fresh_process (Some "secret") ∅)).
  - reflexivity.
  - reflexivity.
  - vm_compute. reflexivity.
Defined.

(** X16, for three videos. *)
Lemma popular_fallback_is_ranked_witness :
  exists l,
    value_of popular_fallback_call = PList l /\
    length l = Z.to_nat 3 /\
    StronglySorted (fun a b => view_count b < view_count a) l /\
    Forall (fun x => 1000 <= view_count x <= 1000 * 3) l.
Proof.
  apply (popular_fallback_is_ranked no_int no_repr offline (PStr "UCx") 3
           (fresh_process None ∅) _ (snd popular_fallback_call)).
  - reflexivity.
  - reflexivity.
  - vm_compute. reflexivity.
Defined.

(** X20, for statistics stored at time 0 and asked for at time 1201. *)
Lemma expired_entry_is_fetched_again_witness :
  cache_hit (frozen 1201) (cache_key_of no_repr (OpStatistics (PStr "UCx")))
    (one_entry "stats:UCx" (PInt 7) []) = false /\
  (has_credential (one_entry "stats:UCx" (PInt 7) []) = false ->
   exists st',
     run no_int no_repr ascii_lower (frozen 1201) (OpStatistics (PStr "UCx"))
       (one_entry "stats:UCx" (PInt 7) []) =
       (Return (fallback_value no_repr ascii_lower (OpStatistics (PStr "UCx"))), st')) /\
  (has_credential (one_entry "stats:UCx" (PInt 7) []) = true ->
   exists req answer more,
     exchanges (log (snd (run no_int no_repr ascii_lower (frozen 1201) (OpStatistics (PStr "UCx"))
                            (one_entry "stats:UCx" (PInt 7) [])))) =
       exchanges (log (one_entry "stats:UCx" (PInt 7) [])) ++ (req, answer) :: more).
Proof.
  apply (expired_entry_is_fetched_again no_int no_repr ascii_lower (frozen 1201)
           (OpStatistics (PStr "UCx")) (one_entry "stats:UCx" (PInt 7) [])
           {| ts := 0; data := PInt 7 |}).
  - exact I.
  - reflexivity.
  - reflexivity.
Defined.
